(** * The asynchronous task bridge of the X509 CRL binding

    A shallow embedding of
    [frameworks/js/napi/certificate/src/napi_x509_crl.cpp]: the per-call
    context [CfCtx], the completion-mode selector, the worker executors,
    the result dispatchers, the entry points that schedule them, and the
    synchronous getters that wrap native objects.

    The C++ code runs against two stores: the native heap ([HcfMalloc],
    [CfFree], [new], [CfObjDestroy]) and the script engine's objects
    (references, deferreds, async-work handles, instances, arrays).
    Both are explicit in [World]; every function of the source is a
    computation in the monad [M] over it. *)

From stdpp Require Import gmap strings list fin_maps.
From Stdlib Require Import ZArith Lia.

Local Open Scope N_scope.

(** ** Values *)

(** A native pointer or an engine handle; [0] is [nullptr]. *)
Abbreviation ptr := N (only parsing).
Definition nullptr : ptr := 0.
Definition is_null (p : ptr) : bool := N.eqb p 0.

(** [CfResult]: the enumerators named in the source, and any other one. *)
Inductive CfResult :=
| CF_SUCCESS
| CF_INVALID_PARAMS
| CF_ERR_MALLOC
| CF_ERR_OTHER (code : Z).

Definition CfResult_eqb (a b : CfResult) : bool :=
  match a, b with
  | CF_SUCCESS, CF_SUCCESS => true
  | CF_INVALID_PARAMS, CF_INVALID_PARAMS => true
  | CF_ERR_MALLOC, CF_ERR_MALLOC => true
  | CF_ERR_OTHER x, CF_ERR_OTHER y => Z.eqb x y
  | _, _ => false
  end.

(** [a != CF_SUCCESS] *)
Definition failed (a : CfResult) : bool := negb (CfResult_eqb a CF_SUCCESS).

Inductive AsyncType := ASYNC_TYPE_CALLBACK | ASYNC_TYPE_PROMISE.

Definition AsyncType_eqb (a b : AsyncType) : bool :=
  match a, b with
  | ASYNC_TYPE_CALLBACK, ASYNC_TYPE_CALLBACK => true
  | ASYNC_TYPE_PROMISE, ASYNC_TYPE_PROMISE => true
  | _, _ => false
  end.

(** [napi_value]: a handle to a script value.  [NvNullptr] is the C++
    [nullptr] handle, distinct from the script values [null] and
    [undefined]. *)
Inductive napi_value :=
| NvNullptr
| NvUndefined
| NvNull
| NvBoolean (b : bool)
| NvInt32 (z : Z)
| NvFunction (f : N)
| NvError (code : CfResult) (msg : string)
| NvUint8Array (bytes : list Z)
| NvEncodingBlob (bytes : list Z) (fmt : Z)
| NvPromise (d : N)
| NvObject (o : N).

(** ** Native structures *)

Record CfEncodingBlob := {
  eb_data : ptr;
  eb_len : nat;
  eb_encodingFormat : Z
}.

Record CfBlob := {
  blob_size : nat;
  blob_data : ptr
}.

Record CfArray := {
  arr_data : ptr;
  arr_format : Z;
  arr_count : nat
}.

(** What the native CRL object answers to each of its function pointers
    that the source calls.  The answers are data: the status code and
    the payload the call would hand out. *)
Record HcfX509Crl := {
  crl_getEncoded : CfResult * (list Z * Z);
  crl_verify : ptr -> CfResult;
  crl_getRevokedCert : Z -> CfResult * Z;
  crl_getRevokedCertWithCert : ptr -> CfResult * Z;
  crl_getRevokedCerts : CfResult * list Z;
  crl_getSignature : CfResult * list Z
}.

(** [struct CfCtx] *)
Record CfCtx := {
  asyncType : AsyncType;
  promise : napi_value;
  callback : ptr;
  deferred : ptr;
  asyncWork : ptr;
  encodingBlob : ptr;
  crlClass : ptr;
  certificate : ptr;
  pubKey : ptr;
  serialNumber : Z;
  crlEntry : ptr;
  errCode : CfResult;
  errMsg : option string;
  crl : ptr;
  encoded : ptr;
  blob : ptr;
  array : ptr
}.

(** The context as [HcfMalloc] hands it out. *)
Definition CfCtx_zero : CfCtx := {|
  asyncType := ASYNC_TYPE_CALLBACK; promise := NvNullptr;
  callback := nullptr; deferred := nullptr; asyncWork := nullptr;
  encodingBlob := nullptr; crlClass := nullptr; certificate := nullptr;
  pubKey := nullptr; serialNumber := 0%Z; crlEntry := nullptr;
  errCode := CF_SUCCESS; errMsg := None; crl := nullptr;
  encoded := nullptr; blob := nullptr; array := nullptr |}.

Definition set_asyncType (v : AsyncType) (c : CfCtx) : CfCtx :=
  {| asyncType := v; promise := promise c; callback := callback c;
     deferred := deferred c; asyncWork := asyncWork c;
     encodingBlob := encodingBlob c; crlClass := crlClass c;
     certificate := certificate c; pubKey := pubKey c;
     serialNumber := serialNumber c; crlEntry := crlEntry c;
     errCode := errCode c; errMsg := errMsg c; crl := crl c;
     encoded := encoded c; blob := blob c; array := array c |}.

Definition set_promise (v : napi_value) (c : CfCtx) : CfCtx :=
  {| asyncType := asyncType c; promise := v; callback := callback c;
     deferred := deferred c; asyncWork := asyncWork c;
     encodingBlob := encodingBlob c; crlClass := crlClass c;
     certificate := certificate c; pubKey := pubKey c;
     serialNumber := serialNumber c; crlEntry := crlEntry c;
     errCode := errCode c; errMsg := errMsg c; crl := crl c;
     encoded := encoded c; blob := blob c; array := array c |}.

Definition set_callback (v : ptr) (c : CfCtx) : CfCtx :=
  {| asyncType := asyncType c; promise := promise c; callback := v;
     deferred := deferred c; asyncWork := asyncWork c;
     encodingBlob := encodingBlob c; crlClass := crlClass c;
     certificate := certificate c; pubKey := pubKey c;
     serialNumber := serialNumber c; crlEntry := crlEntry c;
     errCode := errCode c; errMsg := errMsg c; crl := crl c;
     encoded := encoded c; blob := blob c; array := array c |}.

Definition set_deferred (v : ptr) (c : CfCtx) : CfCtx :=
  {| asyncType := asyncType c; promise := promise c; callback := callback c;
     deferred := v; asyncWork := asyncWork c;
     encodingBlob := encodingBlob c; crlClass := crlClass c;
     certificate := certificate c; pubKey := pubKey c;
     serialNumber := serialNumber c; crlEntry := crlEntry c;
     errCode := errCode c; errMsg := errMsg c; crl := crl c;
     encoded := encoded c; blob := blob c; array := array c |}.

Definition set_asyncWork (v : ptr) (c : CfCtx) : CfCtx :=
  {| asyncType := asyncType c; promise := promise c; callback := callback c;
     deferred := deferred c; asyncWork := v;
     encodingBlob := encodingBlob c; crlClass := crlClass c;
     certificate := certificate c; pubKey := pubKey c;
     serialNumber := serialNumber c; crlEntry := crlEntry c;
     errCode := errCode c; errMsg := errMsg c; crl := crl c;
     encoded := encoded c; blob := blob c; array := array c |}.

Definition set_encodingBlob (v : ptr) (c : CfCtx) : CfCtx :=
  {| asyncType := asyncType c; promise := promise c; callback := callback c;
     deferred := deferred c; asyncWork := asyncWork c;
     encodingBlob := v; crlClass := crlClass c;
     certificate := certificate c; pubKey := pubKey c;
     serialNumber := serialNumber c; crlEntry := crlEntry c;
     errCode := errCode c; errMsg := errMsg c; crl := crl c;
     encoded := encoded c; blob := blob c; array := array c |}.

Definition set_crlClass (v : ptr) (c : CfCtx) : CfCtx :=
  {| asyncType := asyncType c; promise := promise c; callback := callback c;
     deferred := deferred c; asyncWork := asyncWork c;
     encodingBlob := encodingBlob c; crlClass := v;
     certificate := certificate c; pubKey := pubKey c;
     serialNumber := serialNumber c; crlEntry := crlEntry c;
     errCode := errCode c; errMsg := errMsg c; crl := crl c;
     encoded := encoded c; blob := blob c; array := array c |}.

Definition set_pubKey (v : ptr) (c : CfCtx) : CfCtx :=
  {| asyncType := asyncType c; promise := promise c; callback := callback c;
     deferred := deferred c; asyncWork := asyncWork c;
     encodingBlob := encodingBlob c; crlClass := crlClass c;
     certificate := certificate c; pubKey := v;
     serialNumber := serialNumber c; crlEntry := crlEntry c;
     errCode := errCode c; errMsg := errMsg c; crl := crl c;
     encoded := encoded c; blob := blob c; array := array c |}.

Definition set_errCode (v : CfResult) (c : CfCtx) : CfCtx :=
  {| asyncType := asyncType c; promise := promise c; callback := callback c;
     deferred := deferred c; asyncWork := asyncWork c;
     encodingBlob := encodingBlob c; crlClass := crlClass c;
     certificate := certificate c; pubKey := pubKey c;
     serialNumber := serialNumber c; crlEntry := crlEntry c;
     errCode := v; errMsg := errMsg c; crl := crl c;
     encoded := encoded c; blob := blob c; array := array c |}.

Definition set_errMsg (v : string) (c : CfCtx) : CfCtx :=
  {| asyncType := asyncType c; promise := promise c; callback := callback c;
     deferred := deferred c; asyncWork := asyncWork c;
     encodingBlob := encodingBlob c; crlClass := crlClass c;
     certificate := certificate c; pubKey := pubKey c;
     serialNumber := serialNumber c; crlEntry := crlEntry c;
     errCode := errCode c; errMsg := Some v; crl := crl c;
     encoded := encoded c; blob := blob c; array := array c |}.

Definition set_crl (v : ptr) (c : CfCtx) : CfCtx :=
  {| asyncType := asyncType c; promise := promise c; callback := callback c;
     deferred := deferred c; asyncWork := asyncWork c;
     encodingBlob := encodingBlob c; crlClass := crlClass c;
     certificate := certificate c; pubKey := pubKey c;
     serialNumber := serialNumber c; crlEntry := crlEntry c;
     errCode := errCode c; errMsg := errMsg c; crl := v;
     encoded := encoded c; blob := blob c; array := array c |}.

Definition set_encoded (v : ptr) (c : CfCtx) : CfCtx :=
  {| asyncType := asyncType c; promise := promise c; callback := callback c;
     deferred := deferred c; asyncWork := asyncWork c;
     encodingBlob := encodingBlob c; crlClass := crlClass c;
     certificate := certificate c; pubKey := pubKey c;
     serialNumber := serialNumber c; crlEntry := crlEntry c;
     errCode := errCode c; errMsg := errMsg c; crl := crl c;
     encoded := v; blob := blob c; array := array c |}.

Definition set_blob (v : ptr) (c : CfCtx) : CfCtx :=
  {| asyncType := asyncType c; promise := promise c; callback := callback c;
     deferred := deferred c; asyncWork := asyncWork c;
     encodingBlob := encodingBlob c; crlClass := crlClass c;
     certificate := certificate c; pubKey := pubKey c;
     serialNumber := serialNumber c; crlEntry := crlEntry c;
     errCode := errCode c; errMsg := errMsg c; crl := crl c;
     encoded := encoded c; blob := v; array := array c |}.

Definition set_array (v : ptr) (c : CfCtx) : CfCtx :=
  {| asyncType := asyncType c; promise := promise c; callback := callback c;
     deferred := deferred c; asyncWork := asyncWork c;
     encodingBlob := encodingBlob c; crlClass := crlClass c;
     certificate := certificate c; pubKey := pubKey c;
     serialNumber := serialNumber c; crlEntry := crlEntry c;
     errCode := errCode c; errMsg := errMsg c; crl := crl c;
     encoded := encoded c; blob := blob c; array := v |}.

(** ** The two stores *)

(** What lives at an address of the native heap. *)
Inductive Block :=
| BCtx (c : CfCtx)
| BEncodingBlob (b : CfEncodingBlob)
| BBlob (b : CfBlob)
| BArray (a : CfArray)
| BBytes (bytes : list Z)
| BBlobs (elems : list CfBlob)
| BX509Crl (o : HcfX509Crl)
| BX509CrlEntry (serial : Z)
| BPubKey (k : Z)
| BX509Certificate (c : Z)
| BNapiX509Crl (x509Crl_ : ptr)
| BNapiX509CrlEntry (x509CrlEntry_ : ptr)
| BNapiPubKey (pubKey_ : ptr)
| BNapiX509Certificate (x509Cert_ : ptr).

(** A script object: an instance of a bound class with the native
    pointer [napi_wrap] attached to it, or an array. *)
Inductive JsObj :=
| JsInstance (wrapped : ptr)
| JsArray (elems : list napi_value).

(** The function pointers given to [napi_create_async_work]. *)
Inductive ExecuteFn :=
| FnGetEncodedExecute
| FnVerifyExecute
| FnGetRevokedCertificatesExecute
| FnCreateX509CrlExecute.

Inductive CompleteFn :=
| FnGetEncodedComplete
| FnVerifyComplete
| FnGetRevokedCertificatesComplete
| FnCreateX509CrlComplete.

Record AsyncWork := {
  aw_execute : ExecuteFn;
  aw_complete : CompleteFn;
  aw_data : ptr
}.

Inductive Settlement :=
| Pending
| Resolved (v : napi_value)
| Rejected (e : napi_value).

(** What an execution does that the outside can count. *)
Inductive Event :=
| EvAlloc (p : ptr)
| EvFree (p : ptr)
| EvObjDestroy (p : ptr)
| EvThrow (e : napi_value)
| EvCall (func : napi_value) (args : list napi_value)
| EvResolve (d : ptr) (v : napi_value)
| EvReject (d : ptr) (e : napi_value)
| EvCreateReference (r : ptr)
| EvDeleteReference (r : ptr)
| EvCreateAsyncWork (h : ptr)
| EvDeleteAsyncWork (h : ptr)
| EvQueueAsyncWork (h : ptr)
| EvWrap (o : N) (native : ptr).

Global Instance CfResult_eq_dec : EqDecision CfResult.
Proof. solve_decision. Defined.
Global Instance napi_value_eq_dec : EqDecision napi_value.
Proof. solve_decision. Defined.
Global Instance Event_eq_dec : EqDecision Event.
Proof. solve_decision. Defined.

(** [plan] decides the fallible allocations still to come, in order:
    [false] makes the next one return [nullptr]; an exhausted plan lets
    every allocation succeed. *)
Record World := {
  heap : gmap N Block;
  plan : list bool;
  refs : gmap N napi_value;
  works : gmap N AsyncWork;
  queue : list N;
  deferreds : gmap N Settlement;
  objects : gmap N JsObj;
  log : list Event
}.

Definition with_heap (f : gmap N Block -> gmap N Block) (w : World) : World :=
  {| heap := f (heap w); plan := plan w; refs := refs w; works := works w;
     queue := queue w; deferreds := deferreds w; objects := objects w;
     log := log w |}.
Definition with_plan (f : list bool -> list bool) (w : World) : World :=
  {| heap := heap w; plan := f (plan w); refs := refs w; works := works w;
     queue := queue w; deferreds := deferreds w; objects := objects w;
     log := log w |}.
Definition with_refs (f : gmap N napi_value -> gmap N napi_value) (w : World) : World :=
  {| heap := heap w; plan := plan w; refs := f (refs w); works := works w;
     queue := queue w; deferreds := deferreds w; objects := objects w;
     log := log w |}.
Definition with_works (f : gmap N AsyncWork -> gmap N AsyncWork) (w : World) : World :=
  {| heap := heap w; plan := plan w; refs := refs w; works := f (works w);
     queue := queue w; deferreds := deferreds w; objects := objects w;
     log := log w |}.
Definition with_queue (f : list N -> list N) (w : World) : World :=
  {| heap := heap w; plan := plan w; refs := refs w; works := works w;
     queue := f (queue w); deferreds := deferreds w; objects := objects w;
     log := log w |}.
Definition with_deferreds (f : gmap N Settlement -> gmap N Settlement) (w : World) : World :=
  {| heap := heap w; plan := plan w; refs := refs w; works := works w;
     queue := queue w; deferreds := f (deferreds w); objects := objects w;
     log := log w |}.
Definition with_objects (f : gmap N JsObj -> gmap N JsObj) (w : World) : World :=
  {| heap := heap w; plan := plan w; refs := refs w; works := works w;
     queue := queue w; deferreds := deferreds w; objects := f (objects w);
     log := log w |}.
Definition with_log (f : list Event -> list Event) (w : World) : World :=
  {| heap := heap w; plan := plan w; refs := refs w; works := works w;
     queue := queue w; deferreds := deferreds w; objects := objects w;
     log := f (log w) |}.

(** ** The monad *)

(** Undefined behaviour of the C++ program, made a result. *)
Inductive Fault :=
| NullDereference
| InvalidPointer (p : ptr)
| WrongType (p : ptr)
| InvalidHandle (h : ptr)
| OutOfBounds.

Inductive Res (A : Type) :=
| Ok (a : A) (w : World)
| Crash (f : Fault).
Arguments Ok {A} a w.
Arguments Crash {A} f.

Definition M (A : Type) : Type := World -> Res A.

Definition ret {A} (a : A) : M A := fun w => Ok a w.
Definition bind {A B} (m : M A) (k : A -> M B) : M B :=
  fun w => match m w with
           | Ok a w' => k a w'
           | Crash f => Crash f
           end.
Definition crash {A} (f : Fault) : M A := fun _ => Crash f.

Declare Scope m_scope.
Delimit Scope m_scope with M.
Notation "x <- c ;; k" := (bind c (fun x => k))
  (at level 100, c at next level, right associativity) : m_scope.
Notation "c ;; k" := (bind c (fun _ => k))
  (at level 100, right associativity) : m_scope.
Local Open Scope m_scope.

Definition get : M World := fun w => Ok w w.
Definition modify (f : World -> World) : M unit := fun w => Ok tt (f w).
Definition emit (e : Event) : M unit := modify (with_log (fun l => l ++ [e])).
Definition when (b : bool) (m : M unit) : M unit := if b then m else ret tt.

(** ** Native heap primitives *)

Definition fresh_addr (w : World) : ptr := fresh (dom (heap w) ∪ {[0]}).

(** An allocation that succeeds: a block at an address not in use. *)
Definition alloc (b : Block) : M ptr :=
  w <- get ;;
  let p := fresh_addr w in
  modify (with_heap (insert p b)) ;;
  emit (EvAlloc p) ;;
  ret p.

(** The next decision of the plan. *)
Definition next_alloc_ok : M bool :=
  w <- get ;;
  modify (with_plan (drop 1)) ;;
  ret (default true (head (plan w))).

(** Modelled from the spec: [HcfMalloc] of cf_memory.c is not among the
    sources; [HcfMalloc(sizeof(T), 0)] hands out a zeroed [T], or
    [nullptr] when the allocation fails. *)
Definition HcfMalloc (zero : Block) : M ptr :=
  ok <- next_alloc_ok ;;
  if ok then alloc zero else ret nullptr.

(** [new (std::nothrow) T(args)]: the constructed object, or [nullptr]. *)
Definition new_nothrow (obj : Block) : M ptr :=
  ok <- next_alloc_ok ;;
  if ok then alloc obj else ret nullptr.

Definition load (p : ptr) : M Block :=
  if is_null p then crash NullDereference else
  w <- get ;;
  match heap w !! p with
  | Some b => ret b
  | None => crash (InvalidPointer p)
  end.

Definition store (p : ptr) (b : Block) : M unit :=
  load p ;;
  modify (with_heap (insert p b)).

(** Modelled from the spec: [CfFree] of cf_memory.c is not among the
    sources; it frees an owned buffer, and does nothing for [nullptr].
    Freeing an address that is not live is the double free. *)
Definition CfFree (p : ptr) : M unit :=
  if is_null p then ret tt else
  w <- get ;;
  match heap w !! p with
  | Some _ => modify (with_heap (delete p)) ;; emit (EvFree p)
  | None => crash (InvalidPointer p)
  end.

Definition load_ctx (p : ptr) : M CfCtx :=
  b <- load p ;;
  match b with BCtx c => ret c | _ => crash (WrongType p) end.

(** [context->field = v] *)
Definition update_ctx (p : ptr) (f : CfCtx -> CfCtx) : M unit :=
  c <- load_ctx p ;;
  store p (BCtx (f c)).

Definition load_encoding_blob (p : ptr) : M CfEncodingBlob :=
  b <- load p ;;
  match b with BEncodingBlob e => ret e | _ => crash (WrongType p) end.

Definition load_blob (p : ptr) : M CfBlob :=
  b <- load p ;;
  match b with BBlob e => ret e | _ => crash (WrongType p) end.

Definition load_array (p : ptr) : M CfArray :=
  b <- load p ;;
  match b with BArray a => ret a | _ => crash (WrongType p) end.

Definition load_bytes (p : ptr) : M (list Z) :=
  b <- load p ;;
  match b with BBytes l => ret l | _ => crash (WrongType p) end.

(** [*(data + i)] for a [CfBlob *data] *)
Definition load_blob_at (data : ptr) (i : nat) : M CfBlob :=
  b <- load data ;;
  match b with
  | BBlobs l => match l !! i with
                | Some e => ret e
                | None => crash OutOfBounds
                end
  | _ => crash (WrongType data)
  end.

(** Modelled from the spec: [CfEncodingBlobDataFree] and [CfBlobDataFree]
    of utils.c are not among the sources; each frees the buffer its
    argument owns and clears the fields that describe it, and does
    nothing for [nullptr] or an empty blob. *)
Definition CfEncodingBlobDataFree (p : ptr) : M unit :=
  if is_null p then ret tt else
  e <- load_encoding_blob p ;;
  if is_null (eb_data e) then ret tt else
  CfFree (eb_data e) ;;
  store p (BEncodingBlob {| eb_data := nullptr; eb_len := 0;
                            eb_encodingFormat := eb_encodingFormat e |}).

Definition CfBlobDataFree (p : ptr) : M unit :=
  if is_null p then ret tt else
  e <- load_blob p ;;
  if is_null (blob_data e) then ret tt else
  CfFree (blob_data e) ;;
  store p (BBlob {| blob_size := 0; blob_data := nullptr |}).

(** Modelled from the spec: the macro [CfObjDestroy] of cf_object_base.h
    is not among the sources; it runs the destroy function of a native
    object, which releases the object, and does nothing for [nullptr]. *)
Definition CfObjDestroy (p : ptr) : M unit :=
  if is_null p then ret tt else
  b <- load p ;;
  match b with
  | BX509Crl _ | BX509CrlEntry _ | BPubKey _ | BX509Certificate _ =>
      modify (with_heap (delete p)) ;; emit (EvObjDestroy p)
  | _ => crash (WrongType p)
  end.

(** ** Script engine primitives (N-API) *)

Definition fresh_in {V} (m : gmap N V) : ptr := fresh (dom m ∪ {[0]}).

Definition napi_create_reference (value : napi_value) : M ptr :=
  w <- get ;;
  let r := fresh_in (refs w) in
  modify (with_refs (insert r value)) ;;
  emit (EvCreateReference r) ;;
  ret r.

(** The status is dropped by every caller: an unknown reference leaves
    the result at its initial [nullptr]. *)
Definition napi_get_reference_value (r : ptr) : M napi_value :=
  w <- get ;;
  match refs w !! r with
  | Some v => ret v
  | None => ret NvNullptr
  end.

Definition napi_delete_reference (r : ptr) : M unit :=
  w <- get ;;
  match refs w !! r with
  | Some _ => modify (with_refs (delete r)) ;; emit (EvDeleteReference r)
  | None => crash (InvalidHandle r)
  end.

Definition napi_create_promise : M (ptr * napi_value) :=
  w <- get ;;
  let d := fresh_in (deferreds w) in
  modify (with_deferreds (insert d Pending)) ;;
  ret (d, NvPromise d).

(** A deferred can be settled once; settling consumes it. *)
Definition napi_resolve_deferred (d : ptr) (v : napi_value) : M unit :=
  w <- get ;;
  match deferreds w !! d with
  | Some Pending =>
      modify (with_deferreds (insert d (Resolved v))) ;; emit (EvResolve d v)
  | _ => crash (InvalidHandle d)
  end.

Definition napi_reject_deferred (d : ptr) (e : napi_value) : M unit :=
  w <- get ;;
  match deferreds w !! d with
  | Some Pending =>
      modify (with_deferreds (insert d (Rejected e))) ;; emit (EvReject d e)
  | _ => crash (InvalidHandle d)
  end.

Definition napi_create_async_work (execute : ExecuteFn) (complete : CompleteFn)
    (data : ptr) : M ptr :=
  w <- get ;;
  let h := fresh_in (works w) in
  modify (with_works (insert h {| aw_execute := execute;
                                  aw_complete := complete;
                                  aw_data := data |})) ;;
  emit (EvCreateAsyncWork h) ;;
  ret h.

Definition napi_queue_async_work (h : ptr) : M unit :=
  w <- get ;;
  match works w !! h with
  | Some _ => modify (with_queue (fun q => q ++ [h])) ;; emit (EvQueueAsyncWork h)
  | None => crash (InvalidHandle h)
  end.

Definition napi_delete_async_work (h : ptr) : M unit :=
  w <- get ;;
  match works w !! h with
  | Some _ => modify (with_works (delete h)) ;; emit (EvDeleteAsyncWork h)
  | None => crash (InvalidHandle h)
  end.

(** The script function runs outside this model; the call is recorded. *)
Definition napi_call_function (func : napi_value) (args : list napi_value) : M unit :=
  emit (EvCall func args).

Definition napi_throw (e : napi_value) : M unit := emit (EvThrow e).

Definition napi_new_instance : M napi_value :=
  w <- get ;;
  let o := fresh_in (objects w) in
  modify (with_objects (insert o (JsInstance nullptr))) ;;
  ret (NvObject o).

Definition napi_wrap (instance : napi_value) (native : ptr) : M unit :=
  w <- get ;;
  match instance with
  | NvObject o =>
      match objects w !! o with
      | Some (JsInstance _) =>
          modify (with_objects (insert o (JsInstance native))) ;;
          emit (EvWrap o native)
      | _ => ret tt
      end
  | _ => ret tt
  end.

Definition napi_unwrap (value : napi_value) : M ptr :=
  w <- get ;;
  match value with
  | NvObject o =>
      match objects w !! o with
      | Some (JsInstance p) => ret p
      | _ => ret nullptr
      end
  | _ => ret nullptr
  end.

Definition napi_create_array : M napi_value :=
  w <- get ;;
  let o := fresh_in (objects w) in
  modify (with_objects (insert o (JsArray []))) ;;
  ret (NvObject o).

(** [a[i] = v] of the script language: an index past the end extends
    the array, the gap reading [undefined]. *)
Definition js_set_element (l : list napi_value) (i : nat) (v : napi_value)
    : list napi_value :=
  if decide (i < length l)%nat then <[i:=v]> l
  else l ++ replicate (i - length l) NvUndefined ++ [v].

Definition napi_set_element (arr : napi_value) (i : nat) (v : napi_value) : M unit :=
  w <- get ;;
  match arr with
  | NvObject o =>
      match objects w !! o with
      | Some (JsArray l) =>
          modify (with_objects (insert o (JsArray (js_set_element l i v))))
      | _ => ret tt
      end
  | _ => ret tt
  end.

(** [napi_get_cb_info] with an [argv] of [capacity] slots: the actual
    count, and the slots, those without an argument reading [undefined]. *)
Definition napi_get_cb_info (capacity : nat) (info : list napi_value)
    : nat * list napi_value :=
  (length info,
   take capacity info ++ replicate (capacity - length info) NvUndefined).

Definition argv_at (argv : list napi_value) (i : nat) : napi_value :=
  default NvNullptr (argv !! i).

(** ** Collaborators outside the sources *)

Definition ARGS_SIZE_ONE : nat := 1.
Definition ARGS_SIZE_TWO : nat := 2.
Definition PARAM0 : nat := 0.
Definition PARAM1 : nat := 1.

(** The pure helpers of napi_cert_utils.cpp and the CRL parser of the
    native library, which the bridge calls and the sources do not
    contain.  The bridge is verified for any implementation of them. *)
Class Collaborators := {
  GetAsyncType : nat -> nat -> napi_value -> AsyncType;
  CertCheckArgsCount : nat -> nat -> bool -> bool;
  CertGenerateBusinessError : CfResult -> option string -> napi_value;
  HcfX509CrlParse : list Z -> Z -> CfResult * HcfX509Crl
}.

Definition is_callable (v : napi_value) : bool :=
  match v with NvFunction _ => true | _ => false end.

(** Modelled from the spec: [GetAsyncType] of napi_cert_utils.cpp is not
    among the sources.  "If the actual count reaches the maximum and the
    last argument is a callable, mode = Callback ... Otherwise mode =
    Promise." *)
Definition spec_GetAsyncType (argc maxCount : nat) (arg : napi_value) : AsyncType :=
  if (argc =? maxCount)%nat && is_callable arg
  then ASYNC_TYPE_CALLBACK else ASYNC_TYPE_PROMISE.

(** Modelled from the spec: [CertCheckArgsCount] of napi_cert_utils.cpp
    is not among the sources.  A synchronous call takes exactly the
    expected count, an asynchronous one may leave the callback out. *)
Definition spec_CertCheckArgsCount (argc expected : nat) (isSync : bool) : bool :=
  if isSync then (argc =? expected)%nat
  else (argc =? expected)%nat || (argc =? expected - 1)%nat.

(** Modelled from the spec: [CertGenerateBusinessError] of
    napi_cert_utils.cpp is not among the sources.  "Given (status code,
    diagnostic string) produces a caller-visible error value." *)
Definition spec_CertGenerateBusinessError (code : CfResult) (msg : option string)
    : napi_value :=
  NvError code (default EmptyString msg).

Section Bridge.
Context `{!Collaborators}.

(** Modelled from the spec: [CertGetCallbackFromJSParams] of
    napi_cert_utils.cpp is not among the sources.  It retains the
    callable in a reference and reports success, or reports that
    retaining failed and leaves the slot alone. *)
Definition CertGetCallbackFromJSParams (arg : napi_value) (context : ptr) : M bool :=
  if is_callable arg then
    ok <- next_alloc_ok ;;
    if ok then
      r <- napi_create_reference arg ;;
      update_ctx context (set_callback r) ;;
      ret true
    else ret false
  else ret false.

(** Modelled from the spec: [CertNapiGetNull] of napi_cert_utils.cpp is
    not among the sources; it is the script value [null]. *)
Definition CertNapiGetNull : M napi_value := ret NvNull.

(** Modelled from the spec: [ConvertEncodingBlobToNapiValue] of
    napi_cert_utils.cpp is not among the sources; it converts the
    buffer payload into the caller's representation. *)
Definition ConvertEncodingBlobToNapiValue (p : ptr) : M napi_value :=
  e <- load_encoding_blob p ;;
  bytes <- (if is_null (eb_data e) then ret [] else load_bytes (eb_data e)) ;;
  ret (NvEncodingBlob (take (eb_len e) bytes) (eb_encodingFormat e)).

(** Modelled from the spec: [CertConvertBlobToNapiValue] of
    napi_cert_utils.cpp is not among the sources; as above for a
    [CfBlob]. *)
Definition CertConvertBlobToNapiValue (p : ptr) : M napi_value :=
  e <- load_blob p ;;
  bytes <- (if is_null (blob_data e) then ret [] else load_bytes (blob_data e)) ;;
  ret (NvUint8Array (take (blob_size e) bytes)).

(** Modelled from the spec: [CertGetInt32FromJSParams] of
    napi_cert_utils.cpp is not among the sources; argument decoding
    "produces typed native inputs or signals a decoding failure". *)
Definition CertGetInt32FromJSParams (arg : napi_value) : M (bool * Z) :=
  match arg with
  | NvInt32 z => ret (true, z)
  | _ => ret (false, 0%Z)
  end.

(** Modelled from the spec: [GetEncodingBlobFromValue] of
    napi_cert_utils.cpp is not among the sources; it decodes the raw
    encoded buffer into a [CfEncodingBlob] that the context then owns.
    What it has allocated when it fails stays in the context slot. *)
Definition GetEncodingBlobFromValue (obj : napi_value) (context : ptr) : M bool :=
  match obj with
  | NvEncodingBlob bytes fmt =>
      b <- HcfMalloc (BEncodingBlob {| eb_data := nullptr; eb_len := 0;
                                       eb_encodingFormat := 0 |}) ;;
      if is_null b then ret false else
      update_ctx context (set_encodingBlob b) ;;
      d <- HcfMalloc (BBytes bytes) ;;
      if is_null d then ret false else
      store b (BEncodingBlob {| eb_data := d; eb_len := length bytes;
                                eb_encodingFormat := fmt |}) ;;
      ret true
  | _ => ret false
  end.

(** ** The native CRL object

    Modelled from the spec: the functions behind the pointers of
    [HcfX509Crl] (x509_crl.c and its OpenSSL adapter) are not among the
    sources.  Each is "a function taking typed native inputs and an
    output slot, returning a status code"; on success it fills the slot
    with what it allocated, otherwise it leaves the slot alone. *)

Definition load_crl (self : ptr) : M HcfX509Crl :=
  b <- load self ;;
  match b with BX509Crl o => ret o | _ => crash (WrongType self) end.

Definition x509Crl_getEncoded (self encodedOut : ptr) : M CfResult :=
  o <- load_crl self ;;
  let '(r, (bytes, fmt)) := crl_getEncoded o in
  if failed r then ret r else
  load_encoding_blob encodedOut ;;
  d <- alloc (BBytes bytes) ;;
  store encodedOut (BEncodingBlob {| eb_data := d; eb_len := length bytes;
                                     eb_encodingFormat := fmt |}) ;;
  ret r.

Definition x509Crl_verify (self key : ptr) : M CfResult :=
  o <- load_crl self ;;
  ret (crl_verify o key).

Definition x509Crl_getSignature (self out : ptr) : M CfResult :=
  o <- load_crl self ;;
  let '(r, bytes) := crl_getSignature o in
  if failed r then ret r else
  load_blob out ;;
  d <- alloc (BBytes bytes) ;;
  store out (BBlob {| blob_size := length bytes; blob_data := d |}) ;;
  ret r.

(** [*entryOut] is the second component; [nullptr] stands for a slot
    left alone, which every caller initialises to [nullptr]. *)
Definition x509Crl_getRevokedCert (self : ptr) (serial : Z) : M (CfResult * ptr) :=
  o <- load_crl self ;;
  let '(r, s) := crl_getRevokedCert o serial in
  if failed r then ret (r, nullptr) else
  e <- alloc (BX509CrlEntry s) ;;
  ret (r, e).

Definition x509Crl_getRevokedCertWithCert (self cert : ptr) : M (CfResult * ptr) :=
  o <- load_crl self ;;
  let '(r, s) := crl_getRevokedCertWithCert o cert in
  if failed r then ret (r, nullptr) else
  e <- alloc (BX509CrlEntry s) ;;
  ret (r, e).

(** One native entry object per revoked certificate, each behind a
    [CfBlob] of the array's data. *)
Fixpoint alloc_entries (serials : list Z) : M (list CfBlob) :=
  match serials with
  | [] => ret []
  | s :: rest =>
      e <- alloc (BX509CrlEntry s) ;;
      bs <- alloc_entries rest ;;
      ret ({| blob_size := 1; blob_data := e |} :: bs)
  end.

Definition x509Crl_getRevokedCerts (self entrysOut : ptr) : M CfResult :=
  o <- load_crl self ;;
  let '(r, serials) := crl_getRevokedCerts o in
  if failed r then ret r else
  a <- load_array entrysOut ;;
  match serials with
  | [] => ret r
  | _ =>
      bs <- alloc_entries serials ;;
      d <- alloc (BBlobs bs) ;;
      store entrysOut (BArray {| arr_data := d; arr_format := arr_format a;
                                 arr_count := length serials |}) ;;
      ret r
  end.

(** [HcfX509CrlCreate(inStream, &context->crl)] *)
Definition HcfX509CrlCreate (inStream context : ptr) : M CfResult :=
  if is_null inStream then ret CF_INVALID_PARAMS else
  e <- load_encoding_blob inStream ;;
  if is_null (eb_data e) then ret CF_INVALID_PARAMS else
  bytes <- load_bytes (eb_data e) ;;
  let '(r, o) := HcfX509CrlParse (take (eb_len e) bytes) (eb_encodingFormat e) in
  if failed r then ret r else
  c <- alloc (BX509Crl o) ;;
  update_ctx context (set_crl c) ;;
  ret r.

(** ** napi_x509_crl.cpp *)

Definition FreeCryptoFwkCtx (context : ptr) : M unit :=
  if is_null context then ret tt else
  c <- load_ctx context ;;
  when (negb (is_null (asyncWork c))) (napi_delete_async_work (asyncWork c)) ;;
  c <- load_ctx context ;;
  when (negb (is_null (callback c))) (napi_delete_reference (callback c)) ;;
  c <- load_ctx context ;;
  CfEncodingBlobDataFree (encodingBlob c) ;;
  CfFree (encodingBlob c) ;;
  update_ctx context (set_encodingBlob nullptr) ;;
  c <- load_ctx context ;;
  CfEncodingBlobDataFree (encoded c) ;;
  CfFree (encoded c) ;;
  update_ctx context (set_encoded nullptr) ;;
  c <- load_ctx context ;;
  CfBlobDataFree (blob c) ;;
  CfFree (blob c) ;;
  update_ctx context (set_blob nullptr) ;;
  c <- load_ctx context ;;
  (if negb (is_null (array c)) then
     a <- load_array (array c) ;;
     CfFree (arr_data a) ;;
     store (array c) (BArray {| arr_data := nullptr; arr_format := arr_format a;
                                arr_count := arr_count a |}) ;;
     CfFree (array c) ;;
     update_ctx context (set_array nullptr)
   else ret tt) ;;
  CfFree context.

Definition ReturnCallbackResult (context : ptr) (result : napi_value) : M unit :=
  c <- load_ctx context ;;
  let businessError :=
    if failed (errCode c)
    then CertGenerateBusinessError (errCode c) (errMsg c)
    else NvNullptr in
  let params := [businessError; result] in
  func <- napi_get_reference_value (callback c) ;;
  napi_call_function func params.

Definition ReturnPromiseResult (context : ptr) (result : napi_value) : M unit :=
  c <- load_ctx context ;;
  if CfResult_eqb (errCode c) CF_SUCCESS then
    napi_resolve_deferred (deferred c) result
  else
    napi_reject_deferred (deferred c)
      (CertGenerateBusinessError (errCode c) (errMsg c)).

Definition ReturnResult (context : ptr) (result : napi_value) : M unit :=
  c <- load_ctx context ;;
  if AsyncType_eqb (asyncType c) ASYNC_TYPE_CALLBACK then
    ReturnCallbackResult context result
  else
    ReturnPromiseResult context result.

Definition CreateCallbackAndPromise (context : ptr) (argc maxCount : nat)
    (callbackValue : napi_value) : M bool :=
  update_ctx context (set_asyncType (GetAsyncType argc maxCount callbackValue)) ;;
  c <- load_ctx context ;;
  if AsyncType_eqb (asyncType c) ASYNC_TYPE_CALLBACK then
    ok <- CertGetCallbackFromJSParams callbackValue context ;;
    if negb ok then ret false else ret true
  else
    dp <- napi_create_promise ;;
    let '(d, p) := dp in
    update_ctx context (set_deferred d) ;;
    update_ctx context (set_promise p) ;;
    ret true.

(** [context->crlClass->GetX509Crl()] *)
Definition GetX509Crl (this : ptr) : M ptr :=
  b <- load this ;;
  match b with BNapiX509Crl x => ret x | _ => crash (WrongType this) end.

Definition GetPubKey (this : ptr) : M ptr :=
  b <- load this ;;
  match b with BNapiPubKey x => ret x | _ => crash (WrongType this) end.

Definition GetX509Cert (this : ptr) : M ptr :=
  b <- load this ;;
  match b with BNapiX509Certificate x => ret x | _ => crash (WrongType this) end.

Definition GetEncodedExecute (data : ptr) : M unit :=
  let context := data in
  c <- load_ctx context ;;
  x509Crl <- GetX509Crl (crlClass c) ;;
  encodingBlob <- HcfMalloc (BEncodingBlob {| eb_data := nullptr; eb_len := 0;
                                              eb_encodingFormat := 0 |}) ;;
  if is_null encodingBlob then
    update_ctx context (set_errCode CF_ERR_MALLOC) ;;
    update_ctx context (set_errMsg "malloc encoding blob failed")
  else
    r <- x509Crl_getEncoded x509Crl encodingBlob ;;
    update_ctx context (set_errCode r) ;;
    c <- load_ctx context ;;
    when (failed (errCode c))
      (update_ctx context (set_errMsg "get encoded failed")) ;;
    update_ctx context (set_encoded encodingBlob).

Definition GetEncodedComplete (data : ptr) : M unit :=
  let context := data in
  c <- load_ctx context ;;
  if failed (errCode c) then
    ReturnResult context NvNullptr ;;
    FreeCryptoFwkCtx context
  else
    returnEncodingBlob <- ConvertEncodingBlobToNapiValue (encoded c) ;;
    ReturnResult context returnEncodingBlob ;;
    FreeCryptoFwkCtx context.

Definition VerifyExecute (data : ptr) : M unit :=
  let context := data in
  c <- load_ctx context ;;
  x509Crl <- GetX509Crl (crlClass c) ;;
  r <- x509Crl_verify x509Crl (pubKey c) ;;
  update_ctx context (set_errCode r) ;;
  c <- load_ctx context ;;
  when (failed (errCode c))
    (update_ctx context (set_errMsg "verify crl failed")).

Definition VerifyComplete (data : ptr) : M unit :=
  let context := data in
  null <- CertNapiGetNull ;;
  ReturnResult context null ;;
  FreeCryptoFwkCtx context.

Definition GetRevokedCertificatesExecute (data : ptr) : M unit :=
  let context := data in
  c <- load_ctx context ;;
  x509Crl <- GetX509Crl (crlClass c) ;;
  array <- HcfMalloc (BArray {| arr_data := nullptr; arr_format := 0;
                                arr_count := 0 |}) ;;
  if is_null array then
    update_ctx context (set_errCode CF_ERR_MALLOC) ;;
    update_ctx context (set_errMsg "malloc array failed")
  else
    r <- x509Crl_getRevokedCerts x509Crl array ;;
    update_ctx context (set_errCode r) ;;
    c <- load_ctx context ;;
    when (failed (errCode c))
      (update_ctx context (set_errMsg "get revoked certs failed")) ;;
    update_ctx context (set_array array).

(** [NapiX509CrlEntry::CreateX509CrlEntry] and [NapiX509Crl::CreateX509Crl]:
    a new instance of the bound class. *)
Definition CreateX509CrlEntry : M napi_value := napi_new_instance.
Definition CreateX509Crl : M napi_value := napi_new_instance.

(** The body of the [for] loop of [GenerateCrlEntryArray], [n] iterations
    from index [i] on. *)
Fixpoint GenerateCrlEntryArray_loop (n i : nat) (array : ptr)
    (returnArray : napi_value) : M napi_value :=
  match n with
  | O => ret returnArray
  | S n' =>
      a <- load_array array ;;
      blob <- load_blob_at (arr_data a) i ;;
      let entry := blob_data blob in
      instance <- CreateX509CrlEntry ;;
      x509CrlEntryClass <- new_nothrow (BNapiX509CrlEntry entry) ;;
      if is_null x509CrlEntryClass then
        napi_throw (CertGenerateBusinessError CF_ERR_MALLOC
                      (Some "Failed to create a x509CrlEntry class")) ;;
        CfObjDestroy entry ;;
        ret NvNullptr
      else
        napi_wrap instance x509CrlEntryClass ;;
        napi_set_element returnArray i instance ;;
        GenerateCrlEntryArray_loop n' (S i) array returnArray
  end.

Definition GenerateCrlEntryArray (array : ptr) : M napi_value :=
  if is_null array then ret NvNullptr else
  a <- load_array array ;;
  if (arr_count a =? 0)%nat then ret NvNullptr else
  returnArray <- napi_create_array ;;
  GenerateCrlEntryArray_loop (arr_count a) 0 array returnArray.

Definition GetRevokedCertificatesComplete (data : ptr) : M unit :=
  let context := data in
  c <- load_ctx context ;;
  if failed (errCode c) then
    ReturnResult context NvNullptr ;;
    FreeCryptoFwkCtx context
  else
    returnArray <- GenerateCrlEntryArray (array c) ;;
    ReturnResult context returnArray ;;
    FreeCryptoFwkCtx context.

Definition CreateX509CrlExecute (data : ptr) : M unit :=
  let context := data in
  c <- load_ctx context ;;
  r <- HcfX509CrlCreate (encodingBlob c) context ;;
  update_ctx context (set_errCode r) ;;
  c <- load_ctx context ;;
  when (failed (errCode c))
    (update_ctx context (set_errMsg "create X509Crl failed")).

Definition CreateX509CrlComplete (data : ptr) : M unit :=
  let context := data in
  c <- load_ctx context ;;
  if failed (errCode c) then
    ReturnResult context NvNullptr ;;
    FreeCryptoFwkCtx context
  else
    instance <- CreateX509Crl ;;
    c <- load_ctx context ;;
    x509CrlClass <- new_nothrow (BNapiX509Crl (crl c)) ;;
    if is_null x509CrlClass then
      update_ctx context (set_errCode CF_ERR_MALLOC) ;;
      update_ctx context (set_errMsg "Failed to create a x509Crl class") ;;
      c <- load_ctx context ;;
      CfObjDestroy (crl c) ;;
      ReturnResult context NvNullptr ;;
      FreeCryptoFwkCtx context
    else
      napi_wrap instance x509CrlClass ;;
      ReturnResult context instance ;;
      FreeCryptoFwkCtx context.

(** *** Entry points that schedule work *)

(** The tail shared by the four entry points: hand the pair of
    functions to the engine, queue it, and answer the promise or [null]. *)
Definition schedule (execute : ExecuteFn) (complete : CompleteFn) (context : ptr)
    : M napi_value :=
  h <- napi_create_async_work execute complete context ;;
  update_ctx context (set_asyncWork h) ;;
  c <- load_ctx context ;;
  napi_queue_async_work (asyncWork c) ;;
  c <- load_ctx context ;;
  if AsyncType_eqb (asyncType c) ASYNC_TYPE_PROMISE then ret (promise c)
  else CertNapiGetNull.

Definition GetEncoded (this : ptr) (info : list napi_value) : M napi_value :=
  let '(argc, argv) := napi_get_cb_info ARGS_SIZE_ONE info in
  if negb (CertCheckArgsCount argc ARGS_SIZE_ONE false) then ret NvNullptr else
  context <- HcfMalloc (BCtx CfCtx_zero) ;;
  if is_null context then ret NvNullptr else
  update_ctx context (set_crlClass this) ;;
  ok <- CreateCallbackAndPromise context argc ARGS_SIZE_ONE (argv_at argv PARAM0) ;;
  if negb ok then FreeCryptoFwkCtx context ;; ret NvNullptr else
  schedule FnGetEncodedExecute FnGetEncodedComplete context.

Definition Verify (this : ptr) (info : list napi_value) : M napi_value :=
  let '(argc, argv) := napi_get_cb_info ARGS_SIZE_TWO info in
  if negb (CertCheckArgsCount argc ARGS_SIZE_TWO false) then ret NvNullptr else
  pubKey <- napi_unwrap (argv_at argv PARAM0) ;;
  if is_null pubKey then
    napi_throw (CertGenerateBusinessError CF_INVALID_PARAMS (Some "public key is null")) ;;
    ret NvNullptr
  else
  context <- HcfMalloc (BCtx CfCtx_zero) ;;
  if is_null context then ret NvNullptr else
  k <- GetPubKey pubKey ;;
  update_ctx context (set_pubKey k) ;;
  update_ctx context (set_crlClass this) ;;
  ok <- CreateCallbackAndPromise context argc ARGS_SIZE_TWO (argv_at argv PARAM1) ;;
  if negb ok then FreeCryptoFwkCtx context ;; ret NvNullptr else
  schedule FnVerifyExecute FnVerifyComplete context.

Definition GetRevokedCertificates (this : ptr) (info : list napi_value) : M napi_value :=
  let '(argc, argv) := napi_get_cb_info ARGS_SIZE_ONE info in
  if negb (CertCheckArgsCount argc ARGS_SIZE_ONE false) then ret NvNullptr else
  context <- HcfMalloc (BCtx CfCtx_zero) ;;
  if is_null context then ret NvNullptr else
  update_ctx context (set_crlClass this) ;;
  ok <- CreateCallbackAndPromise context argc ARGS_SIZE_ONE (argv_at argv PARAM0) ;;
  if negb ok then FreeCryptoFwkCtx context ;; ret NvNullptr else
  schedule FnGetRevokedCertificatesExecute FnGetRevokedCertificatesComplete context.

Definition NapiCreateX509Crl (info : list napi_value) : M napi_value :=
  let '(argc, argv) := napi_get_cb_info ARGS_SIZE_TWO info in
  if negb (CertCheckArgsCount argc ARGS_SIZE_TWO false) then ret NvNullptr else
  context <- HcfMalloc (BCtx CfCtx_zero) ;;
  if is_null context then ret NvNullptr else
  got <- GetEncodingBlobFromValue (argv_at argv PARAM0) context ;;
  if negb got then FreeCryptoFwkCtx context ;; ret NvNullptr else
  ok <- CreateCallbackAndPromise context argc ARGS_SIZE_TWO (argv_at argv PARAM1) ;;
  if negb ok then FreeCryptoFwkCtx context ;; ret NvNullptr else
  schedule FnCreateX509CrlExecute FnCreateX509CrlComplete context.

(** *** The engine running a queued work: the worker function, then the
    completion function on the caller's thread. *)

Definition run_execute (f : ExecuteFn) (data : ptr) : M unit :=
  match f with
  | FnGetEncodedExecute => GetEncodedExecute data
  | FnVerifyExecute => VerifyExecute data
  | FnGetRevokedCertificatesExecute => GetRevokedCertificatesExecute data
  | FnCreateX509CrlExecute => CreateX509CrlExecute data
  end.

Definition run_complete (f : CompleteFn) (data : ptr) : M unit :=
  match f with
  | FnGetEncodedComplete => GetEncodedComplete data
  | FnVerifyComplete => VerifyComplete data
  | FnGetRevokedCertificatesComplete => GetRevokedCertificatesComplete data
  | FnCreateX509CrlComplete => CreateX509CrlComplete data
  end.

Definition run_async_work (h : ptr) : M unit :=
  w <- get ;;
  match works w !! h with
  | Some aw =>
      run_execute (aw_execute aw) (aw_data aw) ;;
      run_complete (aw_complete aw) (aw_data aw)
  | None => crash (InvalidHandle h)
  end.

(** The engine's loop taking the oldest queued work. *)
Definition run_next : M unit :=
  w <- get ;;
  match queue w with
  | [] => ret tt
  | h :: rest => modify (with_queue (fun _ => rest)) ;; run_async_work h
  end.

(** *** Synchronous getters *)

Definition GetRevokedCertificate (this : ptr) (info : list napi_value) : M napi_value :=
  let '(argc, argv) := napi_get_cb_info ARGS_SIZE_ONE info in
  if negb (CertCheckArgsCount argc ARGS_SIZE_ONE true) then ret NvNullptr else
  gs <- CertGetInt32FromJSParams (argv_at argv PARAM0) ;;
  let '(got, serialNumber) := gs in
  if negb got then ret NvNullptr else
  x509Crl <- GetX509Crl this ;;
  re <- x509Crl_getRevokedCert x509Crl serialNumber ;;
  let '(r, crlEntry) := re in
  if failed r then
    napi_throw (CertGenerateBusinessError r (Some "get revoked cert failed!")) ;;
    ret NvNullptr
  else
  instance <- CreateX509CrlEntry ;;
  x509CrlEntryClass <- new_nothrow (BNapiX509CrlEntry crlEntry) ;;
  if is_null x509CrlEntryClass then
    napi_throw (CertGenerateBusinessError CF_ERR_MALLOC
                  (Some "Failed to create a x509CrlEntry class")) ;;
    CfObjDestroy crlEntry ;;
    ret NvNullptr
  else
    napi_wrap instance x509CrlEntryClass ;;
    ret instance.

Definition GetRevokedCertificateWithCert (this : ptr) (info : list napi_value)
    : M napi_value :=
  let '(argc, argv) := napi_get_cb_info ARGS_SIZE_ONE info in
  if negb (CertCheckArgsCount argc ARGS_SIZE_ONE true) then ret NvNullptr else
  napiX509Cert <- napi_unwrap (argv_at argv PARAM0) ;;
  if is_null napiX509Cert then
    napi_throw (CertGenerateBusinessError CF_INVALID_PARAMS (Some "napiX509Cert is null")) ;;
    ret NvNullptr
  else
  certificate <- GetX509Cert napiX509Cert ;;
  x509Crl <- GetX509Crl this ;;
  re <- x509Crl_getRevokedCertWithCert x509Crl certificate ;;
  let '(r, crlEntry) := re in
  if failed r then
    napi_throw (CertGenerateBusinessError r (Some "get revoked cert with cert failed!")) ;;
    ret NvNullptr
  else
  instance <- CreateX509CrlEntry ;;
  x509CrlEntryClass <- new_nothrow (BNapiX509CrlEntry crlEntry) ;;
  if is_null x509CrlEntryClass then
    napi_throw (CertGenerateBusinessError CF_ERR_MALLOC
                  (Some "Failed to create a x509CrlEntry class")) ;;
    CfObjDestroy crlEntry ;;
    ret NvNullptr
  else
    napi_wrap instance x509CrlEntryClass ;;
    ret instance.

Definition GetTBSCertList (this : ptr) : M napi_value :=
  x509Crl <- GetX509Crl this ;;
  blob <- HcfMalloc (BBlob {| blob_size := 0; blob_data := nullptr |}) ;;
  if is_null blob then ret NvNullptr else
  result <- x509Crl_getSignature x509Crl blob ;;
  if failed result then
    napi_throw (CertGenerateBusinessError result (Some "get tbs info failed")) ;;
    CfFree blob ;;
    ret NvNullptr
  else
    returnBlob <- CertConvertBlobToNapiValue blob ;;
    CfBlobDataFree blob ;;
    CfFree blob ;;
    ret returnBlob.

Definition GetSignature (this : ptr) : M napi_value :=
  x509Crl <- GetX509Crl this ;;
  blob <- HcfMalloc (BBlob {| blob_size := 0; blob_data := nullptr |}) ;;
  if is_null blob then ret NvNullptr else
  result <- x509Crl_getSignature x509Crl blob ;;
  if failed result then
    napi_throw (CertGenerateBusinessError result (Some "get signature failed")) ;;
    CfFree blob ;;
    ret NvNullptr
  else
    returnBlob <- CertConvertBlobToNapiValue blob ;;
    CfBlobDataFree blob ;;
    CfFree blob ;;
    ret returnBlob.

(** *** An asynchronous invocation, whichever operation it is *)

Inductive AsyncOp :=
| OpGetEncoded
| OpVerify
| OpGetRevokedCertificates
| OpCreateX509Crl.

Definition entry_point (op : AsyncOp) (this : ptr) (info : list napi_value)
    : M napi_value :=
  match op with
  | OpGetEncoded => GetEncoded this info
  | OpVerify => Verify this info
  | OpGetRevokedCertificates => GetRevokedCertificates this info
  | OpCreateX509Crl => NapiCreateX509Crl info
  end.

End Bridge.

(** The [maxCount] each entry point passes to the selector, and the
    argument it passes as the possible callback. *)
Definition max_args (op : AsyncOp) : nat :=
  match op with
  | OpGetEncoded | OpGetRevokedCertificates => ARGS_SIZE_ONE
  | OpVerify | OpCreateX509Crl => ARGS_SIZE_TWO
  end.

Definition callback_arg (op : AsyncOp) (info : list napi_value) : napi_value :=
  argv_at (snd (napi_get_cb_info (max_args op) info)) (max_args op - 1).

Definition execute_of (op : AsyncOp) : ExecuteFn :=
  match op with
  | OpGetEncoded => FnGetEncodedExecute
  | OpVerify => FnVerifyExecute
  | OpGetRevokedCertificates => FnGetRevokedCertificatesExecute
  | OpCreateX509Crl => FnCreateX509CrlExecute
  end.

Definition complete_of (op : AsyncOp) : CompleteFn :=
  match op with
  | OpGetEncoded => FnGetEncodedComplete
  | OpVerify => FnVerifyComplete
  | OpGetRevokedCertificates => FnGetRevokedCertificatesComplete
  | OpCreateX509Crl => FnCreateX509CrlComplete
  end.

(** ** Specification vocabulary *)

(** Total correctness of a computation from a world: it does not crash,
    and its result and final world satisfy [Q]. *)
Definition wp {A} (m : M A) (w : World) (Q : A -> World -> Prop) : Prop :=
  match m w with
  | Ok a w' => Q a w'
  | Crash _ => False
  end.

(** [this] is a live binding object that holds a live native CRL. *)
Definition crl_of (this : ptr) (w : World) : option HcfX509Crl :=
  if is_null this then None else
  match heap w !! this with
  | Some (BNapiX509Crl x) =>
      if is_null x then None else
      match heap w !! x with
      | Some (BX509Crl o) => Some o
      | _ => None
      end
  | _ => None
  end.

(** What [napi_unwrap] answers for a value. *)
Definition unwrapped (v : napi_value) (w : World) : ptr :=
  match v with
  | NvObject o =>
      match objects w !! o with
      | Some (JsInstance p) => p
      | _ => nullptr
      end
  | _ => nullptr
  end.

(** A value that is no public-key object at all, or one whose binding
    object is live. *)
Definition pubkey_arg_ok (v : napi_value) (w : World) : bool :=
  is_null (unwrapped v w) ||
  match heap w !! unwrapped v w with
  | Some (BNapiPubKey _) => true
  | _ => false
  end.

(** The receiver and the arguments are objects the engine really has. *)
Definition ready (op : AsyncOp) (this : ptr) (info : list napi_value)
    (w : World) : bool :=
  match op with
  | OpGetEncoded | OpGetRevokedCertificates => bool_decide (is_Some (crl_of this w))
  | OpVerify =>
      bool_decide (is_Some (crl_of this w)) &&
      pubkey_arg_ok (argv_at (snd (napi_get_cb_info ARGS_SIZE_TWO info)) PARAM0) w
  | OpCreateX509Crl => true
  end.

(** How often an event occurs. *)
Definition count (e : Event) (l : list Event) : nat :=
  length (List.filter (fun x => bool_decide (x = e)) l).

Definition is_delivery (e : Event) : bool :=
  match e with
  | EvCall _ _ | EvResolve _ _ | EvReject _ _ => true
  | _ => false
  end.

(** The deliveries among the events, in order. *)
Definition deliveries (l : list Event) : list Event :=
  List.filter is_delivery l.

(** Events that neither deliver a result nor release a resource of the
    context. *)
Definition quiet (e : Event) : bool :=
  match e with
  | EvAlloc _ | EvObjDestroy _ | EvThrow _ | EvWrap _ _ => true
  | _ => false
  end.

Definition is_alloc (e : Event) : bool :=
  match e with EvAlloc _ => true | _ => false end.

(** What an entry point is seen to do before it answers. *)
Definition is_setup (e : Event) : bool :=
  match e with
  | EvAlloc _ | EvCreateReference _ | EvCreateAsyncWork _ | EvQueueAsyncWork _ =>
      true
  | _ => false
  end.

(** Releases of what a context owns. *)
Definition is_release (e : Event) : bool :=
  match e with
  | EvFree _ | EvDeleteAsyncWork _ | EvDeleteReference _ => true
  | _ => false
  end.

Definition releases (l : list Event) : list Event :=
  List.filter is_release l.

Definition is_wrap (e : Event) : bool :=
  match e with EvWrap _ _ => true | _ => false end.

Definition is_destroy (e : Event) : bool :=
  match e with EvObjDestroy _ => true | _ => false end.

(** The events of a run from [w] to [w']. *)
Definition events (w w' : World) : list Event :=
  drop (length (log w)) (log w').

Definition is_throw (e : Event) : bool :=
  match e with EvThrow _ => true | _ => false end.

Definition data_of (w : World) (p : ptr) : ptr :=
  if is_null p then nullptr else
  match heap w !! p with
  | Some (BEncodingBlob e) => eb_data e
  | Some (BBlob b) => blob_data b
  | Some (BArray a) => arr_data a
  | _ => nullptr
  end.

(** The buffers a context owns: its two encoding blobs, its blob and its
    array, each after the data behind it. *)
Definition owned_buffers (w : World) (c : CfCtx) : list ptr :=
  List.filter (fun p => negb (is_null p))
    [ data_of w (encodingBlob c); encodingBlob c;
      data_of w (encoded c); encoded c;
      data_of w (blob c); blob c;
      data_of w (array c); array c ].

(** What [FreeCryptoFwkCtx] is seen to do for a context with the work
    handle [h], the callback reference [cb] and the buffers [owned]. *)
Definition release_trace (h cb : ptr) (owned : list ptr) (context : ptr)
    : list Event :=
  EvDeleteAsyncWork h ::
  (if is_null cb then [] else [EvDeleteReference cb]) ++
  map EvFree owned ++ [EvFree context].

Definition is_entry (b : Block) : bool :=
  match b with BX509CrlEntry _ => true | _ => false end.

(** What [alloc_entries] leaves: the heap [hp'] grown from [hp] by one
    live entry object per serial, behind the blobs [bs]. *)
Definition entries_allocated (serials : list Z) (hp hp' : gmap N Block)
    (bs : list CfBlob) : Prop :=
  (forall p b, hp !! p = Some b -> hp' !! p = Some b) /\
  (forall p, hp !! p = None -> p ∉ map blob_data bs -> hp' !! p = None) /\
  Forall2 (fun b s => is_null (blob_data b) = false /\
                      hp !! blob_data b = None /\
                      hp' !! blob_data b = Some (BX509CrlEntry s)) bs serials /\
  NoDup (map blob_data bs).

(** The value [v] is an instance that wraps a binding object for the
    native entry behind [b]. *)
Definition wraps (hp : gmap N Block) (os : gmap N JsObj)
    (v : napi_value) (b : CfBlob) : Prop :=
  exists o wr, v = NvObject o /\ os !! o = Some (JsInstance wr) /\
               hp !! wr = Some (BNapiX509CrlEntry (blob_data b)).

(** From index [i] on, the blobs point to live native entries. *)
Definition entries_live (hp : gmap N Block) (bs : list CfBlob) (i : nat) : Prop :=
  forall j b, (i <= j)%nat -> bs !! j = Some b ->
    is_null (blob_data b) = false /\
    exists s, hp !! blob_data b = Some (BX509CrlEntry s).

Definition no_destroy (e : Event) : bool :=
  match e with EvAlloc _ | EvWrap _ _ => true | _ => false end.

(** What the loop of [GenerateCrlEntryArray] leaves after [n] iterations
    from index [i] over the blobs [bs], the array [oa] holding [els]
    before: either a wrapper allocation failed and the answer is
    [nullptr], or the array has gained one wrapping instance per blob,
    in order. *)
Definition loop_done (n i : nat) (oa : N) (els : list napi_value)
    (bs : list CfBlob) (w : World) (v : napi_value) (w' : World) : Prop :=
  refs w' = refs w /\ works w' = works w /\ queue w' = queue w /\
  deferreds w' = deferreds w /\
  (forall p b, heap w !! p = Some b -> is_entry b = false ->
               heap w' !! p = Some b) /\
  exists evs, log w' = log w ++ evs /\ Forall (fun e => quiet e = true) evs /\
  ((v = NvNullptr /\ exists k, (k < n)%nat /\ plan w !! k = Some false) \/
   (v = NvObject oa /\ plan w' = drop n (plan w) /\
    Forall (fun e => no_destroy e = true) evs /\
    (forall p b, heap w !! p = Some b -> heap w' !! p = Some b) /\
    (forall o x, objects w !! o = Some x -> o <> oa -> objects w' !! o = Some x) /\
    exists news,
      objects w' !! oa = Some (JsArray (els ++ news)) /\
      Forall2 (wraps (heap w') (objects w')) news (take n (drop i bs)) /\
      Forall (fun v => exists o, v = NvObject o /\ objects w !! o = None) news /\
      NoDup news)).

Definition same_stores (w w1 : World) : Prop :=
  heap w1 = heap w /\ refs w1 = refs w /\ works w1 = works w /\
  queue w1 = queue w /\ deferreds w1 = deferreds w /\ objects w1 = objects w.

(** The entry point answered [nullptr] at once: nothing is scheduled,
    every store is as before, and what it had allocated it has freed. *)
Definition Refused (w : World) (v : napi_value) (w1 : World) : Prop :=
  v = NvNullptr /\ same_stores w w1 /\
  exists thrown ps,
    log w1 = log w ++ thrown ++ map EvAlloc ps ++ map EvFree (rev ps) /\
    Forall (fun e => is_throw e = true) thrown /\ NoDup ps.

(** The number of fallible allocations an entry point makes before it
    retains the callback. *)
Definition retention_slot (op : AsyncOp) : nat :=
  match op with
  | OpCreateX509Crl => 3
  | _ => 1
  end.

(** The decision of the plan for the [k]-th fallible allocation. *)
Definition alloc_ok_at (k : nat) (w : World) : bool :=
  default true (head (Nat.iter k (drop 1) (plan w))).

(** Whether the worker's own allocation succeeds, for the operations
    whose worker makes one. *)
Definition worker_alloc_ok (op : AsyncOp) (w1 : World) : bool :=
  match op with
  | OpGetEncoded | OpGetRevokedCertificates => default true (head (plan w1))
  | OpVerify | OpCreateX509Crl => true
  end.

Definition worker_msg (op : AsyncOp) (alloc_ok : bool) : string :=
  match op with
  | OpGetEncoded =>
      if alloc_ok then "get encoded failed" else "malloc encoding blob failed"
  | OpVerify => "verify crl failed"
  | OpGetRevokedCertificates =>
      if alloc_ok then "get revoked certs failed" else "malloc array failed"
  | OpCreateX509Crl => "create X509Crl failed"
  end.

(** No allocation that the plan decides fails. *)
Definition no_failure (l : list bool) : bool := forallb id l.

(** The fields of the context other than the result slot of the worker
    [f] (the error code, the message and the payload of [f]) are the
    same in [c] and [c']. *)
Definition same_but_result (f : ExecuteFn) (c c' : CfCtx) : Prop :=
  asyncType c' = asyncType c /\ promise c' = promise c /\
  callback c' = callback c /\ deferred c' = deferred c /\
  asyncWork c' = asyncWork c /\ encodingBlob c' = encodingBlob c /\
  crlClass c' = crlClass c /\ certificate c' = certificate c /\
  pubKey c' = pubKey c /\ serialNumber c' = serialNumber c /\
  crlEntry c' = crlEntry c /\ blob c' = blob c /\
  (f <> FnCreateX509CrlExecute -> crl c' = crl c) /\
  (f <> FnGetEncodedExecute -> encoded c' = encoded c) /\
  (f <> FnGetRevokedCertificatesExecute -> array c' = array c).

(** The completion handle of a context, replaced. *)
Definition with_handles (cb d : ptr) (p : napi_value) (c : CfCtx) : CfCtx :=
  set_callback cb (set_deferred d (set_promise p c)).

(** What a worker needs to find: the binding object of the CRL, or for
    createX509Crl the encoded input. *)
Definition worker_ready (f : ExecuteFn) (c : CfCtx) (w : World) : Prop :=
  match f with
  | FnCreateX509CrlExecute =>
      is_null (encodingBlob c) = false /\
      exists e bytes,
        heap w !! encodingBlob c = Some (BEncodingBlob e) /\
        is_null (eb_data e) = false /\
        heap w !! eb_data e = Some (BBytes bytes)
  | _ => is_Some (crl_of (crlClass c) w)
  end.

Section Summary.
Context `{!Collaborators}.

(** The status the native call of an operation answers. *)
Definition native_status (op : AsyncOp) (this : ptr) (info : list napi_value)
    (w : World) (c1 : CfCtx) : CfResult :=
  match op with
  | OpGetEncoded =>
      match crl_of this w with
      | Some o => fst (crl_getEncoded o)
      | None => CF_INVALID_PARAMS
      end
  | OpVerify =>
      match crl_of this w with
      | Some o => crl_verify o (pubKey c1)
      | None => CF_INVALID_PARAMS
      end
  | OpGetRevokedCertificates =>
      match crl_of this w with
      | Some o => fst (crl_getRevokedCerts o)
      | None => CF_INVALID_PARAMS
      end
  | OpCreateX509Crl =>
      match argv_at (snd (napi_get_cb_info ARGS_SIZE_TWO info)) PARAM0 with
      | NvEncodingBlob bytes fmt => fst (HcfX509CrlParse bytes fmt)
      | _ => CF_INVALID_PARAMS
      end
  end.

(** What [ReturnResult] is seen to do. *)
Definition delivery (mode : AsyncType) (func : napi_value) (d : ptr)
    (code : CfResult) (msg : option string) (result : napi_value) : Event :=
  match mode with
  | ASYNC_TYPE_CALLBACK =>
      EvCall func [ if failed code then CertGenerateBusinessError code msg
                    else NvNullptr; result ]
  | ASYNC_TYPE_PROMISE =>
      if failed code then EvReject d (CertGenerateBusinessError code msg)
      else EvResolve d result
  end.

Definition settled (code : CfResult) (msg : option string) (result : napi_value)
    : Settlement :=
  if failed code then Rejected (CertGenerateBusinessError code msg)
  else Resolved result.

(** The entry point scheduled the work [h] for a context. *)
Definition Scheduled (op : AsyncOp) (info : list napi_value) (w : World)
    (v : napi_value) (w1 : World) (h context : ptr) (c1 : CfCtx) : Prop :=
  is_null context = false /\ is_null h = false /\
  heap w !! context = None /\ works w !! h = None /\
  heap w1 !! context = Some (BCtx c1) /\
  works w1 = <[h := {| aw_execute := execute_of op;
                       aw_complete := complete_of op;
                       aw_data := context |}]> (works w) /\
  queue w1 = queue w ++ [h] /\ objects w1 = objects w /\
  asyncWork c1 = h /\
  asyncType c1 = GetAsyncType (length info) (max_args op) (callback_arg op info) /\
  CertCheckArgsCount (length info) (max_args op) false = true /\
  alloc_ok_at 0 w = true /\
  (exists evs, log w1 = log w ++ evs /\
               Forall (fun e => is_setup e = true) evs) /\
  match asyncType c1 with
  | ASYNC_TYPE_CALLBACK =>
      is_callable (callback_arg op info) = true /\
      alloc_ok_at (retention_slot op) w = true /\
      v = NvNull /\ is_null (callback c1) = false /\
      refs w !! callback c1 = None /\
      refs w1 = <[callback c1 := callback_arg op info]> (refs w) /\
      deferreds w1 = deferreds w
  | ASYNC_TYPE_PROMISE =>
      v = NvPromise (deferred c1) /\ promise c1 = NvPromise (deferred c1) /\
      callback c1 = nullptr /\
      deferreds w !! deferred c1 = None /\
      deferreds w1 = <[deferred c1 := Pending]> (deferreds w) /\
      refs w1 = refs w
  end.

(** The dispatcher ran on the context [ce] the worker left in [we]. *)
Definition Completed (w we : World) (h context : ptr) (ce : CfCtx)
    (w2 : World) : Prop :=
  exists pre code msg result,
    log w2 = log we ++ pre ++
      delivery (asyncType ce) (default NvNullptr (refs we !! callback ce))
               (deferred ce) code msg result ::
      release_trace h (callback ce) (owned_buffers we ce) context /\
    Forall (fun e => quiet e = true) pre /\
    NoDup (context :: owned_buffers we ce) /\
    (forall p, p ∈ context :: owned_buffers we ce -> heap w2 !! p = None) /\
    works w2 = works w /\ refs w2 = refs w /\
    deferreds w2 =
      match asyncType ce with
      | ASYNC_TYPE_CALLBACK => deferreds w
      | ASYNC_TYPE_PROMISE =>
          <[deferred ce := settled code msg result]> (deferreds w)
      end /\
    (failed code = true -> result = NvNullptr \/ result = NvNull) /\
    (failed (errCode ce) = true ->
       code = errCode ce /\ msg = errMsg ce /\ pre = [] /\
       heap w2 = heap w /\ objects w2 = objects w).

(** What a getter built on the native [getSignature] answers and
    throws, [msg] being the message it throws with. *)
Definition signature_outcome (msg : string) (o : HcfX509Crl) (w : World)
    (v : napi_value) (w1 : World) : Prop :=
  v = (if alloc_ok_at 0 w && negb (failed (fst (crl_getSignature o)))
       then NvUint8Array (snd (crl_getSignature o)) else NvNullptr) /\
  same_stores w w1 /\ plan w1 = drop 1 (plan w) /\
  List.filter is_throw (events w w1) =
    (if alloc_ok_at 0 w && failed (fst (crl_getSignature o))
     then [EvThrow (CertGenerateBusinessError (fst (crl_getSignature o))
                      (Some msg))]
     else []).

(** What a synchronous getter leaves once the native call has produced
    the entry object [e] for the serial [sn]: the instance that wraps
    it, or the error thrown and the object destroyed. *)
Definition entry_wrap_outcome (sn : Z) (w : World) (v : napi_value)
    (w1 : World) : Prop :=
  exists e, is_null e = false /\ heap w !! e = None /\
    if alloc_ok_at 0 w then
      exists o wr,
        v = NvObject o /\ objects w !! o = None /\ wr <> e /\
        events w w1 = [EvAlloc e; EvAlloc wr; EvWrap o wr] /\
        heap w1 = <[wr := BNapiX509CrlEntry e]>
                    (<[e := BX509CrlEntry sn]> (heap w)) /\
        objects w1 = <[o := JsInstance wr]> (objects w)
    else
      v = NvNullptr /\
      events w w1 =
        [ EvAlloc e;
          EvThrow (CertGenerateBusinessError CF_ERR_MALLOC
                     (Some "Failed to create a x509CrlEntry class"));
          EvObjDestroy e ] /\
      heap w1 = heap w /\
      exists o, objects w !! o = None /\
                objects w1 = <[o := JsInstance nullptr]> (objects w).

(** What the dispatcher of createX509Crl leaves once the native call has
    produced the CRL object of the context: the instance that wraps it,
    delivered, or the object destroyed and the error delivered. *)
Definition crl_wrap_outcome (w we : World) (h context : ptr) (ce : CfCtx)
    (w2 : World) : Prop :=
  is_null (crl ce) = false /\ heap w !! crl ce = None /\
  exists o, heap we !! crl ce = Some (BX509Crl o) /\
  if default true (head (plan we)) then
    exists inst wr,
      objects w !! inst = None /\ heap we !! wr = None /\
      events we w2 =
        EvAlloc wr :: EvWrap inst wr ::
        delivery (asyncType ce) (default NvNullptr (refs we !! callback ce))
                 (deferred ce) CF_SUCCESS None (NvObject inst) ::
        release_trace h (callback ce) (owned_buffers we ce) context /\
      heap w2 = <[wr := BNapiX509Crl (crl ce)]>
                  (<[crl ce := BX509Crl o]> (heap w)) /\
      objects w2 = <[inst := JsInstance wr]> (objects w)
  else
    events we w2 =
      EvObjDestroy (crl ce) ::
      delivery (asyncType ce) (default NvNullptr (refs we !! callback ce))
               (deferred ce) CF_ERR_MALLOC
               (Some "Failed to create a x509Crl class") NvNullptr ::
      release_trace h (callback ce) (owned_buffers we ce) context /\
    heap w2 = heap w /\
    exists inst, objects w !! inst = None /\
                 objects w2 = <[inst := JsInstance nullptr]> (objects w).

(** What the dispatcher of getRevokedCerts delivers for the serials the
    native call answered, when no allocation fails: nothing for none,
    and otherwise an array of one instance per serial, in order, each
    wrapping its own live entry. *)
Definition revoked_outcome (serials : list Z) (we : World) (ce : CfCtx)
    (w2 : World) : Prop :=
  exists result,
    deliveries (events we w2) =
      [ delivery (asyncType ce) (default NvNullptr (refs we !! callback ce))
                 (deferred ce) CF_SUCCESS None result ] /\
    match serials with
    | [] => result = NvNullptr
    | _ =>
        exists oa news bs,
          result = NvObject oa /\
          objects w2 !! oa = Some (JsArray news) /\
          objects we !! oa = None /\
          Forall2 (wraps (heap w2) (objects w2)) news bs /\
          Forall2 (fun b s => heap w2 !! blob_data b = Some (BX509CrlEntry s))
                  bs serials /\
          NoDup news /\ NoDup (map blob_data bs)
    end.

(** The status a worker leaves, from the input fields of the context. *)
Definition worker_status (f : ExecuteFn) (c : CfCtx) (w : World) : CfResult :=
  match f with
  | FnGetEncodedExecute =>
      if alloc_ok_at 0 w then
        match crl_of (crlClass c) w with
        | Some o => fst (crl_getEncoded o)
        | None => CF_INVALID_PARAMS
        end
      else CF_ERR_MALLOC
  | FnVerifyExecute =>
      match crl_of (crlClass c) w with
      | Some o => crl_verify o (pubKey c)
      | None => CF_INVALID_PARAMS
      end
  | FnGetRevokedCertificatesExecute =>
      if alloc_ok_at 0 w then
        match crl_of (crlClass c) w with
        | Some o => fst (crl_getRevokedCerts o)
        | None => CF_INVALID_PARAMS
        end
      else CF_ERR_MALLOC
  | FnCreateX509CrlExecute =>
      match heap w !! encodingBlob c with
      | Some (BEncodingBlob e) =>
          match heap w !! eb_data e with
          | Some (BBytes bytes) =>
              fst (HcfX509CrlParse (take (eb_len e) bytes)
                                   (eb_encodingFormat e))
          | _ => CF_INVALID_PARAMS
          end
      | _ => CF_INVALID_PARAMS
      end
  end.

Definition worker_message (f : ExecuteFn) (w : World) : string :=
  match f with
  | FnGetEncodedExecute =>
      if alloc_ok_at 0 w then "get encoded failed"
      else "malloc encoding blob failed"
  | FnVerifyExecute => "verify crl failed"
  | FnGetRevokedCertificatesExecute =>
      if alloc_ok_at 0 w then "get revoked certs failed"
      else "malloc array failed"
  | FnCreateX509CrlExecute => "create X509Crl failed"
  end.

(** What a worker leaves of the context [c] at [data]. *)
Definition worker_outcome (f : ExecuteFn) (data : ptr) (c : CfCtx)
    (w w' : World) : Prop :=
  exists c',
    heap w' !! data = Some (BCtx c') /\
    same_but_result f c c' /\
    errCode c' = worker_status f c w /\
    errMsg c' = (if failed (errCode c') then Some (worker_message f w)
                 else errMsg c) /\
    refs w' = refs w /\ works w' = works w /\ queue w' = queue w /\
    deferreds w' = deferreds w /\ objects w' = objects w.

(** What the worker left of the scheduled context. *)
Definition Worked (op : AsyncOp) (this : ptr) (info : list napi_value)
    (w w1 : World) (context : ptr) (c1 : CfCtx) (we : World) (ce : CfCtx)
    : Prop :=
  heap we !! context = Some (BCtx ce) /\
  asyncType ce = asyncType c1 /\ callback ce = callback c1 /\
  deferred ce = deferred c1 /\ promise ce = promise c1 /\
  asyncWork ce = asyncWork c1 /\
  refs we = refs w1 /\ works we = works w1 /\ queue we = queue w1 /\
  deferreds we = deferreds w1 /\ objects we = objects w1 /\
  errCode ce =
    (if worker_alloc_ok op w1 then native_status op this info w c1
     else CF_ERR_MALLOC) /\
  errMsg ce =
    (if failed (errCode ce)
     then Some (worker_msg op (worker_alloc_ok op w1)) else None) /\
  exists evs, log we = log w1 ++ evs /\
              Forall (fun e => is_alloc e = true) evs.

(** The worker ran on the scheduled context, and the dispatcher after it. *)
Definition Dispatched (op : AsyncOp) (this : ptr) (info : list napi_value)
    (w w1 : World) (h context : ptr) (c1 : CfCtx) : Prop :=
  wp (run_execute (execute_of op) context) w1 (fun _ we =>
    exists ce,
      heap we !! context = Some (BCtx ce) /\
      asyncType ce = asyncType c1 /\ callback ce = callback c1 /\
      deferred ce = deferred c1 /\ promise ce = promise c1 /\
      asyncWork ce = asyncWork c1 /\
      refs we = refs w1 /\ works we = works w1 /\ queue we = queue w1 /\
      deferreds we = deferreds w1 /\ objects we = objects w1 /\
      errCode ce =
        (if worker_alloc_ok op w1 then native_status op this info w c1
         else CF_ERR_MALLOC) /\
      errMsg ce =
        (if failed (errCode ce)
         then Some (worker_msg op (worker_alloc_ok op w1)) else None) /\
      (exists evs, log we = log w1 ++ evs /\
                   Forall (fun e => is_alloc e = true) evs) /\
      wp (run_complete (complete_of op) context) we (fun _ w2 =>
        Completed w we h context ce w2)).

(** What an entry point does, and what follows when it schedules. *)
Definition Invocation (op : AsyncOp) (this : ptr) (info : list napi_value)
    (w : World) (v : napi_value) (w1 : World) : Prop :=
  Refused w v w1 \/
  exists h context c1,
    Scheduled op info w v w1 h context c1 /\
    Dispatched op this info w w1 h context c1.

End Summary.

(** * Sample inputs *)

(** A CRL whose native calls all answer [r]. *)
Definition sample_crl (r : CfResult) : HcfX509Crl := {|
  crl_getEncoded := (r, ([48; 130; 1]%Z, 1%Z));
  crl_verify := fun _ => r;
  crl_getRevokedCert := fun s => (r, s);
  crl_getRevokedCertWithCert := fun _ => (r, 7%Z);
  crl_getRevokedCerts := (r, [10; 11; 12]%Z);
  crl_getSignature := (r, [9; 9]%Z) |}.

(** The helpers as the spec describes them, and a parser that accepts
    every non-empty input. *)
Definition sample_collaborators : Collaborators := {|
  GetAsyncType := spec_GetAsyncType;
  CertCheckArgsCount := spec_CertCheckArgsCount;
  CertGenerateBusinessError := spec_CertGenerateBusinessError;
  HcfX509CrlParse := fun bytes fmt =>
    (match bytes with [] => CF_INVALID_PARAMS | _ => CF_SUCCESS end,
     sample_crl CF_SUCCESS) |}.

(** A world with the native CRL at 1 behind the binding object at 2, a
    native certificate at 3 behind the binding object at 4 that the
    script object 8 wraps, and the plan [pl] for the allocations. *)
Definition sample_world (r : CfResult) (pl : list bool) : World := {|
  heap := <[4 := BNapiX509Certificate 3]> (<[3 := BX509Certificate 77]>
          (<[2 := BNapiX509Crl 1]> (<[1 := BX509Crl (sample_crl r)]> ∅)));
  plan := pl; refs := ∅; works := ∅; queue := []; deferreds := ∅;
  objects := <[8 := JsInstance 4]> ∅; log := [] |}.

(** The world a run ends with. *)
Definition world_of {A} (r : Res A) : World :=
  match r with
  | Ok _ w => w
  | Crash _ => sample_world CF_SUCCESS []
  end.

Definition ctx_at (w : World) (p : ptr) : CfCtx :=
  match heap w !! p with
  | Some (BCtx c) => c
  | _ => CfCtx_zero
  end.

(** getRevokedCerts in Promise mode on three entries, the allocation of
    the second wrapper failing. *)
Definition wrap_failure_world : World :=
  sample_world CF_SUCCESS [true; true; true; false].

(** The same in Callback mode, retaining the callback taking the second
    decision of the plan. *)
Definition wrap_failure_callback_world : World :=
  sample_world CF_SUCCESS [true; true; true; true; false].

(** A native array of two entries at 5, its blobs at 6, the script
    array 9 for them, and the next allocation failing. *)
Definition array_world : World :=
  with_objects (insert 9 (JsArray []))
    (with_heap
       (fun h =>
          <[8 := BX509CrlEntry 11]> (<[7 := BX509CrlEntry 10]>
          (<[6 := BBlobs [ {| blob_size := 1; blob_data := 7 |};
                           {| blob_size := 1; blob_data := 8 |} ]]>
          (<[5 := BArray {| arr_data := 6; arr_format := 0;
                            arr_count := 2 |}]> h))))
       (sample_world CF_SUCCESS [false])).

(** A context at 5 as getEncoded leaves it for its worker. *)
Definition worker_world : World :=
  with_heap (insert 5 (BCtx (set_crlClass 2 CfCtx_zero)))
    (sample_world CF_SUCCESS []).

(** An empty native array at 5. *)
Definition empty_array_world : World :=
  with_heap (insert 5 (BArray {| arr_data := nullptr; arr_format := 0;
                                 arr_count := 0 |}))
    (sample_world CF_SUCCESS []).

(** An invocation of getEncoded in Promise mode whose native call
    fails, when its entry point has returned. *)
Definition failing_world : World := sample_world (CF_ERR_OTHER 19) [].

Definition failing_scheduled : World :=
  world_of (entry_point (H := sample_collaborators) OpGetEncoded 2 []
              failing_world).

(** An invocation of getRevokedCerts in Promise mode where no allocation
    fails, when its entry point has returned. *)
Definition revoked_scheduled : World :=
  world_of (entry_point (H := sample_collaborators) OpGetRevokedCertificates
              2 [] (sample_world CF_SUCCESS [])).

(** An invocation of createX509Crl in Promise mode where the allocation
    of the wrapper fails, when its entry point has returned. *)
Definition create_world : World :=
  sample_world CF_SUCCESS [true; true; true; false].

Definition create_info : list napi_value := [NvEncodingBlob [48; 130]%Z 0%Z].

Definition create_scheduled : World :=
  world_of (entry_point (H := sample_collaborators) OpCreateX509Crl 2
              create_info create_world).


(** * The remaining getters, the registered methods and the finalizers *)

(** What the native objects answer to the function pointers that the
    remaining getters call: the status code and the bytes the call
    would hand out, as a function of the object ([HcfX509Crl], or the
    serial that stands for an [HcfX509CrlEntry] in [BX509CrlEntry]).
    With them the two conversions into script values whose results the
    bridge only passes on: [napi_create_string_utf8] of the engine and
    [ConvertBlobToBigIntWords] of napi_cert_utils.cpp, which is not among
    the sources. *)
Class Natives := {
  crl_isRevoked : HcfX509Crl -> ptr -> bool;
  crl_getType : HcfX509Crl -> list Z;
  crl_getVersion : HcfX509Crl -> Z;
  crl_getIssuerName : HcfX509Crl -> CfResult * list Z;
  crl_getLastUpdate : HcfX509Crl -> CfResult * list Z;
  crl_getNextUpdate : HcfX509Crl -> CfResult * list Z;
  crl_getSignatureAlgName : HcfX509Crl -> CfResult * list Z;
  crl_getSignatureAlgOid : HcfX509Crl -> CfResult * list Z;
  crl_getSignatureAlgParams : HcfX509Crl -> CfResult * list Z;
  entry_getSerialNumber : Z -> CfResult * list Z;
  entry_getCertIssuer : Z -> CfResult * list Z;
  entry_getRevocationDate : Z -> CfResult * list Z;
  napi_create_string_utf8 : list Z -> napi_value;
  ConvertBlobToBigIntWords : list Z -> napi_value
}.

Section Getters.
Context `{!Collaborators} `{!Natives}.

(** ** The native calls that fill a [CfBlob]

    Modelled from the spec: the functions behind these pointers
    (x509_crl.c, x509_crl_entry.c and their OpenSSL adapters) are not
    among the sources.  As [x509Crl_getSignature]: on success the call
    fills the slot with a buffer it allocated, otherwise it leaves the
    slot alone. *)
Definition fill_blob (answer : CfResult * list Z) (out : ptr) : M CfResult :=
  let '(r, bytes) := answer in
  if failed r then ret r else
  load_blob out ;;
  d <- alloc (BBytes bytes) ;;
  store out (BBlob {| blob_size := length bytes; blob_data := d |}) ;;
  ret r.

Definition x509Crl_getIssuerName (self out : ptr) : M CfResult :=
  o <- load_crl self ;; fill_blob (crl_getIssuerName o) out.

Definition x509Crl_getLastUpdate (self out : ptr) : M CfResult :=
  o <- load_crl self ;; fill_blob (crl_getLastUpdate o) out.

Definition x509Crl_getNextUpdate (self out : ptr) : M CfResult :=
  o <- load_crl self ;; fill_blob (crl_getNextUpdate o) out.

Definition x509Crl_getSignatureAlgName (self out : ptr) : M CfResult :=
  o <- load_crl self ;; fill_blob (crl_getSignatureAlgName o) out.

Definition x509Crl_getSignatureAlgOid (self out : ptr) : M CfResult :=
  o <- load_crl self ;; fill_blob (crl_getSignatureAlgOid o) out.

Definition x509Crl_getSignatureAlgParams (self out : ptr) : M CfResult :=
  o <- load_crl self ;; fill_blob (crl_getSignatureAlgParams o) out.

Definition load_entry (self : ptr) : M Z :=
  b <- load self ;;
  match b with BX509CrlEntry s => ret s | _ => crash (WrongType self) end.

Definition x509CrlEntry_getCertIssuer (self out : ptr) : M CfResult :=
  s <- load_entry self ;; fill_blob (entry_getCertIssuer s) out.

Definition x509CrlEntry_getRevocationDate (self out : ptr) : M CfResult :=
  s <- load_entry self ;; fill_blob (entry_getRevocationDate s) out.

(** [getSerialNumber(x509CrlEntry, &blob)] for the [CfBlob blob] of the
    caller's frame: the blob as the call leaves it is the second
    component, [{ 0, nullptr }] when the call fails. *)
Definition x509CrlEntry_getSerialNumber (self : ptr) : M (CfResult * CfBlob) :=
  s <- load_entry self ;;
  let '(r, bytes) := entry_getSerialNumber s in
  if failed r then ret (r, {| blob_size := 0; blob_data := nullptr |}) else
  d <- alloc (BBytes bytes) ;;
  ret (r, {| blob_size := length bytes; blob_data := d |}).

(** [napi_create_string_utf8(env, reinterpret_cast<char *>(blob->data),
    blob->size, &result)] *)
Definition string_of_blob (p : ptr) : M napi_value :=
  e <- load_blob p ;;
  bytes <- (if is_null (blob_data e) then ret [] else load_bytes (blob_data e)) ;;
  ret (napi_create_string_utf8 (take (blob_size e) bytes)).

(** ** napi_x509_crl.cpp: the synchronous getters *)

Definition IsRevoked (this : ptr) (info : list napi_value) : M napi_value :=
  let '(argc, argv) := napi_get_cb_info ARGS_SIZE_ONE info in
  if negb (CertCheckArgsCount argc ARGS_SIZE_ONE true) then ret NvNullptr else
  napiX509Cert <- napi_unwrap (argv_at argv PARAM0) ;;
  if is_null napiX509Cert then
    napi_throw (CertGenerateBusinessError CF_INVALID_PARAMS (Some "napiX509Cert is null")) ;;
    ret NvNullptr
  else
  x509Crl <- GetX509Crl this ;;
  certificate <- GetX509Cert napiX509Cert ;;
  o <- load_crl x509Crl ;;
  ret (NvBoolean (crl_isRevoked o certificate)).

Definition GetType (this : ptr) : M napi_value :=
  x509Crl <- GetX509Crl this ;;
  o <- load_crl x509Crl ;;
  ret (napi_create_string_utf8 (crl_getType o)).

(** The conversion of a [long] to [int]: the low 32 bits, read as a
    signed number. *)
Definition narrow_int (z : Z) : Z :=
  ((z + 2 ^ 31) mod 2 ^ 32 - 2 ^ 31)%Z.

(** [int version = x509Crl->getVersion(x509Crl)]: the native answer is
    kept in an [int] before [napi_create_int32] takes it. *)
Definition GetVersion (this : ptr) : M napi_value :=
  x509Crl <- GetX509Crl this ;;
  o <- load_crl x509Crl ;;
  let version := narrow_int (crl_getVersion o) in
  ret (NvInt32 version).

Definition GetIssuerDN (this : ptr) : M napi_value :=
  x509Crl <- GetX509Crl this ;;
  blob <- HcfMalloc (BBlob {| blob_size := 0; blob_data := nullptr |}) ;;
  if is_null blob then ret NvNullptr else
  r <- x509Crl_getIssuerName x509Crl blob ;;
  if failed r then
    napi_throw (CertGenerateBusinessError r (Some "get issuer name failed")) ;;
    CfFree blob ;;
    ret NvNullptr
  else
    returnBlob <- CertConvertBlobToNapiValue blob ;;
    CfBlobDataFree blob ;;
    CfFree blob ;;
    ret returnBlob.

Definition GetThisUpdate (this : ptr) : M napi_value :=
  x509Crl <- GetX509Crl this ;;
  blob <- HcfMalloc (BBlob {| blob_size := 0; blob_data := nullptr |}) ;;
  if is_null blob then ret NvNullptr else
  r <- x509Crl_getLastUpdate x509Crl blob ;;
  if failed r then
    napi_throw (CertGenerateBusinessError r (Some "get last update failed")) ;;
    CfFree blob ;;
    ret NvNullptr
  else
    result <- string_of_blob blob ;;
    CfBlobDataFree blob ;;
    CfFree blob ;;
    ret result.

Definition GetNextUpdate (this : ptr) : M napi_value :=
  x509Crl <- GetX509Crl this ;;
  blob <- HcfMalloc (BBlob {| blob_size := 0; blob_data := nullptr |}) ;;
  if is_null blob then ret NvNullptr else
  r <- x509Crl_getNextUpdate x509Crl blob ;;
  if failed r then
    napi_throw (CertGenerateBusinessError r (Some "get next update failed")) ;;
    CfFree blob ;;
    ret NvNullptr
  else
    result <- string_of_blob blob ;;
    CfBlobDataFree blob ;;
    CfFree blob ;;
    ret result.

Definition GetSigAlgName (this : ptr) : M napi_value :=
  x509Crl <- GetX509Crl this ;;
  blob <- HcfMalloc (BBlob {| blob_size := 0; blob_data := nullptr |}) ;;
  if is_null blob then ret NvNullptr else
  r <- x509Crl_getSignatureAlgName x509Crl blob ;;
  if failed r then
    napi_throw (CertGenerateBusinessError r (Some "get signature alg name failed")) ;;
    CfFree blob ;;
    ret NvNullptr
  else
    result <- string_of_blob blob ;;
    CfBlobDataFree blob ;;
    CfFree blob ;;
    ret result.

Definition GetSigAlgOID (this : ptr) : M napi_value :=
  x509Crl <- GetX509Crl this ;;
  blob <- HcfMalloc (BBlob {| blob_size := 0; blob_data := nullptr |}) ;;
  if is_null blob then ret NvNullptr else
  r <- x509Crl_getSignatureAlgOid x509Crl blob ;;
  if failed r then
    napi_throw (CertGenerateBusinessError r (Some "get signature alg oid failed")) ;;
    CfFree blob ;;
    ret NvNullptr
  else
    result <- string_of_blob blob ;;
    CfBlobDataFree blob ;;
    CfFree blob ;;
    ret result.

Definition GetSigAlgParams (this : ptr) : M napi_value :=
  x509Crl <- GetX509Crl this ;;
  blob <- HcfMalloc (BBlob {| blob_size := 0; blob_data := nullptr |}) ;;
  if is_null blob then ret NvNullptr else
  result <- x509Crl_getSignatureAlgParams x509Crl blob ;;
  if failed result then
    napi_throw (CertGenerateBusinessError result
                  (Some "get signature alg params failed")) ;;
    CfFree blob ;;
    ret NvNullptr
  else
    returnBlob <- CertConvertBlobToNapiValue blob ;;
    CfBlobDataFree blob ;;
    CfFree blob ;;
    ret returnBlob.

(** ** napi_x509_crl.cpp: the functions registered as methods

    Each takes the receiver [thisVar] of the call and unwraps it. *)

Definition NapiIsRevoked (thisVar : napi_value) (info : list napi_value)
    : M napi_value :=
  x509Crl <- napi_unwrap thisVar ;;
  if is_null x509Crl then ret NvNullptr else IsRevoked x509Crl info.

Definition NapiGetType (thisVar : napi_value) (info : list napi_value)
    : M napi_value :=
  x509Crl <- napi_unwrap thisVar ;;
  if is_null x509Crl then ret NvNullptr else GetType x509Crl.

Definition NapiGetEncoded (thisVar : napi_value) (info : list napi_value)
    : M napi_value :=
  x509Crl <- napi_unwrap thisVar ;;
  if is_null x509Crl then ret NvNullptr else GetEncoded x509Crl info.

Definition NapiVerify (thisVar : napi_value) (info : list napi_value)
    : M napi_value :=
  x509Crl <- napi_unwrap thisVar ;;
  if is_null x509Crl then ret NvNullptr else Verify x509Crl info.

Definition NapiGetVersion (thisVar : napi_value) (info : list napi_value)
    : M napi_value :=
  x509Crl <- napi_unwrap thisVar ;;
  if is_null x509Crl then ret NvNullptr else GetVersion x509Crl.

Definition NapiGetIssuerDN (thisVar : napi_value) (info : list napi_value)
    : M napi_value :=
  x509Crl <- napi_unwrap thisVar ;;
  if is_null x509Crl then ret NvNullptr else GetIssuerDN x509Crl.

Definition NapiGetThisUpdate (thisVar : napi_value) (info : list napi_value)
    : M napi_value :=
  x509Crl <- napi_unwrap thisVar ;;
  if is_null x509Crl then ret NvNullptr else GetThisUpdate x509Crl.

Definition NapiGetNextUpdate (thisVar : napi_value) (info : list napi_value)
    : M napi_value :=
  x509Crl <- napi_unwrap thisVar ;;
  if is_null x509Crl then ret NvNullptr else GetNextUpdate x509Crl.

Definition NapiGetRevokedCertificate (thisVar : napi_value)
    (info : list napi_value) : M napi_value :=
  x509Crl <- napi_unwrap thisVar ;;
  if is_null x509Crl then ret NvNullptr else GetRevokedCertificate x509Crl info.

Definition NapiGetRevokedCertificateWithCert (thisVar : napi_value)
    (info : list napi_value) : M napi_value :=
  x509Crl <- napi_unwrap thisVar ;;
  if is_null x509Crl then ret NvNullptr
  else GetRevokedCertificateWithCert x509Crl info.

Definition NapiGetRevokedCertificates (thisVar : napi_value)
    (info : list napi_value) : M napi_value :=
  x509Crl <- napi_unwrap thisVar ;;
  if is_null x509Crl then ret NvNullptr else GetRevokedCertificates x509Crl info.

Definition NapiGetTBSCertList (thisVar : napi_value) (info : list napi_value)
    : M napi_value :=
  x509Crl <- napi_unwrap thisVar ;;
  if is_null x509Crl then ret NvNullptr else GetTBSCertList x509Crl.

Definition NapiGetSignature (thisVar : napi_value) (info : list napi_value)
    : M napi_value :=
  x509Crl <- napi_unwrap thisVar ;;
  if is_null x509Crl then ret NvNullptr else GetSignature x509Crl.

Definition NapiGetSigAlgName (thisVar : napi_value) (info : list napi_value)
    : M napi_value :=
  x509Crl <- napi_unwrap thisVar ;;
  if is_null x509Crl then ret NvNullptr else GetSigAlgName x509Crl.

Definition NapiGetSigAlgOID (thisVar : napi_value) (info : list napi_value)
    : M napi_value :=
  x509Crl <- napi_unwrap thisVar ;;
  if is_null x509Crl then ret NvNullptr else GetSigAlgOID x509Crl.

Definition NapiGetSigAlgParams (thisVar : napi_value) (info : list napi_value)
    : M napi_value :=
  x509Crl <- napi_unwrap thisVar ;;
  if is_null x509Crl then ret NvNullptr else GetSigAlgParams x509Crl.

(** A function registered with the engine: receiver and arguments in,
    a value out. *)
Definition napi_callback : Type := napi_value -> list napi_value -> M napi_value.

(** The descriptors [x509CrlDesc] that [DefineX509CrlJSClass] gives to
    [napi_define_class]: the methods of the class X509Crl by name. *)
Definition x509CrlDesc : list (string * napi_callback) :=
  [ ("isRevoked", NapiIsRevoked);
    ("getType", NapiGetType);
    ("getEncoded", NapiGetEncoded);
    ("verify", NapiVerify);
    ("getVersion", NapiGetVersion);
    ("getIssuerName", NapiGetIssuerDN);
    ("getLastUpdate", NapiGetThisUpdate);
    ("getNextUpdate", NapiGetNextUpdate);
    ("getRevokedCert", NapiGetRevokedCertificate);
    ("getRevokedCertWithCert", NapiGetRevokedCertificateWithCert);
    ("getRevokedCerts", NapiGetRevokedCertificates);
    ("getTbsInfo", NapiGetTBSCertList);
    ("getSignature", NapiGetSignature);
    ("getSignatureAlgName", NapiGetSigAlgName);
    ("getSignatureAlgOid", NapiGetSigAlgOID);
    ("getSignatureAlgParams", NapiGetSigAlgParams) ].

(** ** napi_x509_crl.cpp and napi_x509_crl_entry.cpp: destructors and
    finalizers *)

(** [NapiX509Crl::~NapiX509Crl] *)
Definition NapiX509Crl_destructor (this : ptr) : M unit :=
  x509Crl <- GetX509Crl this ;;
  CfObjDestroy x509Crl.

(** The finalizer that [CreateX509CrlComplete] gives to [napi_wrap]:
    [delete crlClass], the destructor and then the storage given back. *)
Definition X509Crl_finalize (data : ptr) : M unit :=
  let crlClass := data in
  NapiX509Crl_destructor crlClass ;;
  CfFree crlClass.

(** [NapiX509CrlEntry::GetX509CrlEntry()] *)
Definition GetX509CrlEntry (this : ptr) : M ptr :=
  b <- load this ;;
  match b with BNapiX509CrlEntry x => ret x | _ => crash (WrongType this) end.

(** [NapiX509CrlEntry::~NapiX509CrlEntry] *)
Definition NapiX509CrlEntry_destructor (this : ptr) : M unit :=
  x509CrlEntry <- GetX509CrlEntry this ;;
  CfObjDestroy x509CrlEntry.

(** The finalizer that [GetRevokedCertificate],
    [GetRevokedCertificateWithCert] and [GenerateCrlEntryArray] give to
    [napi_wrap]: [delete x509CrlEntryClass]. *)
Definition X509CrlEntry_finalize (data : ptr) : M unit :=
  let x509CrlEntryClass := data in
  NapiX509CrlEntry_destructor x509CrlEntryClass ;;
  CfFree x509CrlEntryClass.

(** The engine collecting a script value: the finalizer runs on what
    the value wraps, if it wraps anything. *)
Definition collect (finalize : ptr -> M unit) (v : napi_value) : M unit :=
  data <- napi_unwrap v ;;
  if is_null data then ret tt else finalize data.

(** ** napi_x509_crl_entry.cpp: the synchronous getters *)

(** The blob of [GetSerialNumber] is in its own frame, so that
    [CfBlobDataFree(&blob)] comes to freeing its data. *)
Definition GetSerialNumber (this : ptr) : M napi_value :=
  x509CrlEntry <- GetX509CrlEntry this ;;
  rb <- x509CrlEntry_getSerialNumber x509CrlEntry ;;
  let '(r, blob) := rb in
  if failed r then
    napi_throw (CertGenerateBusinessError r
                  (Some "crl entry get serial num failed")) ;;
    ret NvNullptr
  else
    bytes <- (if is_null (blob_data blob) then ret []
              else load_bytes (blob_data blob)) ;;
    let result := ConvertBlobToBigIntWords (take (blob_size blob) bytes) in
    CfFree (blob_data blob) ;;
    ret result.

Definition GetCertificateIssuer (this : ptr) : M napi_value :=
  blob <- HcfMalloc (BBlob {| blob_size := 0; blob_data := nullptr |}) ;;
  if is_null blob then ret NvNullptr else
  x509CrlEntry <- GetX509CrlEntry this ;;
  r <- x509CrlEntry_getCertIssuer x509CrlEntry blob ;;
  if failed r then
    napi_throw (CertGenerateBusinessError r (Some "get subject name failed")) ;;
    CfFree blob ;;
    ret NvNullptr
  else
    returnValue <- CertConvertBlobToNapiValue blob ;;
    CfBlobDataFree blob ;;
    CfFree blob ;;
    ret returnValue.

Definition GetRevocationDate (this : ptr) : M napi_value :=
  x509CrlEntry <- GetX509CrlEntry this ;;
  blob <- HcfMalloc (BBlob {| blob_size := 0; blob_data := nullptr |}) ;;
  if is_null blob then ret NvNullptr else
  r <- x509CrlEntry_getRevocationDate x509CrlEntry blob ;;
  if failed r then
    napi_throw (CertGenerateBusinessError r (Some "get revocation date failed")) ;;
    CfFree blob ;;
    ret NvNullptr
  else
    returnDate <- string_of_blob blob ;;
    CfBlobDataFree blob ;;
    CfFree blob ;;
    ret returnDate.

Definition NapiGetSerialNumber (thisVar : napi_value) (info : list napi_value)
    : M napi_value :=
  x509CrlEntry <- napi_unwrap thisVar ;;
  if is_null x509CrlEntry then ret NvNullptr else GetSerialNumber x509CrlEntry.

Definition NapiGetCertificateIssuer (thisVar : napi_value)
    (info : list napi_value) : M napi_value :=
  x509CrlEntry <- napi_unwrap thisVar ;;
  if is_null x509CrlEntry then ret NvNullptr
  else GetCertificateIssuer x509CrlEntry.

Definition NapiGetRevocationDate (thisVar : napi_value)
    (info : list napi_value) : M napi_value :=
  x509CrlEntry <- napi_unwrap thisVar ;;
  if is_null x509CrlEntry then ret NvNullptr else GetRevocationDate x509CrlEntry.

(** The three synchronous methods among the descriptors
    [x509CrlEntryDesc] of [DefineX509CrlEntryJSClass]. *)
Definition x509CrlEntryDesc_sync : list (string * napi_callback) :=
  [ ("getSerialNumber", NapiGetSerialNumber);
    ("getCertIssuer", NapiGetCertificateIssuer);
    ("getRevocationDate", NapiGetRevocationDate) ].

(** ** Vocabulary for the getters *)

(** The getters of X509Crl that fetch bytes into a [CfBlob] of their
    own, other than the two on the signature. *)
Inductive CrlGetter :=
| GetterIssuerDN
| GetterThisUpdate
| GetterNextUpdate
| GetterSigAlgName
| GetterSigAlgOID
| GetterSigAlgParams.

Definition crl_getter (g : CrlGetter) : ptr -> M napi_value :=
  match g with
  | GetterIssuerDN => GetIssuerDN
  | GetterThisUpdate => GetThisUpdate
  | GetterNextUpdate => GetNextUpdate
  | GetterSigAlgName => GetSigAlgName
  | GetterSigAlgOID => GetSigAlgOID
  | GetterSigAlgParams => GetSigAlgParams
  end.

(** The native answer a getter asks for, the message it throws with and
    the script value it makes of the bytes. *)
Definition crl_getter_answer (g : CrlGetter) (o : HcfX509Crl)
    : CfResult * list Z :=
  match g with
  | GetterIssuerDN => crl_getIssuerName o
  | GetterThisUpdate => crl_getLastUpdate o
  | GetterNextUpdate => crl_getNextUpdate o
  | GetterSigAlgName => crl_getSignatureAlgName o
  | GetterSigAlgOID => crl_getSignatureAlgOid o
  | GetterSigAlgParams => crl_getSignatureAlgParams o
  end.

Definition crl_getter_message (g : CrlGetter) : string :=
  match g with
  | GetterIssuerDN => "get issuer name failed"
  | GetterThisUpdate => "get last update failed"
  | GetterNextUpdate => "get next update failed"
  | GetterSigAlgName => "get signature alg name failed"
  | GetterSigAlgOID => "get signature alg oid failed"
  | GetterSigAlgParams => "get signature alg params failed"
  end.

Definition crl_getter_value (g : CrlGetter) (bytes : list Z) : napi_value :=
  match g with
  | GetterIssuerDN | GetterSigAlgParams => NvUint8Array bytes
  | _ => napi_create_string_utf8 bytes
  end.

(** What a getter with a [CfBlob] of its own leaves, for the native
    answer, the message and the conversion it uses: nothing when the
    blob cannot be allocated, the error thrown and the blob freed when
    the native call fails, and otherwise the value made of the bytes,
    the native buffer and the blob freed. *)
Definition blob_getter_outcome (answer : CfResult * list Z) (msg : string)
    (conv : list Z -> napi_value) (w : World) (v : napi_value) (w1 : World)
    : Prop :=
  same_stores w w1 /\ plan w1 = drop 1 (plan w) /\
  if alloc_ok_at 0 w then
    exists blob, is_null blob = false /\ heap w !! blob = None /\
      if failed (fst answer) then
        v = NvNullptr /\
        events w w1 =
          [ EvAlloc blob;
            EvThrow (CertGenerateBusinessError (fst answer) (Some msg));
            EvFree blob ]
      else
        exists data, is_null data = false /\ heap w !! data = None /\
          data <> blob /\
          v = conv (snd answer) /\
          events w w1 = [EvAlloc blob; EvAlloc data; EvFree data; EvFree blob]
  else v = NvNullptr /\ events w w1 = [].

(** [this] is a live binding object that holds a live native entry. *)
Definition entry_of (this : ptr) (w : World) : option Z :=
  if is_null this then None else
  match heap w !! this with
  | Some (BNapiX509CrlEntry x) =>
      if is_null x then None else
      match heap w !! x with
      | Some (BX509CrlEntry s) => Some s
      | _ => None
      end
  | _ => None
  end.

(** What [GetSerialNumber] leaves for the native answer: the error
    thrown, or the big integer made of the bytes and the native buffer
    freed. *)
Definition serial_number_outcome (answer : CfResult * list Z) (w : World)
    (v : napi_value) (w1 : World) : Prop :=
  same_stores w w1 /\ plan w1 = plan w /\
  if failed (fst answer) then
    v = NvNullptr /\
    events w w1 =
      [ EvThrow (CertGenerateBusinessError (fst answer)
                   (Some "crl entry get serial num failed")) ]
  else
    exists data, is_null data = false /\ heap w !! data = None /\
      v = ConvertBlobToBigIntWords (snd answer) /\
      events w w1 = [EvAlloc data; EvFree data].

(** A value that wraps nothing, or one that wraps a live binding object
    of a certificate. *)
Definition cert_arg_ok (v : napi_value) (w : World) : bool :=
  is_null (unwrapped v w) ||
  match heap w !! unwrapped v w with
  | Some (BNapiX509Certificate _) => true
  | _ => false
  end.

(** What [IsRevoked] leaves: nothing for a rejected argument count, the
    error thrown for an argument that wraps nothing, and otherwise the
    answer of the native CRL for the certificate behind the argument. *)
Definition is_revoked_outcome (this : ptr) (info : list napi_value)
    (w : World) (v : napi_value) (w1 : World) : Prop :=
  same_stores w w1 /\ plan w1 = plan w /\
  let arg := argv_at (snd (napi_get_cb_info ARGS_SIZE_ONE info)) PARAM0 in
  if negb (CertCheckArgsCount (length info) ARGS_SIZE_ONE true) then
    v = NvNullptr /\ events w w1 = []
  else if is_null (unwrapped arg w) then
    v = NvNullptr /\
    events w w1 =
      [ EvThrow (CertGenerateBusinessError CF_INVALID_PARAMS
                   (Some "napiX509Cert is null")) ]
  else
    events w w1 = [] /\
    exists o cert,
      crl_of this w = Some o /\
      heap w !! unwrapped arg w = Some (BNapiX509Certificate cert) /\
      v = NvBoolean (crl_isRevoked o cert).

(** ** Vocabulary for whole invocations *)

(** The one delivery of an invocation that ends in [w2] carries
    [result], with the error for [code] and [msg] if [code] is a
    failure. *)
Definition Delivered (op : AsyncOp) (info : list napi_value) (w : World)
    (c1 : CfCtx) (code : CfResult) (msg : option string)
    (result : napi_value) (w2 : World) : Prop :=
  deliveries (events w w2) =
    [ delivery (asyncType c1) (callback_arg op info) (deferred c1)
        code msg result ].

(** The native key behind the first argument of verify. *)
Definition key_of (v : napi_value) (w : World) : option ptr :=
  if is_null (unwrapped v w) then None else
  match heap w !! unwrapped v w with
  | Some (BNapiPubKey k) => Some k
  | _ => None
  end.

(** The native certificate behind the argument of
    getRevokedCertWithCert. *)
Definition cert_of (v : napi_value) (w : World) : option ptr :=
  if is_null (unwrapped v w) then None else
  match heap w !! unwrapped v w with
  | Some (BNapiX509Certificate c) => Some c
  | _ => None
  end.

(** What a successful createX509Crl leaves: the instance delivered
    wraps the live CRL [o], and collecting it gives back all that the
    invocation still held. *)
Definition crl_created (info : list napi_value) (o : HcfX509Crl)
    (w : World) (c1 : CfCtx) (w2 : World) : Prop :=
  exists inst,
    Delivered OpCreateX509Crl info w c1 CF_SUCCESS None (NvObject inst) w2 /\
    objects w !! inst = None /\
    crl_of (unwrapped (NvObject inst) w2) w2 = Some o /\
    exists w3 x wr,
      collect X509Crl_finalize (NvObject inst) w2 = Ok tt w3 /\
      events w2 w3 = [EvObjDestroy x; EvFree wr] /\
      heap w3 = heap w.

(** What [GetRevokedCertificate] and [GetRevokedCertificateWithCert]
    leave when they succeed: the instance returned wraps the live
    entry for the serial [sn], and collecting it gives back the entry
    and its wrapper. *)
Definition entry_created (sn : Z) (w : World) (v : napi_value) (w1 : World)
    : Prop :=
  entry_of (unwrapped v w1) w1 = Some sn /\
  exists w2 x wr,
    collect X509CrlEntry_finalize v w1 = Ok tt w2 /\
    events w1 w2 = [EvObjDestroy x; EvFree wr] /\
    heap w2 = heap w.

(** The answer [nullptr] with the error thrown and nothing else done. *)
Definition thrown_only (code : CfResult) (msg : string) (w : World)
    (v : napi_value) (w1 : World) : Prop :=
  v = NvNullptr /\
  events w w1 = [EvThrow (CertGenerateBusinessError code (Some msg))] /\
  same_stores w w1 /\ plan w1 = plan w.

(** What the loop of [GenerateCrlEntryArray] leaves when the wrapper
    for the element at index [m] of [bs] cannot be allocated: the
    answer [nullptr], that one native entry destroyed and no other,
    every entry after it still live, and no further allocation tried. *)
Definition loop_failed (m : nat) (bs : list CfBlob) (rest : list bool)
    (w : World) (v : napi_value) (w' : World) : Prop :=
  v = NvNullptr /\ plan w' = rest /\
  exists b pre,
    bs !! m = Some b /\ heap w' !! blob_data b = None /\
    entries_live (heap w') bs (S m) /\
    log w' = log w ++ pre ++
      [ EvThrow (CertGenerateBusinessError CF_ERR_MALLOC
                   (Some "Failed to create a x509CrlEntry class"));
        EvObjDestroy (blob_data b) ] /\
    Forall (fun e => no_destroy e = true) pre.

End Getters.

(** ** Samples for the getters and the finalizers *)

(** Native answers that do not depend on the object asked; the version
    is beyond the range of an [int]. *)
Definition sample_natives : Natives := {|
  crl_isRevoked := fun _ cert => (cert =? 3)%N;
  crl_getType := fun _ => [88; 53; 48; 57]%Z;
  crl_getVersion := fun _ => 4294967298%Z;
  crl_getIssuerName := fun _ => (CF_SUCCESS, [67; 78]%Z);
  crl_getLastUpdate := fun _ => (CF_SUCCESS, [50; 51]%Z);
  crl_getNextUpdate := fun _ => (CF_ERR_OTHER 19, []);
  crl_getSignatureAlgName := fun _ => (CF_SUCCESS, [83; 72; 65]%Z);
  crl_getSignatureAlgOid := fun _ => (CF_SUCCESS, [49; 46; 50]%Z);
  crl_getSignatureAlgParams := fun _ => (CF_ERR_OTHER 19, []);
  entry_getSerialNumber := fun s => (CF_SUCCESS, [s]);
  entry_getCertIssuer := fun _ => (CF_SUCCESS, [67; 78]%Z);
  entry_getRevocationDate := fun _ => (CF_ERR_OTHER 19, []);
  napi_create_string_utf8 := NvUint8Array;
  ConvertBlobToBigIntWords := NvUint8Array |}.

(** The native entry for the serial 10 at 5 behind the binding object
    at 6. *)
Definition entry_world : World :=
  with_heap (fun h => <[6 := BNapiX509CrlEntry 5]>
                      (<[5 := BX509CrlEntry 10]> h))
    (sample_world CF_SUCCESS []).

(** A native key at 5 behind the binding object at 6 that the script
    object 9 wraps. *)
Definition key_world : World :=
  with_objects (insert 9 (JsInstance 6))
    (with_heap (fun h => <[6 := BNapiPubKey 5]> (<[5 := BPubKey 1]> h))
       (sample_world CF_SUCCESS [])).

(** Invocations in Promise mode when their entry point has returned:
    getEncoded, verify with the key of [key_world], createX509Crl, and
    getEncoded with the allocation of its worker failing. *)
Definition encoded_scheduled : World :=
  world_of (entry_point (H := sample_collaborators) OpGetEncoded 2 []
              (sample_world CF_SUCCESS [])).

Definition verify_scheduled : World :=
  world_of (entry_point (H := sample_collaborators) OpVerify 2 [NvObject 9]
              key_world).

Definition created_scheduled : World :=
  world_of (entry_point (H := sample_collaborators) OpCreateX509Crl 2
              create_info (sample_world CF_SUCCESS [])).

Definition starved_world : World := sample_world CF_SUCCESS [true; false].

Definition starved_scheduled : World :=
  world_of (entry_point (H := sample_collaborators) OpGetEncoded 2 []
              starved_world).

(** * Accepted invocations and what they deliver *)

Section Accepted.
Context `{!Collaborators}.

(** The decisions on which an entry point goes on to schedule its work:
    the argument count is in the accepted range, the context is
    allocated, the arguments that the entry point reads itself are
    there (the key of verify; the encoded input of createX509Crl, with
    its two buffers allocated), and in Callback mode the last argument
    is a callable that is retained. *)
Definition accepted (op : AsyncOp) (info : list napi_value) (w : World)
    : bool :=
  CertCheckArgsCount (length info) (max_args op) false &&
  alloc_ok_at 0 w &&
  match op with
  | OpVerify =>
      negb (is_null (unwrapped
                       (argv_at (snd (napi_get_cb_info ARGS_SIZE_TWO info))
                                PARAM0) w))
  | OpCreateX509Crl =>
      match argv_at (snd (napi_get_cb_info ARGS_SIZE_TWO info)) PARAM0 with
      | NvEncodingBlob _ _ => alloc_ok_at 1 w && alloc_ok_at 2 w
      | _ => false
      end
  | _ => true
  end &&
  match GetAsyncType (length info) (max_args op) (callback_arg op info) with
  | ASYNC_TYPE_CALLBACK =>
      is_callable (callback_arg op info) && alloc_ok_at (retention_slot op) w
  | ASYNC_TYPE_PROMISE => true
  end.

(** An entry point answers [nullptr] when it refuses, and [null] or the
    promise when it has scheduled. *)
Definition answered (v : napi_value) : bool :=
  match v with NvNullptr => false | _ => true end.

(** The error code and the message that the context holds when the
    dispatcher of [op] returns the result: those the worker left in
    [ce], unless [CreateX509CrlComplete] has replaced them because the
    wrapper could not be allocated. *)
Definition final_status (op : AsyncOp) (we : World) (ce : CfCtx)
    : CfResult * option string :=
  match op with
  | OpCreateX509Crl =>
      if failed (errCode ce) || alloc_ok_at 0 we then (errCode ce, errMsg ce)
      else (CF_ERR_MALLOC, Some "Failed to create a x509Crl class")
  | _ => (errCode ce, errMsg ce)
  end.

(** The value a dispatcher hands to [ReturnResult] beside an error:
    [null] in [VerifyComplete], [nullptr] in the others. *)
Definition failure_value (op : AsyncOp) : napi_value :=
  match op with
  | OpVerify => NvNull
  | _ => NvNullptr
  end.

(** The dispatcher of [op] ran on the context [ce] the worker left in
    [we]: it returned one result, as an error exactly when the code the
    context then held is a failure, and released the context. *)
Definition Returned (op : AsyncOp) (w we : World) (h context : ptr)
    (ce : CfCtx) (w2 : World) : Prop :=
  exists pre result,
    log w2 = log we ++ pre ++
      delivery (asyncType ce) (default NvNullptr (refs we !! callback ce))
               (deferred ce) (fst (final_status op we ce))
               (snd (final_status op we ce)) result ::
      release_trace h (callback ce) (owned_buffers we ce) context /\
    Forall (fun e => quiet e = true) pre /\
    deferreds w2 =
      match asyncType ce with
      | ASYNC_TYPE_CALLBACK => deferreds w
      | ASYNC_TYPE_PROMISE =>
          <[deferred ce := settled (fst (final_status op we ce))
                             (snd (final_status op we ce)) result]>
            (deferreds w)
      end /\
    (failed (fst (final_status op we ce)) = true ->
       result = failure_value op) /\
    (op = OpVerify -> result = NvNull).

(** What an entry point does: it schedules exactly when the invocation
    is accepted, and refuses otherwise; and what follows when the
    engine runs the scheduled work. *)
Definition Served (op : AsyncOp) (this : ptr) (info : list napi_value)
    (w : World) (v : napi_value) (w1 : World) : Prop :=
  accepted op info w = answered v /\
  (Refused w v w1 \/
   exists h context c1,
     Scheduled op info w v w1 h context c1 /\
     wp (run_execute (execute_of op) context) w1 (fun _ we =>
       exists ce,
         heap we !! context = Some (BCtx ce) /\
         wp (run_complete (complete_of op) context) we (fun _ w2 =>
           Returned op w we h context ce w2))).

End Accepted.

(** * Reasoning about computations *)

Lemma wp_ret {A} (a : A) w Q : Q a w -> wp (ret a) w Q.
Proof. done. Qed.

Lemma wp_bind {A B} (m : M A) (k : A -> M B) w Q :
  wp m w (fun a w' => wp (k a) w' Q) -> wp (bind m k) w Q.
Proof. unfold wp, bind. by destruct (m w). Qed.

Lemma wp_mono {A} (m : M A) w (Q Q' : A -> World -> Prop) :
  wp m w Q -> (forall a w', Q a w' -> Q' a w') -> wp m w Q'.
Proof. unfold wp. destruct (m w); auto. Qed.

Lemma wp_run {A} (m : M A) w Q :
  wp m w Q <-> exists a w', m w = Ok a w' /\ Q a w'.
Proof.
  unfold wp. destruct (m w) as [a w'|f]; split.
  - eauto.
  - by intros (? & ? & [= -> ->] & ?).
  - done.
  - by intros (? & ? & ? & ?).
Qed.

Lemma wp_ok {A} (m : M A) w Q a w' :
  wp m w Q -> m w = Ok a w' -> Q a w'.
Proof. unfold wp. intros H E. by rewrite E in H. Qed.

Lemma wp_run_unit (m : M unit) w Q :
  wp m w Q -> exists w', m w = Ok tt w' /\ Q tt w'.
Proof. intros (a & w' & ? & ?)%wp_run. destruct a. eauto. Qed.

Lemma wp_get w Q : Q w w -> wp get w Q.
Proof. done. Qed.

Lemma wp_modify f w Q : Q tt (f w) -> wp (modify f) w Q.
Proof. done. Qed.

Lemma wp_emit e w Q : Q tt (with_log (fun l => l ++ [e]) w) -> wp (emit e) w Q.
Proof. done. Qed.

Lemma fresh_addr_spec w :
  is_null (fresh_addr w) = false /\ heap w !! fresh_addr w = None.
Proof.
  unfold fresh_addr.
  pose proof (is_fresh (dom (heap w) ∪ {[0]})) as Hf.
  set (p := fresh _) in *. split.
  - unfold is_null. apply N.eqb_neq. set_solver.
  - apply not_elem_of_dom. set_solver.
Qed.

Lemma fresh_in_spec {V} (m : gmap N V) :
  is_null (fresh_in m) = false /\ m !! fresh_in m = None.
Proof.
  unfold fresh_in.
  pose proof (is_fresh (dom m ∪ {[0]})) as Hf.
  set (p := fresh _) in *. split.
  - unfold is_null. apply N.eqb_neq. set_solver.
  - apply not_elem_of_dom. set_solver.
Qed.

Lemma wp_alloc b w Q :
  (forall p, is_null p = false -> heap w !! p = None ->
     Q p (with_log (fun l => l ++ [EvAlloc p]) (with_heap (insert p b) w))) ->
  wp (alloc b) w Q.
Proof.
  intros H. unfold wp, alloc, bind, get, modify, emit, ret. cbn.
  destruct (fresh_addr_spec w). by apply H.
Qed.

Lemma wp_next_alloc_ok w Q :
  Q (default true (head (plan w))) (with_plan (drop 1) w) -> wp next_alloc_ok w Q.
Proof. done. Qed.

Lemma wp_load p b w Q :
  is_null p = false -> heap w !! p = Some b -> Q b w -> wp (load p) w Q.
Proof.
  intros Hn Hl HQ. unfold wp, load, bind, get. rewrite Hn. cbn. by rewrite Hl.
Qed.

Lemma wp_store p b b0 w hp Q :
  is_null p = false -> heap w !! p = Some b0 ->
  <[p:=b]> (heap w) = hp ->
  Q tt (with_heap (fun _ => hp) w) -> wp (store p b) w Q.
Proof.
  intros Hn Hl <- HQ. unfold wp, store, load, bind, get. rewrite Hn. cbn.
  by rewrite Hl.
Qed.

Lemma wp_CfFree_null w Q : Q tt w -> wp (CfFree nullptr) w Q.
Proof. done. Qed.

Lemma wp_CfFree p b w hp Q :
  is_null p = false -> heap w !! p = Some b ->
  delete p (heap w) = hp ->
  Q tt (with_log (fun l => l ++ [EvFree p]) (with_heap (fun _ => hp) w)) ->
  wp (CfFree p) w Q.
Proof.
  intros Hn Hl <- HQ. unfold wp, CfFree, bind, get. rewrite Hn. cbn.
  by rewrite Hl.
Qed.

Lemma wp_load_ctx p c w Q :
  is_null p = false -> heap w !! p = Some (BCtx c) -> Q c w ->
  wp (load_ctx p) w Q.
Proof. intros. unfold load_ctx. apply wp_bind. eapply wp_load; eauto. Qed.

Lemma wp_update_ctx p c f w hp Q :
  is_null p = false -> heap w !! p = Some (BCtx c) ->
  <[p:=BCtx (f c)]> (heap w) = hp ->
  Q tt (with_heap (fun _ => hp) w) -> wp (update_ctx p f) w Q.
Proof.
  intros. unfold update_ctx. apply wp_bind. eapply wp_load_ctx; eauto.
  eapply wp_store; eauto.
Qed.

Lemma wp_napi_create_reference v w Q :
  (forall r, is_null r = false -> refs w !! r = None ->
     Q r (with_log (fun l => l ++ [EvCreateReference r])
            (with_refs (insert r v) w))) ->
  wp (napi_create_reference v) w Q.
Proof.
  intros HQ. unfold wp, napi_create_reference, bind, get, modify, emit, ret.
  cbn. destruct (fresh_in_spec (refs w)). by apply HQ.
Qed.

Lemma wp_napi_get_reference_value r w Q :
  Q (default NvNullptr (refs w !! r)) w -> wp (napi_get_reference_value r) w Q.
Proof.
  intros HQ. unfold wp, napi_get_reference_value, bind, get. cbn.
  by destruct (refs w !! r).
Qed.

Lemma wp_napi_delete_reference r v w rs Q :
  refs w !! r = Some v ->
  delete r (refs w) = rs ->
  Q tt (with_log (fun l => l ++ [EvDeleteReference r])
          (with_refs (fun _ => rs) w)) ->
  wp (napi_delete_reference r) w Q.
Proof.
  intros Hl <- HQ. unfold wp, napi_delete_reference, bind, get. cbn.
  by rewrite Hl.
Qed.

Lemma wp_napi_create_promise w Q :
  (forall d, is_null d = false -> deferreds w !! d = None ->
     Q (d, NvPromise d) (with_deferreds (insert d Pending) w)) ->
  wp napi_create_promise w Q.
Proof.
  intros HQ. unfold wp, napi_create_promise, bind, get, modify, ret. cbn.
  destruct (fresh_in_spec (deferreds w)). by apply HQ.
Qed.

Lemma wp_napi_resolve_deferred d v w ds Q :
  deferreds w !! d = Some Pending ->
  <[d:=Resolved v]> (deferreds w) = ds ->
  Q tt (with_log (fun l => l ++ [EvResolve d v])
          (with_deferreds (fun _ => ds) w)) ->
  wp (napi_resolve_deferred d v) w Q.
Proof.
  intros Hl <- HQ. unfold wp, napi_resolve_deferred, bind, get. cbn.
  by rewrite Hl.
Qed.

Lemma wp_napi_reject_deferred d v w ds Q :
  deferreds w !! d = Some Pending ->
  <[d:=Rejected v]> (deferreds w) = ds ->
  Q tt (with_log (fun l => l ++ [EvReject d v])
          (with_deferreds (fun _ => ds) w)) ->
  wp (napi_reject_deferred d v) w Q.
Proof.
  intros Hl <- HQ. unfold wp, napi_reject_deferred, bind, get. cbn.
  by rewrite Hl.
Qed.

Lemma wp_napi_create_async_work e c data w Q :
  (forall h, is_null h = false -> works w !! h = None ->
     Q h (with_log (fun l => l ++ [EvCreateAsyncWork h])
            (with_works (insert h {| aw_execute := e; aw_complete := c;
                                     aw_data := data |}) w))) ->
  wp (napi_create_async_work e c data) w Q.
Proof.
  intros HQ. unfold wp, napi_create_async_work, bind, get, modify, emit, ret.
  cbn. destruct (fresh_in_spec (works w)). by apply HQ.
Qed.

Lemma wp_napi_queue_async_work h aw w Q :
  works w !! h = Some aw ->
  Q tt (with_log (fun l => l ++ [EvQueueAsyncWork h])
          (with_queue (fun q => q ++ [h]) w)) ->
  wp (napi_queue_async_work h) w Q.
Proof.
  intros Hl HQ. unfold wp, napi_queue_async_work, bind, get. cbn. by rewrite Hl.
Qed.

Lemma wp_napi_delete_async_work h aw w ws Q :
  works w !! h = Some aw ->
  delete h (works w) = ws ->
  Q tt (with_log (fun l => l ++ [EvDeleteAsyncWork h])
          (with_works (fun _ => ws) w)) ->
  wp (napi_delete_async_work h) w Q.
Proof.
  intros Hl <- HQ. unfold wp, napi_delete_async_work, bind, get. cbn.
  by rewrite Hl.
Qed.

Lemma wp_napi_new_instance w Q :
  (forall o, is_null o = false -> objects w !! o = None ->
     Q (NvObject o) (with_objects (insert o (JsInstance nullptr)) w)) ->
  wp napi_new_instance w Q.
Proof.
  intros HQ. unfold wp, napi_new_instance, bind, get, modify, ret. cbn.
  destruct (fresh_in_spec (objects w)). by apply HQ.
Qed.

Lemma wp_napi_create_array w Q :
  (forall o, is_null o = false -> objects w !! o = None ->
     Q (NvObject o) (with_objects (insert o (JsArray [])) w)) ->
  wp napi_create_array w Q.
Proof.
  intros HQ. unfold wp, napi_create_array, bind, get, modify, ret. cbn.
  destruct (fresh_in_spec (objects w)). by apply HQ.
Qed.

Lemma wp_napi_wrap o p0 native w os Q :
  objects w !! o = Some (JsInstance p0) ->
  <[o:=JsInstance native]> (objects w) = os ->
  Q tt (with_log (fun l => l ++ [EvWrap o native])
          (with_objects (fun _ => os) w)) ->
  wp (napi_wrap (NvObject o) native) w Q.
Proof.
  intros Hl <- HQ. unfold wp, napi_wrap, bind, get. cbn. by rewrite Hl.
Qed.

Lemma wp_napi_set_element o l i v w os Q :
  objects w !! o = Some (JsArray l) ->
  <[o:=JsArray (js_set_element l i v)]> (objects w) = os ->
  Q tt (with_objects (fun _ => os) w) ->
  wp (napi_set_element (NvObject o) i v) w Q.
Proof.
  intros Hl <- HQ. unfold wp, napi_set_element, bind, get. cbn. by rewrite Hl.
Qed.

Lemma wp_napi_unwrap v w Q :
  Q (unwrapped v w) w -> wp (napi_unwrap v) w Q.
Proof.
  intros HQ. unfold wp, napi_unwrap, unwrapped, bind, get in *. cbn.
  destruct v; try done. destruct (objects w !! o) as [[]|]; done.
Qed.

Lemma crl_of_Some this w o :
  crl_of this w = Some o ->
  exists x, is_null this = false /\ is_null x = false /\
            heap w !! this = Some (BNapiX509Crl x) /\
            heap w !! x = Some (BX509Crl o).
Proof.
  unfold crl_of. destruct (is_null this) eqn:E1; [done|].
  destruct (heap w !! this) as [[]|] eqn:E2; try done.
  destruct (is_null x509Crl_) eqn:E3; [done|].
  destruct (heap w !! x509Crl_) as [[]|] eqn:E4; try done.
  intros [= ->]. eauto.
Qed.

Ltac wsimpl :=
  cbn [heap plan refs works queue deferreds objects log
       with_heap with_plan with_refs with_works with_queue with_deferreds
       with_objects with_log
       asyncType promise callback deferred asyncWork encodingBlob crlClass
       certificate pubKey serialNumber crlEntry errCode errMsg crl encoded
       blob array
       set_asyncType set_promise set_callback set_deferred set_asyncWork
       set_encodingBlob set_crlClass set_pubKey set_errCode set_errMsg
       set_crl set_encoded set_blob set_array CfCtx_zero
       eb_data eb_len eb_encodingFormat blob_size blob_data
       arr_data arr_format arr_count aw_execute aw_complete aw_data
       is_null nullptr N.eqb negb andb orb fst snd when default from_option id
       AsyncType_eqb CfResult_eqb failed is_callable Nat.eqb length
       execute_of complete_of run_execute run_complete].

Ltac wsimpl_in H :=
  cbn [heap plan refs works queue deferreds objects log
       with_heap with_plan with_refs with_works with_queue with_deferreds
       with_objects with_log
       asyncType promise callback deferred asyncWork encodingBlob crlClass
       certificate pubKey serialNumber crlEntry errCode errMsg crl encoded
       blob array
       set_asyncType set_promise set_callback set_deferred set_asyncWork
       set_encodingBlob set_crlClass set_pubKey set_errCode set_errMsg
       set_crl set_encoded set_blob set_array CfCtx_zero
       eb_data eb_len eb_encodingFormat blob_size blob_data
       arr_data arr_format arr_count aw_execute aw_complete aw_data
       is_null nullptr N.eqb negb andb orb fst snd when default from_option id
       AsyncType_eqb CfResult_eqb failed is_callable Nat.eqb length
       execute_of complete_of run_execute run_complete] in H.

Ltac solve_ne :=
  first [ assumption | symmetry; assumption
        | let E := fresh in intros E; subst; congruence
        | let E := fresh in intros E; symmetry in E; subst; congruence ].

Ltac norm_lookup :=
  repeat first
    [ rewrite lookup_insert_eq
    | rewrite lookup_delete_eq
    | rewrite lookup_insert_ne by solve_ne
    | rewrite lookup_delete_ne by solve_ne ].

Ltac solve_lookup := wsimpl; norm_lookup; first [reflexivity | eassumption].

Ltac norm_fresh H :=
  wsimpl_in H;
  repeat match type of H with
  | <[_:=_]> _ !! _ = None =>
      apply lookup_insert_None in H;
      let H' := fresh "Hne" in destruct H as [H H']
  end.

(** Rewrite with what the case analysis so far has decided. *)
Ltac rew_known :=
  repeat match goal with
  | H : is_null ?p = _ |- context[is_null ?p] => rewrite H
  | H : GetAsyncType ?a ?b ?c = _ |- context[GetAsyncType ?a ?b ?c] => rewrite H
  | H : is_callable ?v = _ |- context[is_callable ?v] => rewrite H
  | H : CertCheckArgsCount ?a ?b ?c = _ |- context[CertCheckArgsCount ?a ?b ?c] =>
      rewrite H
  | H : CfResult_eqb ?a ?b = _ |- context[CfResult_eqb ?a ?b] => rewrite H
  | H : failed ?a = _ |- context[failed ?a] => rewrite H
  | H : crl_of ?a ?b = _ |- context[crl_of ?a ?b] => rewrite H
  | H : crl_getEncoded ?a = _ |- context[crl_getEncoded ?a] => rewrite H
  | H : crl_getRevokedCerts ?a = _ |- context[crl_getRevokedCerts ?a] => rewrite H
  | H : crl_getSignature ?a = _ |- context[crl_getSignature ?a] => rewrite H
  | H : crl_getRevokedCert ?a ?b = _ |- context[crl_getRevokedCert ?a ?b] =>
      rewrite H
  | H : crl_getRevokedCertWithCert ?a ?b = _
    |- context[crl_getRevokedCertWithCert ?a ?b] => rewrite H
  | H : HcfX509CrlParse ?a ?b = _ |- context[HcfX509CrlParse ?a ?b] => rewrite H
  | H : ?pk = unwrapped ?a ?b |- context[unwrapped ?a ?b] => rewrite <- H
  | H : argv_at ?a ?b = _ |- context[argv_at ?a ?b] => rewrite H
  | H : @lookup nat _ (list _) _ ?i ?l = _
    |- context[@lookup nat _ (list _) _ ?i ?l] => rewrite H
  | H : default true (head ?l) = _ |- context[default true (head ?l)] =>
      rewrite H
  end.

Ltac solve_null := solve [rew_known; reflexivity | wsimpl; rew_known; reflexivity].

(** Keep each store a chain of inserts over the initial one, with one
    insert per key: a newer write replaces the older, a delete cancels
    the insert it meets. *)
Ltac sink_insert :=
  match goal with
  | |- context[<[?p:=?b]> (<[?q:=?c]> ?m)] =>
      lazymatch m with context[<[p:=_]> _] => idtac end;
      rewrite (insert_insert_ne m p q b c) by solve_ne
  end.

Ltac norm_stores :=
  repeat first
    [ rewrite insert_insert_eq
    | rewrite delete_insert_eq
    | rewrite delete_insert_ne by solve_ne
    | rewrite delete_id by assumption
    | sink_insert ].

Ltac solve_store := wsimpl; norm_stores; reflexivity.

Ltac norm_world :=
  cbv [with_heap with_plan with_refs with_works with_queue with_deferreds
       with_objects with_log];
  cbn [heap plan refs works queue deferreds objects log].

Ltac wp_prim :=
  lazymatch goal with
  | |- wp (bind _ _) _ _ => apply wp_bind
  | |- wp (ret _) _ _ => apply wp_ret
  | |- wp get _ _ => apply wp_get
  | |- wp (modify _) _ _ => apply wp_modify
  | |- wp (emit _) _ _ => apply wp_emit
  | |- wp (napi_throw _) _ _ => apply wp_emit
  | |- wp (napi_call_function _ _) _ _ => apply wp_emit
  | |- wp next_alloc_ok _ _ => apply wp_next_alloc_ok
  | |- wp (alloc _) _ _ =>
      let p := fresh "p" in let Hn := fresh "Hn" in let Hf := fresh "Hf" in
      apply wp_alloc; intros p Hn Hf; norm_fresh Hf
  | |- wp (load_ctx _) _ _ => eapply wp_load_ctx; [ solve_null | solve_lookup | ]
  | |- wp (update_ctx _ _) _ _ =>
      eapply wp_update_ctx; [ solve_null | solve_lookup | solve_store | ]
  | |- wp (load _) _ _ => eapply wp_load; [ solve_null | solve_lookup | ]
  | |- wp (store _ _) _ _ =>
      eapply wp_store; [ solve_null | solve_lookup | solve_store | ]
  | |- wp (CfFree 0) _ _ => apply wp_CfFree_null
  | |- wp (CfFree _) _ _ =>
      eapply wp_CfFree; [ solve_null | solve_lookup | solve_store | ]
  | |- wp (napi_create_reference _) _ _ =>
      let r := fresh "r" in let Hn := fresh "Hn" in let Hf := fresh "Hf" in
      apply wp_napi_create_reference; intros r Hn Hf; norm_fresh Hf
  | |- wp (napi_get_reference_value _) _ _ =>
      apply wp_napi_get_reference_value; wsimpl; norm_lookup
  | |- wp (napi_delete_reference _) _ _ =>
      eapply wp_napi_delete_reference; [ solve_lookup | solve_store | ]
  | |- wp napi_create_promise _ _ =>
      let d := fresh "d" in let Hn := fresh "Hn" in let Hf := fresh "Hf" in
      apply wp_napi_create_promise; intros d Hn Hf; norm_fresh Hf
  | |- wp (napi_resolve_deferred _ _) _ _ =>
      eapply wp_napi_resolve_deferred; [ solve_lookup | solve_store | ]
  | |- wp (napi_reject_deferred _ _) _ _ =>
      eapply wp_napi_reject_deferred; [ solve_lookup | solve_store | ]
  | |- wp (napi_create_async_work _ _ _) _ _ =>
      let h := fresh "h" in let Hn := fresh "Hn" in let Hf := fresh "Hf" in
      apply wp_napi_create_async_work; intros h Hn Hf; norm_fresh Hf
  | |- wp (napi_queue_async_work _) _ _ =>
      eapply wp_napi_queue_async_work; [ solve_lookup | ]
  | |- wp (napi_delete_async_work _) _ _ =>
      eapply wp_napi_delete_async_work; [ solve_lookup | solve_store | ]
  | |- wp napi_new_instance _ _ =>
      let o := fresh "o" in let Hn := fresh "Hn" in let Hf := fresh "Hf" in
      apply wp_napi_new_instance; intros o Hn Hf; norm_fresh Hf
  | |- wp napi_create_array _ _ =>
      let o := fresh "o" in let Hn := fresh "Hn" in let Hf := fresh "Hf" in
      apply wp_napi_create_array; intros o Hn Hf; norm_fresh Hf
  | |- wp (napi_wrap (NvObject _) _) _ _ =>
      eapply wp_napi_wrap; [ solve_lookup | solve_store | ]
  | |- wp (napi_set_element (NvObject _) _ _) _ _ =>
      eapply wp_napi_set_element; [ solve_lookup | solve_store | ]
  | |- wp (napi_unwrap _) _ _ => apply wp_napi_unwrap
  | |- wp (if AsyncType_eqb ?t _ then _ else _) _ _ => destruct t eqn:?
  | |- wp (if negb ?b then _ else _) _ _ => destruct b eqn:?
  | |- wp (if ?b then _ else _) _ _ => destruct b eqn:?
  | |- wp (let '(_, _) := ?b in _) _ _ => destruct b eqn:?
  | |- wp (match ?l with [] => _ | _ :: _ => _ end) _ _ => destruct l eqn:?
  | |- wp (crash _) _ _ => fail
  | |- wp (alloc_entries _) _ _ => fail
  | |- wp (GenerateCrlEntryArray_loop _ _ _ _) _ _ => fail
  | |- wp (?f _ _ _ _ _) _ _ => unfold f
  | |- wp (?f _ _ _ _) _ _ => unfold f
  | |- wp (?f _ _ _) _ _ => unfold f
  | |- wp (?f _ _) _ _ => unfold f
  | |- wp (?f _) _ _ => unfold f
  | |- wp ?f _ _ => unfold f
  end.

Ltac wp_step :=
  cbv beta; unfold nullptr, failed; wsimpl; rew_known; wsimpl; wp_prim;
  norm_world.
Ltac wp_go := repeat wp_step; cbv beta; unfold failed; wsimpl; rew_known; wsimpl.

(** ** Solving what is left at the end of a path *)

Lemma log_ext_refl (l : list Event) : l = l ++ [].
Proof. by rewrite app_nil_r. Qed.

Lemma log_ext_app (l l' evs more : list Event) :
  l' = l ++ evs -> l' ++ more = l ++ (evs ++ more).
Proof. intros ->. by rewrite app_assoc. Qed.

Ltac solve_log_ext :=
  first [ apply log_ext_refl | apply log_ext_app; solve_log_ext ].

Ltac solve_forall :=
  repeat first
    [ apply Forall_nil_2
    | apply Forall_cons_2; [reflexivity|]
    | apply Forall_app_2
    | assumption ].

Ltac allocs_of evs :=
  lazymatch evs with
  | EvAlloc ?p :: ?r => let t := allocs_of r in constr:(p :: t)
  | _ :: ?r => allocs_of r
  | _ => constr:(@nil ptr)
  end.

Ltac throws_of evs :=
  lazymatch evs with
  | EvThrow ?p :: ?r => let t := throws_of r in constr:(EvThrow p :: t)
  | _ :: ?r => throws_of r
  | _ => constr:(@nil Event)
  end.

Ltac before_delivery evs :=
  lazymatch evs with
  | EvCall _ _ :: _ => constr:(@nil Event)
  | EvResolve _ _ :: _ => constr:(@nil Event)
  | EvReject _ _ :: _ => constr:(@nil Event)
  | ?x :: ?r => let t := before_delivery r in constr:(x :: t)
  end.

Ltac not_in :=
  let Hx := fresh "Hx" in
  rewrite ?elem_of_cons, ?elem_of_nil; intros Hx;
  repeat match type of Hx with
         | _ \/ _ => destruct Hx as [Hx|Hx]
         | False => destruct Hx
         end;
  try (subst; congruence).

Ltac nodup :=
  repeat first [ apply NoDup_nil_2 | apply NoDup_cons_2; [ not_in | ] ].

Ltac elim_elem H :=
  rewrite ?elem_of_cons, ?elem_of_nil in H;
  repeat match type of H with
         | _ \/ _ => destruct H as [H|H]
         | False => destruct H
         end;
  try subst.

Lemma refused_intro w v w1 evs thrown ps :
  v = NvNullptr -> same_stores w w1 ->
  log w1 = log w ++ evs ->
  evs = thrown ++ map EvAlloc ps ++ map EvFree (rev ps) ->
  Forall (fun e => is_throw e = true) thrown -> NoDup ps ->
  Refused w v w1.
Proof. intros -> ? ? -> ? ?. split; [done|]. split; [done|]. eauto. Qed.

Ltac refused :=
  left;
  lazymatch goal with
  | |- Refused ?w ?v ?w1 =>
      let E := fresh "E" in
      eassert (log w1 = log w ++ _) as E by (wsimpl; solve_log_ext);
      cbn [app] in E; wsimpl_in E;
      lazymatch type of E with
      | _ = _ ++ ?evs =>
          let ps := allocs_of evs in
          let th := throws_of evs in
          apply (refused_intro w v w1 evs th ps);
          [ reflexivity | by repeat split | exact E | reflexivity
          | repeat constructor | nodup ]
      end
  end.

Section Paths.
Context `{!Collaborators}.

Lemma completed_intro w we h context ce w2 evs pre code msg result :
  log w2 = log we ++ evs ->
  evs = pre ++
      delivery (asyncType ce) (default NvNullptr (refs we !! callback ce))
               (deferred ce) code msg result ::
      release_trace h (callback ce) (owned_buffers we ce) context ->
  Forall (fun e => quiet e = true) pre ->
  NoDup (context :: owned_buffers we ce) ->
  (forall p, p ∈ context :: owned_buffers we ce -> heap w2 !! p = None) ->
  works w2 = works w -> refs w2 = refs w ->
  deferreds w2 =
      match asyncType ce with
      | ASYNC_TYPE_CALLBACK => deferreds w
      | ASYNC_TYPE_PROMISE =>
          <[deferred ce := settled code msg result]> (deferreds w)
      end ->
  (failed code = true -> result = NvNullptr \/ result = NvNull) ->
  (failed (errCode ce) = true ->
       code = errCode ce /\ msg = errMsg ce /\ pre = [] /\
       heap w2 = heap w /\ objects w2 = objects w) ->
  Completed w we h context ce w2.
Proof.
  intros ? -> ? ? ? ? ? ? ? ?. exists pre, code, msg, result.
  split; [assumption|]. repeat (split; [assumption|]). assumption.
Qed.

End Paths.

Ltac scheduled :=
  lazymatch goal with
  | |- context[<[?h:={| aw_execute := _; aw_complete := _; aw_data := ?p |}]> _] =>
      lazymatch goal with
      | |- context[<[p:=BCtx ?c]> _] => right; exists h, p, c
      end
  end;
  split;
  [ unfold Scheduled;
    cbv [max_args callback_arg napi_get_cb_info snd ARGS_SIZE_ONE ARGS_SIZE_TWO
         PARAM0 PARAM1 retention_slot alloc_ok_at Nat.iter];
    wsimpl; cbn [Nat.sub]; rew_known; wsimpl;
    repeat match goal with
           | |- _ /\ _ => split
           end;
    first [ reflexivity | assumption | solve_lookup | rew_known; reflexivity
          | by apply negb_false_iff
          | eexists; split; [wsimpl; solve_log_ext | cbn [app]; solve_forall]
          | idtac ]
  | ].

Ltac comp_owned :=
  unfold owned_buffers, data_of, release_trace, delivery, settled;
  do 3 (unfold nullptr, failed; wsimpl; rew_known; norm_lookup);
  repeat (progress (rew_known; cbn [List.filter map app negb is_null N.eqb])).

Ltac completed_with E evs pre code msg result :=
  lazymatch goal with
  | |- Completed ?w ?we ?h ?p ?ce ?w2 =>
      apply (completed_intro w we h p ce w2 evs pre code msg result);
      [ exact E
      | comp_owned; try reflexivity
      | solve_forall
      | comp_owned; nodup
      | comp_owned; let q := fresh "q" in let Hq := fresh "Hq" in
        intros q Hq; elim_elem Hq; wsimpl; norm_lookup;
        first [assumption | reflexivity | idtac]
      | wsimpl; try reflexivity
      | wsimpl; try reflexivity
      | comp_owned; try reflexivity
      | comp_owned; try (intros; first [discriminate | auto]; fail)
      | comp_owned;
        try (intros; first [discriminate | repeat split; reflexivity]) ]
  end.

Ltac completed :=
  lazymatch goal with
  | |- Completed ?w ?we ?h ?p ?ce ?w2 =>
      let E := fresh "E" in
      eassert (log w2 = log we ++ _) as E
        by (wsimpl; solve_log_ext);
      cbn [app] in E;
      lazymatch type of E with
      | _ = _ ++ ?evs =>
          let pre := before_delivery evs in
          lazymatch evs with
          | context[EvCall _ [CertGenerateBusinessError ?c ?m; ?r]] =>
              completed_with E evs pre c m r
          | context[EvCall _ [NvNullptr; ?r]] =>
              let c := eval cbn in (errCode ce) in
              let m := eval cbn in (errMsg ce) in
              completed_with E evs pre c m r
          | context[EvReject _ (CertGenerateBusinessError ?c ?m)] =>
              completed_with E evs pre c m NvNullptr
          | context[EvResolve _ ?r] =>
              let c := eval cbn in (errCode ce) in
              let m := eval cbn in (errMsg ce) in
              completed_with E evs pre c m r
          end
      end
  end.

Ltac after_execute :=
  eexists; split; [solve_lookup|];
  do 10 (split; [wsimpl; reflexivity|]);
  split; [ repeat match goal with
                  | H : context[take (length ?l) ?l] |- _ =>
                      rewrite firstn_all in H
                  end;
           cbv [native_status worker_alloc_ok napi_get_cb_info snd
                ARGS_SIZE_ONE ARGS_SIZE_TWO PARAM0 PARAM1];
           wsimpl; rew_known; wsimpl; try reflexivity |];
  split; [ unfold worker_msg, worker_alloc_ok, failed; wsimpl; rew_known;
           wsimpl; try reflexivity |];
  split; [ eexists; split;
           [wsimpl; solve_log_ext | cbn [app]; solve_forall] |].

Ltac dispatched :=
  unfold Dispatched; cbn [execute_of complete_of run_execute run_complete];
  wp_go; after_execute; wp_go; completed.

Ltac invocation_paths :=
  unfold ARGS_SIZE_ONE, ARGS_SIZE_TWO, PARAM0, PARAM1 in *;
  wp_go;
  lazymatch goal with
  | |- Invocation _ _ _ _ NvNullptr _ => refused
  | |- _ => scheduled; dispatched
  end.

(** * The two loops of getRevokedCerts *)

Lemma js_set_element_end (l : list napi_value) v :
  js_set_element l (length l) v = l ++ [v].
Proof.
  unfold js_set_element. case_decide; [lia|].
  by rewrite Nat.sub_diag.
Qed.

Lemma wp_alloc_entries serials : forall w Q,
  (forall w' bs evs,
     plan w' = plan w -> refs w' = refs w -> works w' = works w ->
     queue w' = queue w -> deferreds w' = deferreds w ->
     objects w' = objects w ->
     log w' = log w ++ evs -> Forall (fun e => is_alloc e = true) evs ->
     entries_allocated serials (heap w) (heap w') bs ->
     Q bs w') ->
  wp (alloc_entries serials) w Q.
Proof.
  induction serials as [|s rest IH]; intros w Q HQ; cbn [alloc_entries].
  - apply wp_ret. apply (HQ w [] []); try done.
    + by rewrite app_nil_r.
    + repeat split; auto. constructor.
  - apply wp_bind, wp_alloc. intros p Hn Hf.
    apply wp_bind, IH. intros w' bs evs Hpl Hrf Hwk Hqu Hdf Hob Hlog Hall Hent.
    apply wp_ret.
    cbn [heap plan refs works queue deferreds objects log with_heap with_log]
      in *.
    destruct Hent as (Hgrow & Hnew & Hf2 & Hnd).
    assert (Hfresh : forall b,
              <[p:=BX509CrlEntry s]> (heap w) !! blob_data b = None ->
              blob_data b <> p /\ heap w !! blob_data b = None).
    { intros b Hb. apply lookup_insert_None in Hb as [? ?]. split; congruence. }
    apply (HQ w' _ (EvAlloc p :: evs)); try done.
    + by rewrite Hlog, <- app_assoc.
    + by constructor.
    + split; [|split; [|split]].
      * intros q b Hq. apply Hgrow.
        assert (p <> q) by congruence.
        by rewrite lookup_insert_ne.
      * intros q Hq Hnotin. cbn in Hnotin.
        apply not_elem_of_cons in Hnotin as [? ?].
        apply Hnew; [|done]. by rewrite lookup_insert_ne.
      * constructor.
        -- cbn. split; [done|]. split; [done|]. apply Hgrow.
           by rewrite lookup_insert_eq.
        -- eapply Forall2_impl; [exact Hf2|]. intros b s0 (? & Hb & ?).
           destruct (Hfresh b Hb) as [? ?]. done.
      * cbn. constructor; [|done]. intros Hin.
        apply list_elem_of_fmap in Hin as (b & Hb1 & Hb2).
        apply list_elem_of_lookup in Hb2 as [j Hj].
        destruct (Forall2_lookup_l _ _ _ _ _ Hf2 Hj) as (s0 & _ & _ & Hb3 & _).
        destruct (Hfresh b Hb3) as [? ?]. congruence.
Qed.

Section Loop.
Context `{!Collaborators}.

Lemma wp_GenerateCrlEntryArray_loop n : forall i arrayp a bs oa els w Q,
  is_null arrayp = false -> heap w !! arrayp = Some (BArray a) ->
  is_null (arr_data a) = false -> heap w !! arr_data a = Some (BBlobs bs) ->
  objects w !! oa = Some (JsArray els) -> length els = i ->
  entries_live (heap w) bs i -> (i + n <= length bs)%nat ->
  (forall v w', loop_done n i oa els bs w v w' -> Q v w') ->
  wp (GenerateCrlEntryArray_loop n i arrayp (NvObject oa)) w Q.
Proof.
  induction n as [|n IH];
    intros i arrayp a bs oa els w Q Hna Harr Hnd Hdat Hoa Hlen Hlive Hbound HQ.
  - cbn [GenerateCrlEntryArray_loop]. apply wp_ret, HQ.
    unfold loop_done. do 5 (split; [done|]). exists [].
    split; [by rewrite app_nil_r|]. split; [constructor|].
    right. split; [done|]. split; [by rewrite drop_0|]. split; [constructor|].
    split; [done|]. split; [done|].
    exists []. rewrite app_nil_r, take_0. split; [done|]. split; [constructor|].
    split; constructor.
  - cbn [GenerateCrlEntryArray_loop].
    destruct (lookup_lt_is_Some_2 bs i) as [b Hb]; [lia|].
    destruct (Hlive i b (le_n _) Hb) as (Hbn & s & Hbs).
    unfold load_array, load_blob_at, CreateX509CrlEntry.
    wp_go.
    + (* the wrapper is allocated: the rest of the loop *)
      assert (o <> oa) by congruence.
      assert (Hp : forall q x, heap w !! q = Some x ->
                <[p:=BNapiX509CrlEntry (blob_data b)]> (heap w) !! q = Some x).
      { intros q x Hq. rewrite lookup_insert_ne; [done|]. congruence. }
      subst i. rewrite js_set_element_end.
      eapply (IH (S (length els)) arrayp a bs oa (els ++ [NvObject o]));
        cbn [heap objects].
      * done.
      * by apply Hp.
      * done.
      * by apply Hp.
      * by rewrite lookup_insert_eq.
      * rewrite length_app. cbn. lia.
      * intros j b' Hj Hb'. destruct (Hlive j b') as (? & s' & ?); [lia|done|].
        split; [done|]. exists s'. by apply Hp.
      * lia.
      * intros v w' (Hrf & Hwk & Hqu & Hdf & Hfr & evs & Hlog & Hquiet & Hres).
        cbn [heap plan refs works queue deferreds objects log] in *.
        apply HQ. unfold loop_done.
        do 4 (split; [done|]).
        split. { intros q x Hq Hx. apply Hfr; [by apply Hp|done]. }
        exists (EvAlloc p :: EvWrap o p :: evs).
        split. { rewrite Hlog, <- !app_assoc. done. }
        split. { by repeat constructor. }
        destruct Hres as [(-> & k & Hk & Hpk)
                         |(-> & Hpl & Hnod & Hkeep & Hobj & news & Hoa' & Hw
                              & Hnew & Hnd')].
        -- left. split; [done|]. exists (S k). split; [lia|].
           rewrite lookup_drop in Hpk. done.
        -- right. split; [done|]. split. { by rewrite Hpl, drop_drop. }
           split. { by repeat constructor. }
           split. { intros q x Hq. by apply Hkeep, Hp. }
           split. { intros o' x Ho' Hne. apply Hobj; [|done].
                    rewrite lookup_insert_ne by done.
                    rewrite lookup_insert_ne; [done|]. congruence. }
           exists (NvObject o :: news).
           split. { by rewrite Hoa', <- app_assoc. }
           split.
           { rewrite (drop_S _ _ _ Hb). cbn [take]. constructor; [|done].
             exists o, p. split; [done|]. split.
             - apply Hobj; [|done]. rewrite lookup_insert_ne by done.
               by rewrite lookup_insert_eq.
             - apply Hkeep. by rewrite lookup_insert_eq. }
           split.
           { constructor; [by eauto|].
             eapply Forall_impl; [exact Hnew|]. intros v (o' & -> & Ho').
             exists o'. split; [done|].
             destruct (decide (o' = oa)) as [->|].
             { by rewrite lookup_insert_eq in Ho'. }
             rewrite lookup_insert_ne in Ho' by done.
             apply lookup_insert_None in Ho' as [? ?]. done. }
           constructor; [|done]. intros Hin.
           rewrite Forall_forall in Hnew.
           destruct (Hnew _ Hin) as (o' & [= <-] & Ho').
           rewrite lookup_insert_ne in Ho' by done.
           by rewrite lookup_insert_eq in Ho'.
    + (* the wrapper allocation fails *)
      apply HQ. unfold loop_done.
      cbn [heap plan refs works queue deferreds objects log].
      do 4 (split; [done|]).
      split. { intros q x Hq Hx. rewrite lookup_delete_ne; [done|].
               intros <-. rewrite Hbs in Hq. by injection Hq as <-. }
      eexists. split; [by rewrite <- app_assoc|].
      split; [by repeat constructor|].
      left. split; [done|]. exists 0%nat. split; [lia|].
      destruct (plan w) as [|[] ?]; done.
Qed.

End Loop.

(** * The invocations, path by path *)

(** Carry the lookups of live blocks over to a heap that keeps them. *)
Ltac transfer Hkeep side :=
  repeat match goal with
  | Hn : is_null ?q = false |- _ =>
      lazymatch type of Hkeep with
      | forall p b, _ -> ?hp' !! p = Some b =>
          lazymatch goal with
          | _ : hp' !! q = Some _ |- _ => fail
          | _ => idtac
          end;
          let Hq := fresh "Ht" in
          eassert (hp' !! q = Some _) as Hq by (apply Hkeep; solve_lookup)
      | forall p b, _ -> _ -> ?hp' !! p = Some b =>
          lazymatch goal with
          | _ : hp' !! q = Some _ |- _ => fail
          | _ => idtac
          end;
          let Hq := fresh "Ht" in
          eassert (hp' !! q = Some _) as Hq
            by (apply Hkeep; [solve_lookup | reflexivity])
      end
  end.

Section Invocations.
Context `{!Collaborators}.

Lemma invocation_GetEncoded this info w :
  ready OpGetEncoded this info w = true ->
  wp (entry_point OpGetEncoded this info) w
     (Invocation OpGetEncoded this info w).
Proof.
  intros Hr. cbn in Hr. apply bool_decide_eq_true in Hr as [o Ho].
  pose proof Ho as (x & Hn1 & Hn2 & H1 & H2)%crl_of_Some.
  unfold entry_point, GetEncoded. cbn [napi_get_cb_info].
  invocation_paths.
Qed.

Lemma invocation_Verify this info w :
  ready OpVerify this info w = true ->
  wp (entry_point OpVerify this info) w (Invocation OpVerify this info w).
Proof.
  intros Hr. cbn [ready] in Hr. apply andb_true_iff in Hr as [Hr Hk].
  apply bool_decide_eq_true in Hr as [o Ho].
  pose proof Ho as (x & Hn1 & Hn2 & H1 & H2)%crl_of_Some.
  unfold pubkey_arg_ok in Hk. cbn [napi_get_cb_info snd] in Hk.
  unfold entry_point, Verify. cbn [napi_get_cb_info].
  unfold ARGS_SIZE_ONE, ARGS_SIZE_TWO, PARAM0, PARAM1 in *.
  remember (unwrapped
              (argv_at (take 2 info ++ replicate (2 - length info) NvUndefined) 0)
              w) as pk eqn:Epk.
  destruct (is_null pk) eqn:En.
  - invocation_paths.
  - cbn [orb] in Hk.
    destruct (heap w !! pk) as [[]|] eqn:Hpk; try discriminate.
    invocation_paths.
Qed.

Lemma invocation_GetRevokedCertificates this info w :
  ready OpGetRevokedCertificates this info w = true ->
  wp (entry_point OpGetRevokedCertificates this info) w
     (Invocation OpGetRevokedCertificates this info w).
Proof.
  intros Hr. cbn in Hr. apply bool_decide_eq_true in Hr as [o Ho].
  pose proof Ho as (x & Hn1 & Hn2 & H1 & H2)%crl_of_Some.
  unfold entry_point, GetRevokedCertificates. cbn [napi_get_cb_info].
  unfold ARGS_SIZE_ONE, ARGS_SIZE_TWO, PARAM0, PARAM1 in *;
  wp_go.
  all: lazymatch goal with
  | |- Invocation _ _ _ _ NvNullptr _ => refused
  | |- _ => scheduled
  end.
  all: unfold Dispatched; cbn [execute_of complete_of run_execute run_complete];
    wp_go.
  all: try (after_execute; wp_go; completed; fail).
  all: apply wp_alloc_entries;
    intros w' bs evs Hpl Hrf Hwk Hqu Hdf Hob Hlog Hall (Hgrow & Hnew & Hent & Hnd);
    destruct w' as [hp' pl' rs' ws' qu' ds' os' lg'];
    cbn [heap plan refs works queue deferreds objects log] in *;
    subst pl' rs' ws' qu' ds' os' lg';
    transfer Hgrow tt.
  all: wp_go.
  all: after_execute.
  all: wp_go.
  all: eapply wp_GenerateCrlEntryArray_loop;
    [ solve_null | solve_lookup | solve_null | solve_lookup | solve_lookup
    | reflexivity
    | intros j b _ Hb;
      destruct (Forall2_lookup_l _ _ _ _ _ Hent Hb) as (s & _ & Hbn & _ & Hbs);
      split; [done|]; exists s; cbn [heap];
      rewrite !lookup_insert_ne by congruence; done
    | apply Forall2_length in Hent; cbn in *; lia
    | ].
  all: intros v w'' (Hrf & Hwk & Hqu & Hdf & Hfr & evs2 & Hlog2 & Hquiet & _);
    destruct w'' as [hp'' pl'' rs'' ws'' qu'' ds'' os'' lg''];
    cbn [heap plan refs works queue deferreds objects log] in *;
    subst rs'' ws'' qu'' ds'' lg'';
    transfer Hfr tt.
  all: wp_go.
  all: lazymatch goal with
  | |- Completed ?w ?we ?h ?p ?ce ?w2 =>
      let E := fresh "E" in
      eassert (log w2 = log we ++ _) as E by (wsimpl; solve_log_ext);
      lazymatch type of E with
      | _ = _ ++ ?e =>
          let E2 := fresh "E" in
          eassert (e = evs2 ++ _) as E2
            by (cbn [app]; rewrite <- !app_assoc; cbn [app]; reflexivity);
          rewrite E2 in E; clear E2
      end;
      lazymatch type of E with
      | _ = _ ++ ?evs =>
          let c := eval cbn in (errCode ce) in
          let m := eval cbn in (errMsg ce) in
          completed_with E evs evs2 c m v
      end
  end.
Qed.

Lemma invocation_CreateX509Crl this info w :
  wp (entry_point OpCreateX509Crl this info) w
     (Invocation OpCreateX509Crl this info w).
Proof.
  unfold entry_point, NapiCreateX509Crl. cbn [napi_get_cb_info].
  unfold ARGS_SIZE_ONE, ARGS_SIZE_TWO, PARAM0, PARAM1 in *.
  unfold GetEncodingBlobFromValue.
  destruct (argv_at (take 2 info ++ replicate (2 - length info) NvUndefined) 0)
    eqn:Ea0.
  all: invocation_paths.
Qed.

End Invocations.

(** * Counting events *)

Lemma events_ext w w' evs : log w' = log w ++ evs -> events w w' = evs.
Proof. intros E. unfold events. rewrite E. by rewrite drop_app_length. Qed.

Lemma count_cons e x l :
  count e (x :: l) = ((if bool_decide (x = e) then 1 else 0) + count e l)%nat.
Proof. unfold count. cbn. by destruct (bool_decide (x = e)). Qed.

Lemma count_absent e l : e ∉ l -> count e l = 0%nat.
Proof.
  induction l as [|x l IH]; [done|]. intros Hn.
  apply not_elem_of_cons in Hn as [Hne Hn].
  rewrite count_cons, IH by done.
  rewrite bool_decide_eq_false_2; [done|congruence].
Qed.

Lemma count_once e l : NoDup l -> e ∈ l -> count e l = 1%nat.
Proof.
  induction 1 as [|x l Hx Hnd IH]; [by intros ?%elem_of_nil|].
  intros [->|Hin]%elem_of_cons; rewrite count_cons.
  - rewrite bool_decide_eq_true_2 by done. by rewrite count_absent.
  - rewrite bool_decide_eq_false_2; [by rewrite IH|]. intros ->. done.
Qed.

Lemma filter_none (P Q : Event -> bool) l :
  Forall (fun x => P x = true) l -> (forall x, P x = true -> Q x = false) ->
  List.filter Q l = [].
Proof.
  intros Hall Hpq. induction Hall as [|x l Hx _ IH]; [done|].
  cbn. by rewrite (Hpq x Hx).
Qed.

Lemma filter_all (Q : Event -> bool) l :
  Forall (fun x => Q x = true) l -> List.filter Q l = l.
Proof.
  induction 1 as [|x l Hx _ IH]; [done|]. cbn. by rewrite Hx, IH.
Qed.

Lemma count_filter (Q : Event -> bool) e l :
  Q e = true -> count e (List.filter Q l) = count e l.
Proof.
  intros He. induction l as [|x l IH]; [done|]. cbn [List.filter].
  destruct (Q x) eqn:Hx.
  - by rewrite !count_cons, IH.
  - rewrite count_cons, IH, bool_decide_eq_false_2; [done|congruence].
Qed.

Lemma release_trace_releases h cb owned context :
  Forall (fun e => is_release e = true) (release_trace h cb owned context).
Proof.
  unfold release_trace. apply Forall_cons_2; [done|].
  apply Forall_app_2; [by destruct (is_null cb); repeat constructor|].
  apply Forall_app_2; [|by repeat constructor].
  apply Forall_forall. intros e (p & -> & _)%list_elem_of_fmap. done.
Qed.

Lemma release_trace_NoDup h cb owned context :
  NoDup (context :: owned) -> NoDup (release_trace h cb owned context).
Proof.
  intros Hnd. unfold release_trace.
  assert (Inj eq eq EvFree) as Hinj by (intros ? ? [=]; done).
  assert (NoDup (map EvFree owned ++ [EvFree context])) as Hfrees.
  { change [EvFree context] with (map EvFree [context]). rewrite <- map_app.
    apply (NoDup_fmap_2 EvFree). apply NoDup_app. apply NoDup_cons in Hnd as [Hc Hnd].
    split; [done|]. split; [|apply NoDup_singleton].
    intros x Hx ->%list_elem_of_singleton. done. }
  apply NoDup_cons_2.
  - intros [Hin|Hin]%elem_of_app.
    + destruct (is_null cb); [by apply elem_of_nil in Hin|].
      by apply list_elem_of_singleton in Hin.
    + apply elem_of_app in Hin as [(p & ? & _)%list_elem_of_fmap|Hin]; [done|].
      by apply list_elem_of_singleton in Hin.
  - apply NoDup_app. split; [destruct (is_null cb); [apply NoDup_nil_2|apply NoDup_singleton]|].
    split; [|done].
    intros x Hx [(p & -> & _)%list_elem_of_fmap|Hin%list_elem_of_singleton]%elem_of_app.
    + destruct (is_null cb); [by apply elem_of_nil in Hx|].
      by apply list_elem_of_singleton in Hx.
    + subst x. destruct (is_null cb); [by apply elem_of_nil in Hx|].
      by apply list_elem_of_singleton in Hx.
Qed.

(** * Whole invocations *)

Section Lifecycle.
Context `{!Collaborators}.

Lemma invocation op this info w :
  ready op this info w = true ->
  wp (entry_point op this info) w (Invocation op this info w).
Proof.
  destruct op.
  - apply invocation_GetEncoded.
  - apply invocation_Verify.
  - apply invocation_GetRevokedCertificates.
  - intros _. apply invocation_CreateX509Crl.
Qed.

Lemma scheduled_run op this info w v w1 h context c1 :
  Scheduled op info w v w1 h context c1 ->
  Dispatched op this info w w1 h context c1 ->
  exists we ce w2,
    run_execute (execute_of op) context w1 = Ok tt we /\
    run_complete (complete_of op) context we = Ok tt w2 /\
    run_async_work h w1 = Ok tt w2 /\
    Worked op this info w w1 context c1 we ce /\
    Completed w we h context ce w2.
Proof.
  intros Hs Hd. unfold Dispatched in Hd.
  apply wp_run in Hd as ([] & we & Hex & ce & Hd).
  assert (Worked op this info w w1 context c1 we ce /\
          wp (run_complete (complete_of op) context) we
             (fun _ w2 => Completed w we h context ce w2)) as [Hw Hc].
  { unfold Worked. tauto. }
  apply wp_run in Hc as ([] & w2 & Hco & Hc).
  exists we, ce, w2. split; [done|]. split; [done|]. split; [|done].
  destruct Hs as (_ & _ & _ & _ & _ & Hwk & _).
  unfold run_async_work, bind, get. rewrite Hwk, lookup_insert_eq. cbn.
  by rewrite Hex.
Qed.

Lemma lifecycle op this info w :
  ready op this info w = true ->
  exists v w1, entry_point op this info w = Ok v w1 /\
    (Refused w v w1 \/
     exists h context c1 we ce w2,
       Scheduled op info w v w1 h context c1 /\
       run_execute (execute_of op) context w1 = Ok tt we /\
       run_complete (complete_of op) context we = Ok tt w2 /\
       run_async_work h w1 = Ok tt w2 /\
       Worked op this info w w1 context c1 we ce /\
       Completed w we h context ce w2).
Proof.
  intros Hr. apply invocation, wp_run in Hr as (v & w1 & He & [Hrf|Hsd]).
  - exists v, w1. split; [done|]. by left.
  - destruct Hsd as (h & context & c1 & Hs & Hd).
    destruct (scheduled_run _ _ _ _ _ _ _ _ _ Hs Hd) as (we & ce & w2 & ?).
    exists v, w1. split; [done|]. right. exists h, context, c1, we, ce, w2.
    tauto.
Qed.

Lemma invocation_events op this info w v w1 h context c1 we ce w2 :
  Scheduled op info w v w1 h context c1 ->
  Worked op this info w w1 context c1 we ce ->
  Completed w we h context ce w2 ->
  exists setup evs pre code msg result,
    events w w1 = setup /\
    events w w2 =
      setup ++ evs ++ pre ++
      delivery (asyncType c1) (callback_arg op info) (deferred c1)
               code msg result ::
      release_trace h (callback c1) (owned_buffers we ce) context /\
    Forall (fun e => is_setup e = true) setup /\
    Forall (fun e => is_alloc e = true) evs /\
    Forall (fun e => quiet e = true) pre /\
    (failed code = true -> result = NvNullptr \/ result = NvNull) /\
    deferreds w2 =
      match asyncType c1 with
      | ASYNC_TYPE_CALLBACK => deferreds w
      | ASYNC_TYPE_PROMISE =>
          <[deferred c1 := settled code msg result]> (deferreds w)
      end /\
    (failed (errCode ce) = true ->
       code = errCode ce /\ msg = errMsg ce /\ pre = []).
Proof.
  intros Hs Hw Hc.
  destruct Hw as (_ & Hty & Hcb & Hde & _ & _ & Hrf & _ & _ & _ & _ & _ & _ &
                  evs & Hle & Ha).
  destruct Hc as (pre & code & msg & result & Hl2 & Hq & _ & _ & _ & _ & Hd &
                  Hf & Hfe).
  destruct Hs as (_ & _ & _ & _ & _ & _ & _ & _ & _ & Hmode & _ & _ &
                  (setup & Hl & Hsu) & Hcase).
  exists setup, evs, pre, code, msg, result.
  rewrite Hty, Hcb, Hde in *.
  assert (delivery (asyncType c1) (default NvNullptr (refs we !! callback c1))
            (deferred c1) code msg result =
          delivery (asyncType c1) (callback_arg op info) (deferred c1)
            code msg result) as Hdel.
  { destruct (asyncType c1); [|done].
    destruct Hcase as (_ & _ & _ & _ & _ & Hrefs & _).
    by rewrite Hrf, Hrefs, lookup_insert_eq. }
  rewrite Hdel in Hl2.
  split; [by apply events_ext|].
  split; [apply events_ext; rewrite Hl2, Hle, Hl; by rewrite <- !app_assoc|].
  repeat split; try done; by apply Hfe.
Qed.

Lemma delivery_is_delivery mode func d code msg result :
  is_delivery (delivery mode func d code msg result) = true.
Proof. unfold delivery. by destruct mode, (failed code). Qed.

Lemma delivery_not_release mode func d code msg result :
  is_release (delivery mode func d code msg result) = false.
Proof. unfold delivery. by destruct mode, (failed code). Qed.

Lemma releases_of_invocation setup evs pre dl rt :
  Forall (fun e => is_setup e = true) setup ->
  Forall (fun e => is_alloc e = true) evs ->
  Forall (fun e => quiet e = true) pre ->
  is_release dl = false ->
  Forall (fun e => is_release e = true) rt ->
  releases (setup ++ evs ++ pre ++ dl :: rt) = rt.
Proof.
  intros Hs He Hp Hd Hr. unfold releases.
  rewrite !List.filter_app. cbn. rewrite Hd.
  rewrite (filter_none is_setup), (filter_none is_alloc), (filter_none quiet),
    filter_all; try done.
  all: by intros [].
Qed.

Lemma deliveries_of_invocation setup evs pre dl rt :
  Forall (fun e => is_setup e = true) setup ->
  Forall (fun e => is_alloc e = true) evs ->
  Forall (fun e => quiet e = true) pre ->
  is_delivery dl = true ->
  Forall (fun e => is_release e = true) rt ->
  deliveries (setup ++ evs ++ pre ++ dl :: rt) = [dl].
Proof.
  intros Hs He Hp Hd Hr. unfold deliveries.
  rewrite !List.filter_app. cbn. rewrite Hd.
  rewrite (filter_none is_setup), (filter_none is_alloc), (filter_none quiet),
    (filter_none is_release); try done.
  all: by intros [].
Qed.

(** C1.  In every asynchronous invocation (getEncoded, verify,
    getRevokedCerts, createX509Crl), whatever the outcome of the native
    call and of the wrapping: either the entry point refuses and has
    freed what it allocated, or the work it scheduled, when the engine
    runs it, releases the context and everything it owns exactly once:
    the releases seen are the work handle, the callback reference if
    there is one, the buffers the context owns and the context itself,
    each once, and none of them is live afterwards. *)
Theorem context_released_exactly_once op this info w :
  ready op this info w = true ->
  exists v w1, entry_point op this info w = Ok v w1 /\
    (Refused w v w1 \/
     exists h context c1 we ce w2,
       Scheduled op info w v w1 h context c1 /\
       run_execute (execute_of op) context w1 = Ok tt we /\
       heap we !! context = Some (BCtx ce) /\
       run_async_work h w1 = Ok tt w2 /\
       releases (events w w2) =
         release_trace h (callback c1) (owned_buffers we ce) context /\
       NoDup (context :: owned_buffers we ce) /\
       (forall p, p ∈ context :: owned_buffers we ce ->
          count (EvFree p) (events w w2) = 1%nat /\ heap w2 !! p = None) /\
       count (EvDeleteAsyncWork h) (events w w2) = 1%nat /\
       (asyncType c1 = ASYNC_TYPE_CALLBACK ->
          count (EvDeleteReference (callback c1)) (events w w2) = 1%nat) /\
       works w2 = works w /\ refs w2 = refs w).
Proof.
  intros Hr.
  destruct (lifecycle _ _ _ _ Hr) as (v & w1 & He & [Hrf|Hsd]).
  { exists v, w1. split; [done|]. by left. }
  destruct Hsd as (h & context & c1 & we & ce & w2 & Hs & Hex & _ & Hrun & Hw & Hc).
  exists v, w1. split; [done|]. right. exists h, context, c1, we, ce, w2.
  destruct (invocation_events _ _ _ _ _ _ _ _ _ _ _ _ Hs Hw Hc)
    as (setup & evs & pre & code & msg & result & _ & Hev & Hsu & Ha & Hq & _).
  pose proof Hc as (_ & _ & _ & _ & _ & _ & Hnd & Hgone & Hwk & Hrf & _).
  pose proof (release_trace_releases h (callback c1) (owned_buffers we ce)
                context) as Hrel.
  pose proof (release_trace_NoDup h (callback c1) _ _ Hnd) as Hrnd.
  assert (releases (events w w2) =
          release_trace h (callback c1) (owned_buffers we ce) context) as Hrs.
  { rewrite Hev. apply releases_of_invocation; try done.
    apply delivery_not_release. }
  assert (forall e, is_release e = true ->
            e ∈ release_trace h (callback c1) (owned_buffers we ce) context ->
            count e (events w w2) = 1%nat) as Hone.
  { intros e He1 Hin. rewrite <- (count_filter is_release) by done.
    fold (releases (events w w2)). rewrite Hrs. by apply count_once. }
  split; [done|]. split; [done|]. split; [apply Hw|]. split; [done|].
  split; [done|]. split; [done|]. split.
  { intros p Hp. split; [|by apply Hgone]. apply Hone; [done|].
    unfold release_trace. apply elem_of_cons. right.
    apply elem_of_app. right.
    change [EvFree context] with (map EvFree [context]). rewrite <- map_app.
    apply list_elem_of_fmap_2. apply elem_of_cons in Hp as [->|Hp].
    - apply elem_of_app. right. by apply list_elem_of_singleton.
    - apply elem_of_app. by left. }
  split; [apply Hone; [done|]; by apply elem_of_cons; left|].
  split; [|done].
  intros Hcb. apply Hone; [done|].
  destruct Hs as (_ & _ & _ & _ & _ & _ & _ & _ & _ & _ & _ & _ & _ & Hcase).
  rewrite Hcb in Hcase. destruct Hcase as (_ & _ & _ & Hnn & _).
  unfold release_trace. rewrite Hnn. apply elem_of_cons. right.
  apply elem_of_cons. by left.
Qed.

Lemma scheduled_unique op info w v w1 h context c1 h' context' c1' :
  Scheduled op info w v w1 h context c1 ->
  Scheduled op info w v w1 h' context' c1' ->
  h' = h /\ context' = context /\ c1' = c1.
Proof.
  intros (_ & _ & _ & Hfr & Hc & Hwk & _) (_ & _ & _ & Hfr' & Hc' & Hwk' & _).
  assert (h' = h) as ->.
  { destruct (decide (h' = h)) as [|Hne]; [done|].
    assert (works w1 !! h = works w1 !! h) as E by done.
    rewrite Hwk in E at 1. rewrite Hwk' in E.
    rewrite lookup_insert_eq, lookup_insert_ne, Hfr in E; done. }
  assert (context' = context) as ->.
  { assert (works w1 !! h = works w1 !! h) as E by done.
    rewrite Hwk in E at 1. rewrite Hwk' in E.
    rewrite !lookup_insert_eq in E. congruence. }
  split; [done|]. split; [done|]. congruence.
Qed.

Lemma ready_same_stores op this info w w' :
  same_stores w w' -> ready op this info w' = ready op this info w.
Proof.
  intros (Hh & _ & _ & _ & _ & Ho).
  unfold ready, crl_of, pubkey_arg_ok, unwrapped. by rewrite Hh, Ho.
Qed.

(** C7.  In every asynchronous invocation that is scheduled and whose
    native call answers a status other than success: the worker leaves
    that very status in the context together with the fixed message of
    the operation, and the dispatcher delivers exactly this pair, as
    the error argument of the callback or as the rejection of the
    promise; no object is wrapped, and afterwards the heap, the works
    and the references are as they were before the invocation. *)
Theorem native_failure_delivered op this info w v w1 h context c1 :
  ready op this info w = true ->
  entry_point op this info w = Ok v w1 ->
  Scheduled op info w v w1 h context c1 ->
  worker_alloc_ok op w1 = true ->
  failed (native_status op this info w c1) = true ->
  exists we ce w2 result,
    run_execute (execute_of op) context w1 = Ok tt we /\
    heap we !! context = Some (BCtx ce) /\
    errCode ce = native_status op this info w c1 /\
    errMsg ce = Some (worker_msg op true) /\
    run_async_work h w1 = Ok tt w2 /\
    deliveries (events w w2) =
      [ match asyncType c1 with
        | ASYNC_TYPE_CALLBACK =>
            EvCall (callback_arg op info)
              [ CertGenerateBusinessError (native_status op this info w c1)
                  (Some (worker_msg op true)); result ]
        | ASYNC_TYPE_PROMISE =>
            EvReject (deferred c1)
              (CertGenerateBusinessError (native_status op this info w c1)
                 (Some (worker_msg op true)))
        end ] /\
    (result = NvNullptr \/ result = NvNull) /\
    Forall (fun e => is_wrap e = false) (events w w2) /\
    objects w2 = objects w /\ heap w2 = heap w /\
    works w2 = works w /\ refs w2 = refs w.
Proof.
  intros Hr He Hs Hok Hfail.
  destruct (lifecycle _ _ _ _ Hr) as (v' & w1' & He' & Hcase).
  rewrite He in He'. injection He' as <- <-.
  destruct Hcase as [Hrf|Hsd].
  { exfalso. destruct Hrf as (_ & (_ & _ & Hwk & _) & _).
    destruct Hs as (_ & _ & _ & Hfr & _ & Hwk1 & _).
    rewrite Hwk1 in Hwk. rewrite <- Hwk, lookup_insert_eq in Hfr. done. }
  destruct Hsd as (h' & context' & c1' & we & ce & w2 & Hs' & Hex & _ & Hrun & Hw & Hc).
  destruct (scheduled_unique _ _ _ _ _ _ _ _ _ _ _ Hs Hs') as (-> & -> & ->).
  clear Hs'.
  destruct (invocation_events _ _ _ _ _ _ _ _ _ _ _ _ Hs Hw Hc)
    as (setup & evs & pre & code & msg & result & _ & Hev & Hsu & Ha & Hq &
        Hres & _ & Hfe).
  pose proof Hw as (Hctx & _ & _ & _ & _ & _ & _ & _ & _ & _ & _ & Hcode & Hmsg & _).
  rewrite Hok in Hcode. rewrite Hcode, Hfail, Hok in Hmsg.
  rewrite Hcode in Hfe. destruct (Hfe Hfail) as (-> & -> & ->).
  pose proof Hc as (pre' & code' & msg' & result' & _ & _ & _ & _ & Hwk & Hrf &
                    _ & _ & Hfin).
  rewrite Hcode in Hfin. destruct (Hfin Hfail) as (_ & _ & _ & Hheap & Hobj).
  exists we, ce, w2, result.
  split; [done|]. split; [done|]. split; [done|]. split; [done|].
  split; [done|]. split.
  { rewrite Hev.
    rewrite (deliveries_of_invocation setup evs [] _ _ Hsu Ha Hq
               (delivery_is_delivery _ _ _ _ _ _)
               (release_trace_releases _ _ _ _)).
    unfold delivery. rewrite Hmsg, Hfail. by destruct (asyncType c1). }
  split; [by apply Hres|].
  split; [|done].
  rewrite Hev. apply Forall_app_2.
  { eapply Forall_impl; [exact Hsu|]. by intros []. }
  apply Forall_app_2.
  { eapply Forall_impl; [exact Ha|]. by intros []. }
  cbn [app]. apply Forall_cons_2.
  { unfold delivery. by destruct (asyncType c1), (failed _). }
  eapply Forall_impl; [apply release_trace_releases|]. by intros [].
Qed.

(** C8.  When the completion mode is Callback and the callable cannot
    be retained, the entry point answers [nullptr] at once: it has
    freed what it allocated, the context included, no work exists or
    is queued, and every store is as before.  An invocation whose
    context cannot be allocated ends in the same way, with the same
    answer and the same stores. *)
Theorem retention_failure_refused op this info w :
  ready op this info w = true ->
  GetAsyncType (length info) (max_args op) (callback_arg op info) =
    ASYNC_TYPE_CALLBACK ->
  is_callable (callback_arg op info) = false \/
    alloc_ok_at (retention_slot op) w = false ->
  exists w1,
    entry_point op this info w = Ok NvNullptr w1 /\
    Refused w NvNullptr w1 /\
    works w1 = works w /\ queue w1 = queue w /\ heap w1 = heap w /\
    forall w', same_stores w w' -> alloc_ok_at 0 w' = false ->
      exists w1', entry_point op this info w' = Ok NvNullptr w1' /\
                  Refused w' NvNullptr w1' /\ same_stores w1 w1'.
Proof.
  intros Hr Hmode Hfail.
  destruct (lifecycle _ _ _ _ Hr) as (v & w1 & He & [Hrf|Hsd]).
  - pose proof Hrf as (-> & Hsame & _). exists w1. split; [done|].
    split; [done|]. pose proof Hsame as (Hh & Hrefs & Hwk & Hqu & Hdf & Hob).
    split; [done|]. split; [done|]. split; [done|].
    intros w' Hs' Hno.
    assert (ready op this info w' = true) as Hr'
      by (by rewrite (ready_same_stores _ _ _ _ _ Hs')).
    destruct (lifecycle _ _ _ _ Hr') as (v' & w1' & He' & [Hrf'|Hsd']).
    + pose proof Hrf' as (-> & Hsame' & _). exists w1'. split; [done|].
      split; [done|].
      destruct Hs' as (? & ? & ? & ? & ? & ?).
      destruct Hsame' as (? & ? & ? & ? & ? & ?).
      repeat split; congruence.
    + exfalso. destruct Hsd' as (h & context & c1 & _ & _ & _ & Hs & _).
      destruct Hs as (_ & _ & _ & _ & _ & _ & _ & _ & _ & _ & _ & Hok & _).
      congruence.
  - exfalso. destruct Hsd as (h & context & c1 & _ & _ & _ & Hs & _).
    destruct Hs as (_ & _ & _ & _ & _ & _ & _ & _ & _ & Hty & _ & _ & _ & Hcase).
    rewrite Hty, Hmode in Hcase. destruct Hcase as (Hcb & Hret & _).
    destruct Hfail; congruence.
Qed.

End Lifecycle.

(** * The completion mode *)

Section Selector.
Context `{!Collaborators}.

Lemma CreateCallbackAndPromise_policy context c argc maxCount value w :
  (forall a m v, GetAsyncType a m v = spec_GetAsyncType a m v) ->
  is_null context = false -> heap w !! context = Some (BCtx c) ->
  exists ok w1,
    CreateCallbackAndPromise context argc maxCount value w = Ok ok w1 /\
    if (argc =? maxCount)%nat && is_callable value then
      if alloc_ok_at 0 w then
        ok = true /\
        exists r, is_null r = false /\ refs w !! r = None /\
          refs w1 = <[r := value]> (refs w) /\ deferreds w1 = deferreds w /\
          heap w1 = <[context := BCtx (set_callback r
                        (set_asyncType ASYNC_TYPE_CALLBACK c))]> (heap w)
      else ok = false /\ refs w1 = refs w /\ deferreds w1 = deferreds w
    else
      ok = true /\
      exists d, deferreds w !! d = None /\
        deferreds w1 = <[d := Pending]> (deferreds w) /\ refs w1 = refs w /\
        heap w1 = <[context := BCtx (set_promise (NvPromise d)
                      (set_deferred d (set_asyncType ASYNC_TYPE_PROMISE c)))]>
                    (heap w).
Proof.
  intros Hspec Hn Hc. apply wp_run.
  unfold CreateCallbackAndPromise, CertGetCallbackFromJSParams.
  rewrite Hspec. unfold spec_GetAsyncType, alloc_ok_at. cbn [Nat.iter].
  destruct ((argc =? maxCount)%nat && is_callable value) eqn:Hsel.
  - apply andb_true_iff in Hsel as [_ Hcal]. wp_go.
    all: cbv [Nat.iter nat_rect]; rew_known; cbv iota.
    + split; [done|]. exists r. by repeat split.
    + by repeat split.
  - wp_go. split; [done|]. exists d. by repeat split.
Qed.

End Selector.

(** * The two getters on the native signature *)

Ltac signature_leaf :=
  lazymatch goal with
  | |- signature_outcome _ _ ?w _ ?w1 =>
      let E := fresh "E" in
      eassert (log w1 = log w ++ _) as E by (wsimpl; solve_log_ext);
      cbn [app] in E; apply events_ext in E;
      unfold signature_outcome, alloc_ok_at; cbv [Nat.iter nat_rect];
      rewrite E; unfold failed; rew_known; cbn [fst snd];
      rew_known; cbn [negb andb List.filter is_throw];
      rewrite ?firstn_all;
      split; [reflexivity|]; split; [by repeat split|]; split; reflexivity
  end.

Section Signature.
Context `{!Collaborators}.

Lemma GetTBSCertList_outcome this w o :
  crl_of this w = Some o ->
  wp (GetTBSCertList this) w (signature_outcome "get tbs info failed" o w).
Proof.
  intros (x & Hn1 & Hn2 & H1 & H2)%crl_of_Some.
  unfold GetTBSCertList. wp_go.
  all: signature_leaf.
Qed.

Lemma GetSignature_outcome this w o :
  crl_of this w = Some o ->
  wp (GetSignature this) w (signature_outcome "get signature failed" o w).
Proof.
  intros (x & Hn1 & Hn2 & H1 & H2)%crl_of_Some.
  unfold GetSignature. wp_go.
  all: signature_leaf.
Qed.

(** C10.  For every CRL object and every outcome of the native
    [getSignature], [GetTBSCertList] (getTbsInfo) and [GetSignature]
    answer the same value, which is the signature the native function
    produced or [nullptr], and leave the same stores; they differ only
    in the message of the error thrown when the native call fails. *)
Theorem tbs_info_is_signature this w o :
  crl_of this w = Some o ->
  exists v w1 w2,
    GetTBSCertList this w = Ok v w1 /\ GetSignature this w = Ok v w2 /\
    v = (if alloc_ok_at 0 w && negb (failed (fst (crl_getSignature o)))
         then NvUint8Array (snd (crl_getSignature o)) else NvNullptr) /\
    same_stores w w1 /\ same_stores w w2 /\ plan w1 = plan w2 /\
    List.filter is_throw (events w w1) =
      (if alloc_ok_at 0 w && failed (fst (crl_getSignature o))
       then [EvThrow (CertGenerateBusinessError (fst (crl_getSignature o))
                        (Some "get tbs info failed"))]
       else []) /\
    List.filter is_throw (events w w2) =
      (if alloc_ok_at 0 w && failed (fst (crl_getSignature o))
       then [EvThrow (CertGenerateBusinessError (fst (crl_getSignature o))
                        (Some "get signature failed"))]
       else []).
Proof.
  intros Ho.
  destruct (proj1 (wp_run _ _ _) (GetTBSCertList_outcome _ _ _ Ho))
    as (v1 & w1 & E1 & -> & Hs1 & Hp1 & Ht1).
  destruct (proj1 (wp_run _ _ _) (GetSignature_outcome _ _ _ Ho))
    as (v2 & w2 & E2 & -> & Hs2 & Hp2 & Ht2).
  eexists _, w1, w2. do 5 (split; [done|]). split; [congruence|]. done.
Qed.

End Signature.

(** * Wrapping a native object *)

Ltac drop_deletes :=
  repeat match goal with
         | H : ?m !! ?p = None |- context[delete ?p ?m] =>
             rewrite (delete_id m p H)
         end.

Ltac entry_wrap_leaf :=
  lazymatch goal with
  | |- entry_wrap_outcome _ ?w _ ?w1 =>
      let E := fresh "E" in
      eassert (log w1 = log w ++ _) as E by (wsimpl; solve_log_ext);
      cbn [app] in E; apply events_ext in E;
      unfold entry_wrap_outcome, alloc_ok_at; cbv [Nat.iter nat_rect];
      rew_known; cbv iota; wsimpl;
      lazymatch type of E with
      | _ = EvAlloc ?e :: _ =>
          exists e; split; [assumption|]; split; [assumption|];
          rewrite E;
          first [ do 2 eexists; do 3 (split; [done|]); split; [reflexivity|];
                  split; reflexivity
                | do 2 (split; [reflexivity|]);
                  split; [norm_stores; reflexivity|];
                  eexists; split; [eassumption|reflexivity] ]
      end
  end.

Section Wrap.
Context `{!Collaborators}.

Lemma GetRevokedCertificate_outcome this info w o s sn :
  crl_of this w = Some o ->
  CertCheckArgsCount (length info) ARGS_SIZE_ONE true = true ->
  argv_at (snd (napi_get_cb_info ARGS_SIZE_ONE info)) PARAM0 = NvInt32 s ->
  crl_getRevokedCert o s = (CF_SUCCESS, sn) ->
  wp (GetRevokedCertificate this info) w (entry_wrap_outcome sn w).
Proof.
  intros (x & Hn1 & Hn2 & H1 & H2)%crl_of_Some Hargs Harg Hnat.
  unfold GetRevokedCertificate. cbn [napi_get_cb_info snd] in *.
  unfold ARGS_SIZE_ONE, PARAM0 in *. unfold CertGetInt32FromJSParams.
  wp_go.
  all: entry_wrap_leaf.
Qed.

Lemma GetRevokedCertificateWithCert_outcome this info w o napiCert cert sn :
  crl_of this w = Some o ->
  CertCheckArgsCount (length info) ARGS_SIZE_ONE true = true ->
  unwrapped (argv_at (snd (napi_get_cb_info ARGS_SIZE_ONE info)) PARAM0) w =
    napiCert ->
  is_null napiCert = false ->
  heap w !! napiCert = Some (BNapiX509Certificate cert) ->
  crl_getRevokedCertWithCert o cert = (CF_SUCCESS, sn) ->
  wp (GetRevokedCertificateWithCert this info) w (entry_wrap_outcome sn w).
Proof.
  intros (x & Hn1 & Hn2 & H1 & H2)%crl_of_Some Hargs Harg Hnn Hcert Hnat.
  unfold GetRevokedCertificateWithCert. cbn [napi_get_cb_info snd] in *.
  unfold ARGS_SIZE_ONE, PARAM0 in *. symmetry in Harg.
  wp_go.
  all: entry_wrap_leaf.
Qed.
Lemma invocation_CreateX509Crl_wrap this info w :
  wp (entry_point OpCreateX509Crl this info) w (fun v w1 =>
    Refused w v w1 \/
    exists h context c1,
      Scheduled OpCreateX509Crl info w v w1 h context c1 /\
      wp (run_execute FnCreateX509CrlExecute context) w1 (fun _ we =>
        exists ce, heap we !! context = Some (BCtx ce) /\
          (native_status OpCreateX509Crl this info w c1 = CF_SUCCESS ->
           wp (run_complete FnCreateX509CrlComplete context) we (fun _ w2 =>
             crl_wrap_outcome w we h context ce w2)))).
Proof.
  unfold entry_point, NapiCreateX509Crl. cbn [napi_get_cb_info].
  unfold ARGS_SIZE_ONE, ARGS_SIZE_TWO, PARAM0, PARAM1 in *.
  unfold GetEncodingBlobFromValue.
  destruct (argv_at (take 2 info ++ replicate (2 - length info) NvUndefined) 0)
    eqn:Ea0.
  all: wp_go.
  all: lazymatch goal with
       | |- Refused _ NvNullptr _ \/ _ => refused
       | |- _ => scheduled
       end.
  all: cbn [run_execute]; wp_go.
  all: eexists; (split; [solve_lookup|]).
  all: cbv [native_status napi_get_cb_info snd ARGS_SIZE_TWO PARAM0];
       rew_known; intros Hnat.
  all: repeat match goal with
              | H : context[take (length ?l) ?l] |- _ => rewrite firstn_all in H
              end.
  all: match goal with
       | Hp : HcfX509CrlParse _ _ = _ |- _ =>
           rewrite Hp in Hnat; cbn [fst] in Hnat; subst
       end; try discriminate.
  all: cbn [run_complete]; wp_go.
  all: unfold crl_wrap_outcome; wsimpl;
       (split; [assumption|]); (split; [assumption|]);
       eexists; (split; [solve_lookup|]); rew_known; cbv iota.
  all: lazymatch goal with
       | |- context[events ?we ?w2] =>
           let E := fresh "E" in
           eassert (log w2 = log we ++ _) as E by (wsimpl; solve_log_ext);
           cbn [app] in E; apply events_ext in E; rewrite E;
           lazymatch type of E with
           | _ = EvAlloc ?wr :: EvWrap ?inst _ :: _ =>
               exists inst, wr; split; [assumption|];
               split; [norm_lookup; assumption|];
               split; [comp_owned; reflexivity|];
               split; reflexivity
           | _ =>
               split; [comp_owned; reflexivity|];
               split; [wsimpl; drop_deletes; reflexivity|];
               eexists; split; [eassumption|reflexivity]
           end
       end.
Qed.

Lemma scheduled_not_refused op info w v w1 h context c1 :
  Scheduled op info w v w1 h context c1 -> Refused w v w1 -> False.
Proof.
  intros (_ & _ & _ & Hfr & _ & Hwk1 & _) (_ & (_ & _ & Hwk & _) & _).
  rewrite Hwk1 in Hwk. rewrite <- Hwk, lookup_insert_eq in Hfr. done.
Qed.

Lemma run_scheduled_work op info w v w1 h context c1 we w2 :
  Scheduled op info w v w1 h context c1 ->
  run_execute (execute_of op) context w1 = Ok tt we ->
  run_complete (complete_of op) context we = Ok tt w2 ->
  run_async_work h w1 = Ok tt w2.
Proof.
  intros (_ & _ & _ & _ & _ & Hwk & _) Hex Hco.
  unfold run_async_work, bind, get. rewrite Hwk, lookup_insert_eq. cbn.
  by rewrite Hex.
Qed.

Lemma GenerateCrlEntryArray_loop_wrap_failure n i array oa a bs b s w :
  is_null array = false -> heap w !! array = Some (BArray a) ->
  is_null (arr_data a) = false -> heap w !! arr_data a = Some (BBlobs bs) ->
  bs !! i = Some b ->
  is_null (blob_data b) = false ->
  heap w !! blob_data b = Some (BX509CrlEntry s) ->
  alloc_ok_at 0 w = false ->
  exists w1,
    GenerateCrlEntryArray_loop (S n) i array (NvObject oa) w =
      Ok NvNullptr w1 /\
    events w w1 =
      [ EvThrow (CertGenerateBusinessError CF_ERR_MALLOC
                   (Some "Failed to create a x509CrlEntry class"));
        EvObjDestroy (blob_data b) ] /\
    heap w1 = delete (blob_data b) (heap w) /\
    exists inst, objects w !! inst = None /\
                 objects w1 = <[inst := JsInstance nullptr]> (objects w).
Proof.
  intros Hn Ha Hnd Hd Hb Hnb He Hfail.
  unfold alloc_ok_at in Hfail. cbv [Nat.iter nat_rect] in Hfail.
  assert (wp (GenerateCrlEntryArray_loop (S n) i array (NvObject oa)) w
            (fun v w1 =>
               v = NvNullptr /\
               events w w1 =
                 [ EvThrow (CertGenerateBusinessError CF_ERR_MALLOC
                              (Some "Failed to create a x509CrlEntry class"));
                   EvObjDestroy (blob_data b) ] /\
               heap w1 = delete (blob_data b) (heap w) /\
               exists inst, objects w !! inst = None /\
                 objects w1 = <[inst := JsInstance nullptr]> (objects w)))
    as Hwp.
  { cbn [GenerateCrlEntryArray_loop]. wp_go.
    split; [reflexivity|]. split.
    - apply events_ext. cbn [log]. by rewrite <- app_assoc.
    - split; [reflexivity|]. eexists. split; [eassumption|reflexivity]. }
  apply wp_run in Hwp as (v & w1 & Hrun & -> & Hrest). by exists w1.
Qed.

(** C6.  At each place where a native object that was just produced is
    wrapped ([GetRevokedCertificate], [GetRevokedCertificateWithCert],
    [CreateX509CrlComplete], and the loop of [GenerateCrlEntryArray]
    for the element at hand): if the allocation of the wrapper class
    fails, the native object is destroyed on that path, the error with
    the code [CF_ERR_MALLOC] is thrown or delivered, and nothing is
    wrapped; at the first three the heap is then as before the call.
    If the allocation succeeds, the object is wrapped, live, and not
    destroyed. *)
Theorem orphan_destroyed_on_wrap_failure :
  (forall this info w o s sn,
     crl_of this w = Some o ->
     CertCheckArgsCount (length info) ARGS_SIZE_ONE true = true ->
     argv_at (snd (napi_get_cb_info ARGS_SIZE_ONE info)) PARAM0 = NvInt32 s ->
     crl_getRevokedCert o s = (CF_SUCCESS, sn) ->
     exists v w1, GetRevokedCertificate this info w = Ok v w1 /\
                  entry_wrap_outcome sn w v w1) /\
  (forall this info w o napiCert cert sn,
     crl_of this w = Some o ->
     CertCheckArgsCount (length info) ARGS_SIZE_ONE true = true ->
     unwrapped (argv_at (snd (napi_get_cb_info ARGS_SIZE_ONE info)) PARAM0) w =
       napiCert ->
     is_null napiCert = false ->
     heap w !! napiCert = Some (BNapiX509Certificate cert) ->
     crl_getRevokedCertWithCert o cert = (CF_SUCCESS, sn) ->
     exists v w1, GetRevokedCertificateWithCert this info w = Ok v w1 /\
                  entry_wrap_outcome sn w v w1) /\
  (forall this info w v w1 h context c1,
     entry_point OpCreateX509Crl this info w = Ok v w1 ->
     Scheduled OpCreateX509Crl info w v w1 h context c1 ->
     native_status OpCreateX509Crl this info w c1 = CF_SUCCESS ->
     exists we ce w2,
       run_execute FnCreateX509CrlExecute context w1 = Ok tt we /\
       heap we !! context = Some (BCtx ce) /\
       run_async_work h w1 = Ok tt w2 /\
       crl_wrap_outcome w we h context ce w2) /\
  (forall n i array oa a bs b s w,
     is_null array = false -> heap w !! array = Some (BArray a) ->
     is_null (arr_data a) = false ->
     heap w !! arr_data a = Some (BBlobs bs) ->
     bs !! i = Some b ->
     is_null (blob_data b) = false ->
     heap w !! blob_data b = Some (BX509CrlEntry s) ->
     alloc_ok_at 0 w = false ->
     exists w1,
       GenerateCrlEntryArray_loop (S n) i array (NvObject oa) w =
         Ok NvNullptr w1 /\
       events w w1 =
         [ EvThrow (CertGenerateBusinessError CF_ERR_MALLOC
                      (Some "Failed to create a x509CrlEntry class"));
           EvObjDestroy (blob_data b) ] /\
       heap w1 = delete (blob_data b) (heap w) /\
       exists inst, objects w !! inst = None /\
                    objects w1 = <[inst := JsInstance nullptr]> (objects w)).
Proof.
  split; [|split; [|split]].
  4: { intros. by eapply GenerateCrlEntryArray_loop_wrap_failure. }
  - intros. apply wp_run. by eapply GetRevokedCertificate_outcome.
  - intros. apply wp_run. by eapply GetRevokedCertificateWithCert_outcome.
  - intros this info w v w1 h context c1 He Hs Hnat.
    pose proof (invocation_CreateX509Crl_wrap this info w) as Hinv.
    apply wp_run in Hinv as (v' & w1' & He' & Hcase).
    rewrite He in He'. injection He' as <- <-.
    destruct Hcase as [Hrf|(h' & context' & c1' & Hs' & Hd)].
    { destruct (scheduled_not_refused _ _ _ _ _ _ _ _ Hs Hrf). }
    destruct (scheduled_unique _ _ _ _ _ _ _ _ _ _ _ Hs Hs') as (-> & -> & ->).
    destruct (wp_run_unit _ _ _ Hd) as (we & Hex & ce & Hctx & Hco).
    destruct (wp_run_unit _ _ _ (Hco Hnat)) as (w2 & Hco2 & Hout).
    exists we, ce, w2. split; [done|]. split; [done|]. split; [|done].
    by eapply (run_scheduled_work OpCreateX509Crl).
Qed.
End Wrap.

(** * The array of getRevokedCerts *)

Lemma no_failure_lookup l k : no_failure l = true -> l !! k <> Some false.
Proof.
  unfold no_failure. intros Hl Hk.
  rewrite forallb_forall in Hl. apply list_elem_of_lookup_2, list_elem_of_In in Hk.
  by apply Hl in Hk.
Qed.

Lemma no_failure_drop n l : no_failure l = true -> no_failure (drop n l) = true.
Proof.
  unfold no_failure. rewrite !forallb_forall. intros Hl x Hx. apply Hl.
  apply list_elem_of_In. apply list_elem_of_In in Hx.
  apply list_elem_of_lookup in Hx as [i Hi]. rewrite lookup_drop in Hi.
  by eapply list_elem_of_lookup_2.
Qed.

Lemma no_failure_head l : no_failure l = true -> default true (head l) = true.
Proof.
  intros Hl. by destruct l as [|[] l].
Qed.

Section RevokedArray.
Context `{!Collaborators}.

Lemma invocation_GetRevokedCertificates_array this info w o serials :
  crl_of this w = Some o ->
  crl_getRevokedCerts o = (CF_SUCCESS, serials) ->
  wp (entry_point OpGetRevokedCertificates this info) w (fun v w1 =>
    Refused w v w1 \/
    exists h context c1,
      Scheduled OpGetRevokedCertificates info w v w1 h context c1 /\
      (no_failure (plan w1) = true ->
       wp (run_execute FnGetRevokedCertificatesExecute context) w1 (fun _ we =>
         exists ce, heap we !! context = Some (BCtx ce) /\
           wp (run_complete FnGetRevokedCertificatesComplete context) we
              (fun _ w2 => revoked_outcome serials we ce w2)))).
Proof.
  intros Ho Hnat.
  pose proof Ho as (x & Hn1 & Hn2 & H1 & H2)%crl_of_Some.
  unfold entry_point, GetRevokedCertificates. cbn [napi_get_cb_info].
  unfold ARGS_SIZE_ONE, ARGS_SIZE_TWO, PARAM0, PARAM1 in *;
  wp_go.
  all: lazymatch goal with
       | |- Refused _ NvNullptr _ \/ _ => refused
       | |- _ => scheduled
       end.
  all: wsimpl; intros Hnf;
       pose proof (no_failure_head _ Hnf) as Hh0;
       pose proof (no_failure_drop 1 _ Hnf) as Hnf1.
  all: cbn [run_execute]; wp_go.
  all: try (apply wp_alloc_entries;
       intros w' bs evs Hpl Hrf Hwk Hqu Hdf Hob Hlog Hall (Hgrow & Hnew & Hent & Hnd);
       destruct w' as [hp' pl' rs' ws' qu' ds' os' lg'];
       cbn [heap plan refs works queue deferreds objects log] in *;
       subst pl' rs' ws' qu' ds' os' lg';
       transfer Hgrow tt; wp_go).
  all: eexists; (split; [solve_lookup|]); cbn [run_complete]; wp_go.
  all: try (eapply wp_GenerateCrlEntryArray_loop;
    [ solve_null | solve_lookup | solve_null | solve_lookup | solve_lookup
    | reflexivity
    | intros j b _ Hb;
      destruct (Forall2_lookup_l _ _ _ _ _ Hent Hb) as (s & _ & Hbn & _ & Hbs);
      split; [done|]; exists s; cbn [heap];
      rewrite !lookup_insert_ne by congruence; done
    | apply Forall2_length in Hent; cbn in *; lia
    | ];
    intros v w'' (Hrf & Hwk & Hqu & Hdf & Hfr & evs2 & Hlog2 & Hquiet & Hshape);
    destruct w'' as [hp'' pl'' rs'' ws'' qu'' ds'' os'' lg''];
    cbn [heap plan refs works queue deferreds objects log] in *;
    subst rs'' ws'' qu'' ds'' lg'';
    transfer Hfr tt; wp_go).
  all: lazymatch goal with
       | |- revoked_outcome [] ?we _ ?w2 =>
           let E := fresh "E" in
           eassert (log w2 = log we ++ _) as E by (wsimpl; solve_log_ext);
           cbn [app] in E; apply events_ext in E;
           unfold revoked_outcome; rewrite E; eexists;
           split; [comp_owned; reflexivity|reflexivity]
       | |- _ => idtac
       end.
  all: destruct Hshape as [(-> & k & Hk & Hplan)|
         (-> & Hpl2 & Hnodes & Hkeep & Hobjs & news & Hoa & Hwraps & Hnewobjs & Hndn)];
       [ exfalso; eapply no_failure_lookup; [|exact Hplan]; assumption |].
  all: lazymatch goal with
       | |- revoked_outcome _ ?we _ ?w2 =>
           let E := fresh "E" in
           eassert (log w2 = log we ++ _) as E by (wsimpl; solve_log_ext);
           lazymatch type of E with
           | _ = _ ++ ?e =>
               let E2 := fresh "E" in
               eassert (e = evs2 ++ _) as E2
                 by (cbn [app]; rewrite <- !app_assoc; cbn [app]; reflexivity);
               rewrite E2 in E; clear E2
           end;
           apply events_ext in E;
           unfold revoked_outcome; rewrite E; eexists; split;
           [ unfold deliveries; rewrite List.filter_app,
               (filter_none quiet) by (done || by intros []);
             comp_owned; reflexivity |]
       end.
  all: assert (take (S (length l)) (drop 0 bs) = bs) as Htk
         by (apply Forall2_length in Hent; cbn in Hent; rewrite drop_0;
             apply take_ge; lia);
       rewrite Htk in Hwraps; cbn [app] in Hoa.
  all: lazymatch type of Hoa with
       | _ !! ?oa = _ => exists oa, news, bs
       end.
  all: split; [reflexivity|]; split; [exact Hoa|]; split; [assumption|].
  all: split;
       [ eapply Forall2_impl; [exact Hwraps|];
         intros v b (o' & wr & -> & Ho' & Hwr); exists o', wr;
         split; [done|]; split; [done|]; cbn [heap];
         rewrite !lookup_delete_ne by congruence; done |].
  all: split;
       [ eapply Forall2_impl; [exact Hent|];
         intros b s (Hbn & Hb0 & Hb1); cbn [heap];
         assert (hp'' !! blob_data b = Some (BX509CrlEntry s)) as Hb2
           by (apply Hkeep; rewrite !lookup_insert_ne by congruence; done);
         rewrite !lookup_delete_ne by congruence; done |].
  all: split; assumption.
Qed.

Lemma delivery_of_scheduled op this info w v w1 h context c1 we ce
    code msg result :
  Scheduled op info w v w1 h context c1 ->
  Worked op this info w w1 context c1 we ce ->
  delivery (asyncType ce) (default NvNullptr (refs we !! callback ce))
           (deferred ce) code msg result =
  delivery (asyncType c1) (callback_arg op info) (deferred c1) code msg result.
Proof.
  intros Hs Hw.
  destruct Hw as (_ & Hty & Hcb & Hde & _ & _ & Hrf & _).
  destruct Hs as (_ & _ & _ & _ & _ & _ & _ & _ & _ & _ & _ & _ & _ & Hcase).
  rewrite Hty, Hcb, Hde. destruct (asyncType c1); [|done].
  destruct Hcase as (_ & _ & _ & _ & _ & Hrefs & _).
  by rewrite Hrf, Hrefs, lookup_insert_eq.
Qed.

Lemma deliveries_after_worker op this info w v w1 h context c1 we ce w2 :
  Scheduled op info w v w1 h context c1 ->
  Worked op this info w w1 context c1 we ce ->
  Completed w we h context ce w2 ->
  deliveries (events w w2) = deliveries (events we w2).
Proof.
  intros Hs Hw Hc.
  destruct Hw as (_ & _ & _ & _ & _ & _ & _ & _ & _ & _ & _ & _ & _ &
                  evs & Hle & Ha).
  destruct Hc as (pre & code & msg & result & Hl2 & _).
  destruct Hs as (_ & _ & _ & _ & _ & _ & _ & _ & _ & _ & _ & _ &
                  (setup & Hl & Hsu) & _).
  rewrite (events_ext _ _ _ Hl2).
  rewrite Hle, Hl, <- !app_assoc in Hl2. rewrite (events_ext _ _ _ Hl2).
  unfold deliveries. rewrite !List.filter_app.
  by rewrite (filter_none is_setup), (filter_none is_alloc)
    by (done || by intros []).
Qed.

(** C4.  [GenerateCrlEntryArray] answers [nullptr], not an empty array,
    for a null array pointer and for an array of no elements.  When the
    native call of getRevokedCerts answers N >= 1 entries and no
    allocation fails, the one delivery of the invocation carries an
    array of exactly N instances, the i-th of which wraps, through a
    wrapper of its own, the live native entry of the i-th serial; when
    it answers none, the delivery carries [nullptr]. *)
Theorem revoked_array_delivered :
  (forall w, GenerateCrlEntryArray nullptr w = Ok NvNullptr w) /\
  (forall array a w,
     is_null array = false -> heap w !! array = Some (BArray a) ->
     arr_count a = 0%nat ->
     GenerateCrlEntryArray array w = Ok NvNullptr w) /\
  (forall this info w v w1 h context c1 o serials,
     crl_of this w = Some o ->
     crl_getRevokedCerts o = (CF_SUCCESS, serials) ->
     entry_point OpGetRevokedCertificates this info w = Ok v w1 ->
     Scheduled OpGetRevokedCertificates info w v w1 h context c1 ->
     no_failure (plan w1) = true ->
     exists w2 result,
       run_async_work h w1 = Ok tt w2 /\
       deliveries (events w w2) =
         [ delivery (asyncType c1)
             (callback_arg OpGetRevokedCertificates info) (deferred c1)
             CF_SUCCESS None result ] /\
       match serials with
       | [] => result = NvNullptr
       | _ =>
           exists oa news bs,
             result = NvObject oa /\
             objects w2 !! oa = Some (JsArray news) /\
             objects w !! oa = None /\
             length news = length serials /\
             Forall2 (wraps (heap w2) (objects w2)) news bs /\
             Forall2 (fun b s =>
                        heap w2 !! blob_data b = Some (BX509CrlEntry s))
                     bs serials /\
             NoDup news /\ NoDup (map blob_data bs)
       end).
Proof.
  split; [done|]. split.
  { intros array a w Hn Hl Hc.
    unfold GenerateCrlEntryArray, load_array, load, bind, get.
    rewrite Hn. cbn. rewrite Hl. cbn. by rewrite Hc. }
  intros this info w v w1 h context c1 o serials Ho Hnat He Hs Hnf.
  assert (ready OpGetRevokedCertificates this info w = true) as Hr.
  { cbn. apply bool_decide_eq_true. by rewrite Ho. }
  destruct (lifecycle _ _ _ _ Hr) as (v' & w1' & He' & Hcase).
  rewrite He in He'. injection He' as <- <-.
  destruct Hcase as [Hrf|(h' & context' & c1' & we & ce & w2 & Hs' & Hex &
                          Hco & Hrun & Hw & Hc)].
  { destruct (scheduled_not_refused _ _ _ _ _ _ _ _ Hs Hrf). }
  destruct (scheduled_unique _ _ _ _ _ _ _ _ _ _ _ Hs Hs') as (-> & -> & ->).
  clear Hs'.
  pose proof (invocation_GetRevokedCertificates_array this info w o serials
                Ho Hnat) as Hinv.
  apply wp_run in Hinv as (v' & w1' & He' & Hcase).
  rewrite He in He'. injection He' as <- <-.
  destruct Hcase as [Hrf|(h' & context' & c1' & Hs' & Hd)].
  { destruct (scheduled_not_refused _ _ _ _ _ _ _ _ Hs Hrf). }
  destruct (scheduled_unique _ _ _ _ _ _ _ _ _ _ _ Hs Hs') as (-> & -> & ->).
  destruct (wp_run_unit _ _ _ (Hd Hnf)) as (we' & Hex' & ce' & Hctx & Hco').
  cbn [execute_of] in Hex. rewrite Hex in Hex'. injection Hex' as <-.
  assert (ce' = ce) as -> by (destruct Hw as (Hce & _); congruence).
  destruct (wp_run_unit _ _ _ Hco') as (w2' & Hco2 & result & Hdel & Hshape).
  cbn [complete_of] in Hco. rewrite Hco in Hco2. injection Hco2 as <-.
  exists w2, result. split; [done|]. split.
  { rewrite (deliveries_after_worker _ _ _ _ _ _ _ _ _ _ _ _ Hs Hw Hc), Hdel.
    by rewrite (delivery_of_scheduled _ _ _ _ _ _ _ _ _ _ _ _ _ _ Hs Hw). }
  destruct serials as [|z l]; [done|].
  destruct Hshape as (oa & news & bs & -> & Hoa & Hfresh & Hwraps & Hents &
                      Hndn & Hndb).
  exists oa, news, bs. split; [done|]. split; [done|]. split.
  { destruct Hw as (_ & _ & _ & _ & _ & _ & _ & _ & _ & _ & Hob & _).
    destruct Hs as (_ & _ & _ & _ & _ & _ & _ & Hob1 & _). congruence. }
  split.
  { apply Forall2_length in Hwraps, Hents. congruence. }
  done.
Qed.
End RevokedArray.

(** * The workers *)

Ltac worker_leaf :=
  lazymatch goal with
  | |- worker_outcome ?f _ _ _ _ =>
      unfold worker_outcome, worker_status, worker_message, alloc_ok_at;
      cbv [Nat.iter nat_rect];
      eexists; split; [solve_lookup|];
      split; [unfold same_but_result; wsimpl; repeat split; done|];
      wsimpl; unfold failed; rew_known; wsimpl; norm_lookup; rew_known;
      rewrite ?firstn_all; rew_known; wsimpl;
      repeat match goal with
             | Hl : ?m !! ?k = Some _ |- context[?m !! ?k] => rewrite Hl
             end;
      rew_known; wsimpl;
      repeat split; try reflexivity
  end.

Section Workers.
Context `{!Collaborators}.

Lemma worker_does f data c w :
  is_null data = false -> heap w !! data = Some (BCtx c) ->
  worker_ready f c w ->
  wp (run_execute f data) w (fun _ w' => worker_outcome f data c w w').
Proof.
  intros Hn Hc Hr. destruct f; cbn [worker_ready] in Hr.
  1-3: destruct Hr as [o Ho];
       pose proof Ho as (x & Hn1 & Hn2 & H1 & H2)%crl_of_Some.
  4: destruct Hr as (Hnb & e & bytes & Hb & Hnd & Hd).
  all: cbn [run_execute]; wp_go.
  all: try (apply wp_alloc_entries;
       intros w' bs evs Hpl Hrf Hwk Hqu Hdf Hob Hlog Hall
              (Hgrow & Hnew & Hent & Hnd);
       destruct w' as [hp' pl' rs' ws' qu' ds' os' lg'];
       cbn [heap plan refs works queue deferreds objects log] in *;
       subst pl' rs' ws' qu' ds' os' lg';
       transfer Hgrow tt; wp_go).
  all: worker_leaf.
Qed.
Lemma crl_of_poke this data c0 b w :
  heap w !! data = Some (BCtx c0) ->
  crl_of this (with_heap (insert data (BCtx b)) w) = crl_of this w.
Proof.
  intros Hd. unfold crl_of. cbn [heap with_heap].
  destruct (is_null this); [done|].
  destruct (decide (this = data)) as [->|Hne].
  { by rewrite lookup_insert_eq, Hd. }
  rewrite lookup_insert_ne by done.
  destruct (heap w !! this) as [[| | | | | | | | | |x| | |]|]; try done.
  destruct (is_null x); [done|].
  destruct (decide (x = data)) as [->|Hne2].
  { by rewrite lookup_insert_eq, Hd. }
  by rewrite lookup_insert_ne.
Qed.

Lemma worker_ready_poke f data c cb d p w :
  heap w !! data = Some (BCtx c) ->
  worker_ready f c w ->
  worker_ready f (with_handles cb d p c)
    (with_heap (insert data (BCtx (with_handles cb d p c))) w).
Proof.
  intros Hd Hr.
  destruct f; cbn [worker_ready with_handles crlClass encodingBlob
                   set_callback set_deferred set_promise] in *.
  1-3: by erewrite crl_of_poke.
  destruct Hr as (Hn & e & bytes & Hb & Hne & Hbytes).
  split; [done|]. exists e, bytes. cbn [heap with_heap].
  rewrite !lookup_insert_ne by congruence. done.
Qed.

Lemma worker_status_poke f data c cb d p w :
  heap w !! data = Some (BCtx c) ->
  worker_ready f c w ->
  worker_status f (with_handles cb d p c)
    (with_heap (insert data (BCtx (with_handles cb d p c))) w) =
  worker_status f c w.
Proof.
  intros Hd Hr.
  destruct f; cbn [worker_ready worker_status with_handles crlClass pubKey
                   encodingBlob set_callback set_deferred set_promise] in *.
  1-3: by erewrite crl_of_poke.
  destruct Hr as (Hn & e & bytes & Hb & Hne & Hbytes).
  cbn [heap with_heap]. rewrite lookup_insert_ne, Hb by congruence.
  by rewrite lookup_insert_ne by congruence.
Qed.

(** C9.  Each worker, run on a context whose inputs are there, returns
    and leaves every field of the context as it was except the error
    code, the message and its one payload field ([encoded], [array] or
    [crl]; none for verify), and leaves the references, the deferreds,
    the works, the queue and the script objects alone.  What it writes
    does not depend on the completion handle: run on the same context
    with any other callback reference, deferred and promise, it leaves
    the same error code and message, and those handle fields as they
    were given. *)
Theorem workers_write_only_result f data c w :
  is_null data = false -> heap w !! data = Some (BCtx c) ->
  worker_ready f c w ->
  exists w' c',
    run_execute f data w = Ok tt w' /\
    heap w' !! data = Some (BCtx c') /\
    same_but_result f c c' /\
    refs w' = refs w /\ deferreds w' = deferreds w /\
    works w' = works w /\ queue w' = queue w /\ objects w' = objects w /\
    forall cb d p,
      exists w2 c2,
        run_execute f data
          (with_heap (insert data (BCtx (with_handles cb d p c))) w) =
          Ok tt w2 /\
        heap w2 !! data = Some (BCtx c2) /\
        errCode c2 = errCode c' /\ errMsg c2 = errMsg c' /\
        callback c2 = cb /\ deferred c2 = d /\ promise c2 = p.
Proof.
  intros Hn Hc Hr.
  destruct (wp_run_unit _ _ _ (worker_does f data c w Hn Hc Hr))
    as (w' & Hrun & c' & Hc' & Hsame & Hcode & Hmsg & Hrefs & Hwk & Hqu & Hdf & Hob).
  exists w', c'. do 8 (split; [done|]).
  intros cb d p.
  set (c2 := with_handles cb d p c).
  set (w2 := with_heap (insert data (BCtx c2)) w).
  assert (heap w2 !! data = Some (BCtx c2)) as Hc2
    by (cbn; by rewrite lookup_insert_eq).
  pose proof (worker_ready_poke f data c cb d p w Hc Hr) as Hr2.
  destruct (wp_run_unit _ _ _ (worker_does f data c2 w2 Hn Hc2 Hr2))
    as (w2' & Hrun2 & c2' & Hc2' & Hsame2 & Hcode2 & Hmsg2 & _).
  exists w2', c2'. split; [done|]. split; [done|].
  unfold c2, w2 in Hcode2. rewrite worker_status_poke in Hcode2 by done.
  split; [congruence|].
  destruct Hsame2 as (_ & Hp & Hcb & Hd & _).
  split; [|by rewrite Hp, Hcb, Hd].
  rewrite Hmsg, Hmsg2. rewrite Hcode, Hcode2.
  destruct (failed _); [|done].
  by destruct f.
Qed.

End Workers.

(** * The remaining getters *)

Lemma entry_of_Some this w s :
  entry_of this w = Some s ->
  exists x, is_null this = false /\ is_null x = false /\
            heap w !! this = Some (BNapiX509CrlEntry x) /\
            heap w !! x = Some (BX509CrlEntry s).
Proof.
  unfold entry_of. destruct (is_null this) eqn:E1; [done|].
  destruct (heap w !! this) as [[| | | | | | | | | | |x| |]|] eqn:E2; try done.
  destruct (is_null x) eqn:E3; [done|].
  destruct (heap w !! x) as [[| | | | | | |s'| | | | | |]|] eqn:E4; try done.
  intros [= ->]. by exists x.
Qed.

Ltac blob_getter_leaf :=
  lazymatch goal with
  | |- blob_getter_outcome _ _ _ ?w _ ?w1 =>
      let E := fresh "E" in
      eassert (log w1 = log w ++ _) as E by (wsimpl; solve_log_ext);
      cbn [app] in E; apply events_ext in E;
      unfold blob_getter_outcome, alloc_ok_at; cbv [Nat.iter nat_rect];
      rewrite E; unfold failed; rew_known; cbn [fst snd];
      rew_known; cbn [negb];
      split; [by repeat split|]; split; [reflexivity|];
      lazymatch type of E with
      | _ = [] => split; reflexivity
      | _ = EvAlloc ?b :: EvThrow _ :: _ =>
          exists b; split; [assumption|]; split; [assumption|];
          split; reflexivity
      | _ = EvAlloc ?b :: EvAlloc ?d :: _ =>
          exists b; split; [assumption|]; split; [assumption|];
          exists d; split; [assumption|]; split; [assumption|];
          split; [congruence|];
          split; [rewrite ?firstn_all; reflexivity|reflexivity]
      end
  end.

Section GetterOutcomes.
Context `{!Collaborators} `{!Natives}.

Lemma crl_getter_does g this w o :
  crl_of this w = Some o ->
  wp (crl_getter g this) w
     (blob_getter_outcome (crl_getter_answer g o) (crl_getter_message g)
        (crl_getter_value g) w).
Proof.
  intros (x & Hn1 & Hn2 & H1 & H2)%crl_of_Some.
  destruct g; cbn [crl_getter crl_getter_answer crl_getter_message
                   crl_getter_value].
  all: wp_go.

  all: blob_getter_leaf.
Qed.

(** X1.  Each of [GetIssuerDN], [GetThisUpdate], [GetNextUpdate],
    [GetSigAlgName], [GetSigAlgOID] and [GetSigAlgParams], on a live
    CRL: returns [nullptr] without throwing when its blob cannot be
    allocated; throws the native status with its own message, frees
    the blob and returns [nullptr] when the native call fails; and
    otherwise returns the bytes the native call produced, as a string
    or a Uint8Array, having freed the native buffer and then the blob.
    On every path each allocation is freed exactly once and every store
    is left as it was. *)
Theorem crl_blob_getters_outcome g this w o :
  crl_of this w = Some o ->
  exists v w1,
    crl_getter g this w = Ok v w1 /\
    blob_getter_outcome (crl_getter_answer g o) (crl_getter_message g)
      (crl_getter_value g) w v w1.
Proof. intros Ho. apply wp_run. by apply crl_getter_does. Qed.

Lemma GetCertificateIssuer_does this w s :
  entry_of this w = Some s ->
  wp (GetCertificateIssuer this) w
     (blob_getter_outcome (entry_getCertIssuer s) "get subject name failed"
        NvUint8Array w).
Proof.
  intros (x & Hn1 & Hn2 & H1 & H2)%entry_of_Some.
  wp_go. all: blob_getter_leaf.
Qed.

Lemma GetRevocationDate_does this w s :
  entry_of this w = Some s ->
  wp (GetRevocationDate this) w
     (blob_getter_outcome (entry_getRevocationDate s)
        "get revocation date failed" napi_create_string_utf8 w).
Proof.
  intros (x & Hn1 & Hn2 & H1 & H2)%entry_of_Some.
  wp_go. all: blob_getter_leaf.
Qed.

Lemma GetSerialNumber_does this w s :
  entry_of this w = Some s ->
  wp (GetSerialNumber this) w
     (serial_number_outcome (entry_getSerialNumber s) w).
Proof.
  intros (x & Hn1 & Hn2 & H1 & H2)%entry_of_Some.
  wp_go.
  all: lazymatch goal with
  | |- serial_number_outcome _ ?w _ ?w1 =>
      let E := fresh "E" in
      eassert (log w1 = log w ++ _) as E by (wsimpl; solve_log_ext);
      cbn [app] in E; apply events_ext in E;
      unfold serial_number_outcome;
      rewrite E; unfold failed; rew_known; cbn [fst snd];
      rew_known; cbn [negb];
      split; [by repeat split|]; split; [reflexivity|]
  end.
  - exists p. by rewrite firstn_all.
  - done.
Qed.

(** X2.  The synchronous getters of X509CrlEntry on a live entry:
    [GetCertificateIssuer] and [GetRevocationDate] behave as the blob
    getters of the CRL (no throw when the blob cannot be allocated, the
    native status thrown on failure, the bytes on success, every
    allocation freed once), the former throwing with the message "get
    subject name failed"; [GetSerialNumber], whose blob is in its own
    frame, throws the native status on failure and otherwise answers
    the big integer of the bytes and frees the native buffer.  Every
    store is left as it was. *)
Theorem entry_getters_outcome this w s :
  entry_of this w = Some s ->
  (exists v w1,
     GetCertificateIssuer this w = Ok v w1 /\
     blob_getter_outcome (entry_getCertIssuer s) "get subject name failed"
       NvUint8Array w v w1) /\
  (exists v w1,
     GetRevocationDate this w = Ok v w1 /\
     blob_getter_outcome (entry_getRevocationDate s)
       "get revocation date failed" napi_create_string_utf8 w v w1) /\
  (exists v w1,
     GetSerialNumber this w = Ok v w1 /\
     serial_number_outcome (entry_getSerialNumber s) w v w1).
Proof.
  intros Hs. split; [|split]; apply wp_run.
  - by apply GetCertificateIssuer_does.
  - by apply GetRevocationDate_does.
  - by apply GetSerialNumber_does.
Qed.

Lemma narrow_int_range z : (- 2 ^ 31 <= narrow_int z < 2 ^ 31)%Z.
Proof.
  unfold narrow_int.
  pose proof (Z.mod_pos_bound (z + 2 ^ 31) (2 ^ 32) eq_refl). lia.
Qed.

Lemma narrow_int_small z :
  (- 2 ^ 31 <= z < 2 ^ 31)%Z -> narrow_int z = z.
Proof. intros Hz. unfold narrow_int. rewrite Z.mod_small; lia. Qed.

Lemma IsRevoked_does this info w o :
  crl_of this w = Some o ->
  cert_arg_ok (argv_at (snd (napi_get_cb_info ARGS_SIZE_ONE info)) PARAM0) w =
    true ->
  wp (IsRevoked this info) w (is_revoked_outcome this info w).
Proof.
  intros Ho Hcert.
  pose proof Ho as (x & Hn1 & Hn2 & H1 & H2)%crl_of_Some.
  unfold IsRevoked, cert_arg_ok in *. cbn [napi_get_cb_info snd] in *.
  unfold ARGS_SIZE_ONE, PARAM0 in *.
  remember (unwrapped
              (argv_at (take 1 info ++ replicate (1 - length info) NvUndefined) 0)
              w) as pk eqn:Epk.
  destruct (is_null pk) eqn:En;
    [| cbn [orb] in Hcert;
       destruct (heap w !! pk) as [[| | | | | | | | | | | | |cert]|] eqn:Hc;
       try discriminate ].
  all: wp_go.
  all: lazymatch goal with
  | |- is_revoked_outcome _ _ ?w _ ?w1 =>
      let E := fresh "E" in
      eassert (log w1 = log w ++ _) as E by (wsimpl; solve_log_ext);
      cbn [app] in E; apply events_ext in E;
      unfold is_revoked_outcome;
      cbn [napi_get_cb_info snd]; unfold ARGS_SIZE_ONE, PARAM0;
      rewrite E; rew_known; cbn [negb];
      split; [by repeat split|]; split; [reflexivity|]
  end.
  all: try done.
  split; [done|]. by exists o, cert.
Qed.

(** X3.  The getters that only read.  [IsRevoked] on a live CRL returns
    [nullptr] for a rejected argument count, throws "napiX509Cert is
    null" with [CF_INVALID_PARAMS] and returns [nullptr] for an
    argument that wraps nothing, and otherwise returns the boolean the
    native CRL answers for the certificate behind the argument;
    [GetType] returns the native type as a string, and [GetVersion]
    the native version narrowed to an [int]: its low 32 bits read as a
    signed number, which is the native version itself when that is in
    the range of an [int].  None of them allocates, frees or changes a
    store, and the latter two leave the world exactly as it was. *)
Theorem read_only_getters this info w o :
  crl_of this w = Some o ->
  cert_arg_ok (argv_at (snd (napi_get_cb_info ARGS_SIZE_ONE info)) PARAM0) w =
    true ->
  (exists v w1, IsRevoked this info w = Ok v w1 /\
                is_revoked_outcome this info w v w1) /\
  GetType this w = Ok (napi_create_string_utf8 (crl_getType o)) w /\
  GetVersion this w = Ok (NvInt32 (narrow_int (crl_getVersion o))) w /\
  (- 2 ^ 31 <= narrow_int (crl_getVersion o) < 2 ^ 31)%Z /\
  ((- 2 ^ 31 <= crl_getVersion o < 2 ^ 31)%Z ->
   GetVersion this w = Ok (NvInt32 (crl_getVersion o)) w).
Proof.
  intros Ho Hc. split; [apply wp_run; by apply (IsRevoked_does this info w o)|].
  pose proof Ho as (x & Hn1 & Hn2 & H1 & H2)%crl_of_Some.
  assert (GetVersion this w =
            Ok (NvInt32 (narrow_int (crl_getVersion o))) w) as Hv.
  { unfold GetVersion, GetX509Crl, load_crl, load, bind, get, ret.
    rewrite Hn1. cbn. rewrite H1. cbn. rewrite Hn2. cbn. by rewrite H2. }
  split.
  { unfold GetType, GetX509Crl, load_crl, load, bind, get, ret.
    rewrite Hn1. cbn. rewrite H1. cbn. rewrite Hn2. cbn. by rewrite H2. }
  split; [done|]. split; [apply narrow_int_range|].
  intros Hin. by rewrite Hv, narrow_int_small.
Qed.

End GetterOutcomes.

(** * The registered methods *)

Lemma wp_exact {A} (m : M A) w a w' :
  wp m w (fun b w1 => b = a /\ w1 = w') -> m w = Ok a w'.
Proof.
  unfold wp. destruct (m w) as [b w1|]; [|done]. by intros [-> ->].
Qed.

Ltac guard_case :=
  lazymatch goal with
  | H : (_, _) = (_, _) |- _ => injection H as -> ->
  end;
  apply wp_exact; wp_go; by split.

Section Registered.
Context `{!Collaborators} `{!Natives}.

(** X4.  Every method that [DefineX509CrlJSClass] registers for the
    class X509Crl, called on a receiver that wraps no native object,
    returns [nullptr] and does nothing else: it throws no error,
    allocates nothing and leaves the world exactly as it was. *)
Theorem crl_methods_guard_receiver name f thisVar info w :
  (name, f) ∈ x509CrlDesc ->
  is_null (unwrapped thisVar w) = true ->
  f thisVar info w = Ok NvNullptr w.
Proof.
  intros Hin Hnull. unfold x509CrlDesc in Hin.
  remember (unwrapped thisVar w) as pk eqn:Epk.
  repeat (apply elem_of_cons in Hin as [Hin|Hin]; [guard_case|]).
  by apply elem_of_nil in Hin.
Qed.

(** X5.  Each of the three synchronous methods that
    [DefineX509CrlEntryJSClass] registers for the class X509CrlEntry,
    called on a receiver that wraps no native object, returns
    [nullptr] and does nothing else: it throws no error, allocates
    nothing and leaves the world exactly as it was. *)
Theorem entry_methods_guard_receiver name f thisVar info w :
  (name, f) ∈ x509CrlEntryDesc_sync ->
  is_null (unwrapped thisVar w) = true ->
  f thisVar info w = Ok NvNullptr w.
Proof.
  intros Hin Hnull. unfold x509CrlEntryDesc_sync in Hin.
  remember (unwrapped thisVar w) as pk eqn:Epk.
  repeat (apply elem_of_cons in Hin as [Hin|Hin]; [guard_case|]).
  by apply elem_of_nil in Hin.
Qed.

End Registered.

(** * Lifetimes and whole invocations *)

(** From the three stages of an invocation to the run of its work. *)
Lemma pipeline_run `{!Collaborators} op this info w v w1 h context c1
    (Cnd : World -> CfCtx -> Prop)
    (Q : World -> ptr -> ptr -> CfCtx -> World -> Prop) :
  wp (entry_point op this info) w (fun v w1 =>
    Refused w v w1 \/
    exists h context c1,
      Scheduled op info w v w1 h context c1 /\
      (Cnd w1 c1 ->
       wp (run_execute (execute_of op) context) w1 (fun _ we =>
         wp (run_complete (complete_of op) context) we (fun _ w2 =>
           Q w1 h context c1 w2)))) ->
  entry_point op this info w = Ok v w1 ->
  Scheduled op info w v w1 h context c1 ->
  Cnd w1 c1 ->
  exists w2, run_async_work h w1 = Ok tt w2 /\ Q w1 h context c1 w2.
Proof.
  intros Hinv He Hs Hc.
  apply wp_run in Hinv as (v' & w1' & He' & Hcase).
  rewrite He in He'. injection He' as <- <-.
  destruct Hcase as [Hrf|(h' & context' & c1' & Hs' & Hd)].
  { destruct (scheduled_not_refused _ _ _ _ _ _ _ _ Hs Hrf). }
  destruct (scheduled_unique _ _ _ _ _ _ _ _ _ _ _ Hs Hs') as (-> & -> & ->).
  destruct (wp_run_unit _ _ _ (Hd Hc)) as (we & Hex & Hco).
  destruct (wp_run_unit _ _ _ Hco) as (w2 & Hco2 & HQ).
  exists w2. split; [|done]. by eapply run_scheduled_work.
Qed.

(** The deliveries of a run whose events are known. *)
Ltac delivered_leaf :=
  lazymatch goal with
  | |- Delivered _ _ ?w _ _ _ _ ?w2 =>
      let E := fresh "E" in
      eassert (log w2 = log w ++ _) as E by (wsimpl; solve_log_ext);
      cbn [app] in E; apply events_ext in E;
      unfold Delivered; rewrite E;
      unfold deliveries, delivery, callback_arg, max_args;
      cbn [List.filter is_delivery napi_get_cb_info snd];
      unfold ARGS_SIZE_ONE, ARGS_SIZE_TWO, failed;
      wsimpl; cbn [Nat.sub]; rew_known; wsimpl;
      rewrite ?firstn_all; reflexivity
  end.

Section Payloads.
Context `{!Collaborators} `{!Natives}.

Lemma wp_collect (finalize : ptr -> M unit) v w p Q :
  unwrapped v w = p -> is_null p = false ->
  wp (finalize p) w Q -> wp (collect finalize v) w Q.
Proof.
  intros Hu Hn Hw. unfold collect. apply wp_bind, wp_napi_unwrap.
  by rewrite Hu, Hn.
Qed.

Lemma invocation_GetEncoded_success this info w o bytes fmt :
  crl_of this w = Some o ->
  crl_getEncoded o = (CF_SUCCESS, (bytes, fmt)) ->
  wp (entry_point OpGetEncoded this info) w (fun v w1 =>
    Refused w v w1 \/
    exists h context c1,
      Scheduled OpGetEncoded info w v w1 h context c1 /\
      (worker_alloc_ok OpGetEncoded w1 = true ->
       wp (run_execute (execute_of OpGetEncoded) context) w1 (fun _ we =>
         wp (run_complete (complete_of OpGetEncoded) context) we (fun _ w2 =>
           Delivered OpGetEncoded info w c1 CF_SUCCESS None
             (NvEncodingBlob bytes fmt) w2 /\
           heap w2 = heap w /\ objects w2 = objects w)))).
Proof.
  intros Ho Hnat.
  pose proof Ho as (x & Hn1 & Hn2 & H1 & H2)%crl_of_Some.
  unfold entry_point, GetEncoded. cbn [napi_get_cb_info].
  unfold ARGS_SIZE_ONE, ARGS_SIZE_TWO, PARAM0, PARAM1 in *.
  wp_go.
  all: lazymatch goal with
       | |- Refused _ NvNullptr _ \/ _ => refused
       | |- _ => scheduled
       end.
  all: cbn [worker_alloc_ok plan]; intros Hok.
  all: cbn [execute_of complete_of run_execute run_complete]; wp_go.
  all: split; [delivered_leaf|].
  all: split; [wsimpl; drop_deletes; reflexivity|reflexivity].
Qed.

(** X6.  A scheduled getEncoded on a live CRL whose native call
    succeeds, the buffer of the worker being allocated: the work runs
    to its end and its one delivery carries the encoding the native
    call produced, bytes and format, as the value of the callback or of
    the resolved promise; afterwards the heap and the script objects
    are as they were before the invocation. *)
Theorem getEncoded_delivers_encoding this info w v w1 h context c1 o bytes fmt :
  crl_of this w = Some o ->
  crl_getEncoded o = (CF_SUCCESS, (bytes, fmt)) ->
  entry_point OpGetEncoded this info w = Ok v w1 ->
  Scheduled OpGetEncoded info w v w1 h context c1 ->
  worker_alloc_ok OpGetEncoded w1 = true ->
  exists w2,
    run_async_work h w1 = Ok tt w2 /\
    Delivered OpGetEncoded info w c1 CF_SUCCESS None
      (NvEncodingBlob bytes fmt) w2 /\
    heap w2 = heap w /\ objects w2 = objects w.
Proof.
  intros Ho Hnat He Hs Hok.
  exact (pipeline_run OpGetEncoded this info w v w1 h context c1
           (fun w1 _ => worker_alloc_ok OpGetEncoded w1 = true)
           (fun _ _ _ c1 w2 =>
              Delivered OpGetEncoded info w c1 CF_SUCCESS None
                (NvEncodingBlob bytes fmt) w2 /\
              heap w2 = heap w /\ objects w2 = objects w)
           (invocation_GetEncoded_success this info w o bytes fmt Ho Hnat)
           He Hs Hok).
Qed.

Lemma key_of_Some v w k :
  key_of v w = Some k ->
  is_null (unwrapped v w) = false /\
  heap w !! unwrapped v w = Some (BNapiPubKey k).
Proof.
  unfold key_of. destruct (is_null _); [done|].
  destruct (heap w !! _) as [[]|]; try done. by intros [= ->].
Qed.

Lemma cert_of_Some v w c :
  cert_of v w = Some c ->
  is_null (unwrapped v w) = false /\
  heap w !! unwrapped v w = Some (BNapiX509Certificate c).
Proof.
  unfold cert_of. destruct (is_null _); [done|].
  destruct (heap w !! _) as [[]|]; try done. by intros [= ->].
Qed.

Lemma invocation_Verify_status this info w o k :
  crl_of this w = Some o ->
  key_of (argv_at (snd (napi_get_cb_info ARGS_SIZE_TWO info)) PARAM0) w =
    Some k ->
  wp (entry_point OpVerify this info) w (fun v w1 =>
    Refused w v w1 \/
    exists h context c1,
      Scheduled OpVerify info w v w1 h context c1 /\
      (True ->
       wp (run_execute (execute_of OpVerify) context) w1 (fun _ we =>
         wp (run_complete (complete_of OpVerify) context) we (fun _ w2 =>
           Delivered OpVerify info w c1 (crl_verify o k)
             (if failed (crl_verify o k) then Some "verify crl failed"
              else None) NvNull w2 /\
           heap w2 = heap w /\ objects w2 = objects w)))).
Proof.
  intros Ho [En Hpk]%key_of_Some.
  pose proof Ho as (x & Hn1 & Hn2 & H1 & H2)%crl_of_Some.
  cbn [napi_get_cb_info snd] in En, Hpk.
  unfold entry_point, Verify. cbn [napi_get_cb_info].
  unfold ARGS_SIZE_ONE, ARGS_SIZE_TWO, PARAM0, PARAM1 in *.
  remember (unwrapped
              (argv_at (take 2 info ++ replicate (2 - length info) NvUndefined) 0)
              w) as pk eqn:Epk.
  wp_go.
  all: lazymatch goal with
       | |- Refused _ NvNullptr _ \/ _ => refused
       | |- _ => scheduled
       end.
  all: intros _.
  all: cbn [execute_of complete_of run_execute run_complete]; wp_go.
  all: split; [delivered_leaf|].
  all: split; [wsimpl; drop_deletes; reflexivity|reflexivity].
Qed.

(** X7.  A scheduled verify on a live CRL with an argument that wraps a
    public key: the work runs to its end and its one delivery carries
    the status the native CRL answers for that very key, with the
    message "verify crl failed" when it is a failure, and [null] as the
    value; afterwards the heap and the script objects are as they were
    before the invocation. *)
Theorem verify_delivers_native_status this info w v w1 h context c1 o k :
  crl_of this w = Some o ->
  key_of (argv_at (snd (napi_get_cb_info ARGS_SIZE_TWO info)) PARAM0) w =
    Some k ->
  entry_point OpVerify this info w = Ok v w1 ->
  Scheduled OpVerify info w v w1 h context c1 ->
  exists w2,
    run_async_work h w1 = Ok tt w2 /\
    Delivered OpVerify info w c1 (crl_verify o k)
      (if failed (crl_verify o k) then Some "verify crl failed" else None)
      NvNull w2 /\
    heap w2 = heap w /\ objects w2 = objects w.
Proof.
  intros Ho Hk He Hs.
  exact (pipeline_run OpVerify this info w v w1 h context c1
           (fun _ _ => True)
           (fun _ _ _ c1 w2 =>
              Delivered OpVerify info w c1 (crl_verify o k)
                (if failed (crl_verify o k) then Some "verify crl failed"
                 else None) NvNull w2 /\
              heap w2 = heap w /\ objects w2 = objects w)
           (invocation_Verify_status this info w o k Ho Hk)
           He Hs I).
Qed.

(** Collecting the instance at the end of a run gives back what the
    run still held. *)
Ltac collected :=
  lazymatch goal with
  | |- exists w2 x wr, ?m ?w1 = Ok tt w2 /\ events ?w1 w2 = _ /\ heap w2 = ?hp =>
      let Hw := fresh "Hw" in
      enough (wp m w1 (fun _ w2 =>
                exists x wr, events w1 w2 = [EvObjDestroy x; EvFree wr] /\
                             heap w2 = hp)) as Hw;
      [ let wf := fresh "wf" in let xf := fresh "xf" in
        let wrf := fresh "wrf" in
        let Hq := fresh "Hq" in
        destruct (wp_run_unit _ _ _ Hw) as (wf & ? & Hq);
        cbv beta in Hq; destruct Hq as (xf & wrf & ? & ?);
        by exists wf, xf, wrf
      | eapply wp_collect;
        [ unfold unwrapped; wsimpl; norm_lookup; reflexivity
        | assumption
        | unfold X509CrlEntry_finalize, NapiX509CrlEntry_destructor,
            GetX509CrlEntry, X509Crl_finalize, NapiX509Crl_destructor;
          wp_go;
          lazymatch goal with
          | |- exists x wr, events ?wa ?wb = _ /\ _ =>
              let E := fresh "E" in
              eassert (log wb = log wa ++ _) as E by (wsimpl; solve_log_ext);
              cbn [app] in E; apply events_ext in E; rewrite E;
              do 2 eexists; split; [reflexivity|];
              wsimpl; norm_stores; drop_deletes; reflexivity
          end ] ]
  end.

Ltac entry_created_leaf :=
  lazymatch goal with
  | |- entry_created _ _ _ _ =>
      unfold entry_created; split;
      [ unfold entry_of, unwrapped; wsimpl; norm_lookup; rew_known;
        norm_lookup; rew_known; reflexivity
      | collected ]
  end.

Lemma GetRevokedCertificate_created this info w o s sn :
  crl_of this w = Some o ->
  CertCheckArgsCount (length info) ARGS_SIZE_ONE true = true ->
  argv_at (snd (napi_get_cb_info ARGS_SIZE_ONE info)) PARAM0 = NvInt32 s ->
  crl_getRevokedCert o s = (CF_SUCCESS, sn) ->
  alloc_ok_at 0 w = true ->
  wp (GetRevokedCertificate this info) w (entry_created sn w).
Proof.
  intros (x & Hn1 & Hn2 & H1 & H2)%crl_of_Some Hargs Harg Hnat Hok.
  unfold alloc_ok_at in Hok. cbv [Nat.iter nat_rect] in Hok.
  unfold GetRevokedCertificate. cbn [napi_get_cb_info snd] in *.
  unfold ARGS_SIZE_ONE, PARAM0 in *. unfold CertGetInt32FromJSParams.
  wp_go.
  all: entry_created_leaf.
Qed.

Lemma GetRevokedCertificateWithCert_created this info w o cert sn :
  crl_of this w = Some o ->
  CertCheckArgsCount (length info) ARGS_SIZE_ONE true = true ->
  cert_of (argv_at (snd (napi_get_cb_info ARGS_SIZE_ONE info)) PARAM0) w =
    Some cert ->
  crl_getRevokedCertWithCert o cert = (CF_SUCCESS, sn) ->
  alloc_ok_at 0 w = true ->
  wp (GetRevokedCertificateWithCert this info) w (entry_created sn w).
Proof.
  intros (x & Hn1 & Hn2 & H1 & H2)%crl_of_Some Hargs [Hnn Hcert]%cert_of_Some
    Hnat Hok.
  unfold alloc_ok_at in Hok. cbv [Nat.iter nat_rect] in Hok.
  unfold GetRevokedCertificateWithCert. cbn [napi_get_cb_info snd] in *.
  unfold ARGS_SIZE_ONE, PARAM0 in *.
  remember (unwrapped
              (argv_at (take 1 info ++ replicate (1 - length info) NvUndefined) 0)
              w) as napiCert eqn:Epk.
  wp_go.
  all: entry_created_leaf.
Qed.

(** X8.  [GetRevokedCertificate] on a live CRL, with an integer argument
    for which the native lookup succeeds and the wrapper allocated:
    the instance returned wraps a live entry with the serial the
    native call answered, and when the engine collects the instance
    the finalizer destroys that entry and frees the wrapper, which
    leaves the heap as it was before the call. *)
Theorem revoked_entry_round_trip this info w o s sn :
  crl_of this w = Some o ->
  CertCheckArgsCount (length info) ARGS_SIZE_ONE true = true ->
  argv_at (snd (napi_get_cb_info ARGS_SIZE_ONE info)) PARAM0 = NvInt32 s ->
  crl_getRevokedCert o s = (CF_SUCCESS, sn) ->
  alloc_ok_at 0 w = true ->
  exists v w1,
    GetRevokedCertificate this info w = Ok v w1 /\ entry_created sn w v w1.
Proof.
  intros Ho Hargs Harg Hnat Hok.
  by apply wp_run, (GetRevokedCertificate_created this info w o s sn).
Qed.

(** X9.  [GetRevokedCertificateWithCert] on a live CRL, with an argument
    that wraps a certificate for which the native lookup succeeds and
    the wrapper allocated: the instance returned wraps a live entry
    with the serial the native call answered, and when the engine
    collects the instance the finalizer destroys that entry and frees
    the wrapper, which leaves the heap as it was before the call. *)
Theorem revoked_entry_with_cert_round_trip this info w o cert sn :
  crl_of this w = Some o ->
  CertCheckArgsCount (length info) ARGS_SIZE_ONE true = true ->
  cert_of (argv_at (snd (napi_get_cb_info ARGS_SIZE_ONE info)) PARAM0) w =
    Some cert ->
  crl_getRevokedCertWithCert o cert = (CF_SUCCESS, sn) ->
  alloc_ok_at 0 w = true ->
  exists v w1,
    GetRevokedCertificateWithCert this info w = Ok v w1 /\
    entry_created sn w v w1.
Proof.
  intros Ho Hargs Harg Hnat Hok.
  by apply wp_run, (GetRevokedCertificateWithCert_created this info w o cert sn).
Qed.

Lemma invocation_CreateX509Crl_created this info w bytes fmt o :
  argv_at (snd (napi_get_cb_info ARGS_SIZE_TWO info)) PARAM0 =
    NvEncodingBlob bytes fmt ->
  HcfX509CrlParse bytes fmt = (CF_SUCCESS, o) ->
  wp (entry_point OpCreateX509Crl this info) w (fun v w1 =>
    Refused w v w1 \/
    exists h context c1,
      Scheduled OpCreateX509Crl info w v w1 h context c1 /\
      (alloc_ok_at 0 w1 = true ->
       wp (run_execute (execute_of OpCreateX509Crl) context) w1 (fun _ we =>
         wp (run_complete (complete_of OpCreateX509Crl) context) we
           (fun _ w2 => crl_created info o w c1 w2)))).
Proof.
  intros Ea0 Hp.
  unfold entry_point, NapiCreateX509Crl. cbn [napi_get_cb_info snd] in *.
  unfold ARGS_SIZE_ONE, ARGS_SIZE_TWO, PARAM0, PARAM1 in *.
  unfold GetEncodingBlobFromValue. rewrite Ea0.
  wp_go.
  all: lazymatch goal with
       | |- Refused _ NvNullptr _ \/ _ => refused
       | |- _ => scheduled
       end.
  all: unfold alloc_ok_at; cbv [Nat.iter nat_rect]; cbn [plan]; intros Hok.
  all: cbn [execute_of complete_of run_execute run_complete]; wp_go.
  all: repeat match goal with
              | H : context[take (length ?l) ?l] |- _ => rewrite firstn_all in H
              end.
  all: match goal with
       | Hq : HcfX509CrlParse _ _ = _ |- _ =>
           rewrite Hp in Hq; injection Hq as <- <-
       end; try discriminate.
  all: cbn [run_complete]; wp_go.
  all: unfold crl_created.
  all: lazymatch goal with
       | |- context[EvWrap ?inst ?wr] => exists inst
       end.
  all: split; [delivered_leaf|].
  all: split; [assumption|].
  all: split; [ unfold crl_of, unwrapped; wsimpl; norm_lookup; rew_known;
                norm_lookup; rew_known; reflexivity |].
  all: collected.
Qed.

(** X10.  A scheduled createX509Crl whose input the parser accepts,
    the wrapper being allocated: the work runs to its end, its one
    delivery carries a new instance as a success, the instance wraps
    the live CRL the parser made of the input bytes, and when the
    engine collects it the finalizer destroys that CRL and frees the
    wrapper, after which the heap is as it was before the
    invocation. *)
Theorem createX509Crl_round_trip this info w v w1 h context c1 bytes fmt o :
  argv_at (snd (napi_get_cb_info ARGS_SIZE_TWO info)) PARAM0 =
    NvEncodingBlob bytes fmt ->
  HcfX509CrlParse bytes fmt = (CF_SUCCESS, o) ->
  entry_point OpCreateX509Crl this info w = Ok v w1 ->
  Scheduled OpCreateX509Crl info w v w1 h context c1 ->
  alloc_ok_at 0 w1 = true ->
  exists w2,
    run_async_work h w1 = Ok tt w2 /\ crl_created info o w c1 w2.
Proof.
  intros Ea0 Hp He Hs Hok.
  exact (pipeline_run OpCreateX509Crl this info w v w1 h context c1
           (fun w1 _ => alloc_ok_at 0 w1 = true)
           (fun _ _ _ c1 w2 => crl_created info o w c1 w2)
           (invocation_CreateX509Crl_created this info w bytes fmt o Ea0 Hp)
           He Hs Hok).
Qed.

(** X11.  A scheduled invocation whose worker cannot allocate its
    buffer (getEncoded, getRevokedCerts): the work runs to its end and
    its one delivery is the error [CF_ERR_MALLOC] with the message of
    the worker for this case, as the error argument of the callback or
    the rejection of the promise; heap, script objects, works and
    references are afterwards as before the invocation. *)
Theorem worker_allocation_failure_delivered op this info w v w1 h context c1 :
  ready op this info w = true ->
  entry_point op this info w = Ok v w1 ->
  Scheduled op info w v w1 h context c1 ->
  worker_alloc_ok op w1 = false ->
  exists w2 result,
    run_async_work h w1 = Ok tt w2 /\
    Delivered op info w c1 CF_ERR_MALLOC (Some (worker_msg op false)) result
      w2 /\
    (result = NvNullptr \/ result = NvNull) /\
    heap w2 = heap w /\ objects w2 = objects w /\
    works w2 = works w /\ refs w2 = refs w.
Proof.
  intros Hr He Hs Hok.
  destruct (lifecycle _ _ _ _ Hr) as (v' & w1' & He' & Hcase).
  rewrite He in He'. injection He' as <- <-.
  destruct Hcase as [Hrf|Hsd].
  { destruct (scheduled_not_refused _ _ _ _ _ _ _ _ Hs Hrf). }
  destruct Hsd as (h' & context' & c1' & we & ce & w2 & Hs' & Hex & _ & Hrun &
                   Hw & Hc).
  destruct (scheduled_unique _ _ _ _ _ _ _ _ _ _ _ Hs Hs') as (-> & -> & ->).
  clear Hs'.
  destruct (invocation_events _ _ _ _ _ _ _ _ _ _ _ _ Hs Hw Hc)
    as (setup & evs & pre & code & msg & result & _ & Hev & Hsu & Ha & Hq &
        Hres & _ & Hfe).
  pose proof Hw as (Hctx & _ & _ & _ & _ & _ & _ & _ & _ & _ & _ & Hcode &
                    Hmsg & _).
  rewrite Hok in Hcode. rewrite Hcode, Hok in Hmsg.
  change (failed CF_ERR_MALLOC) with true in Hmsg.
  rewrite Hcode in Hfe. destruct (Hfe eq_refl) as (-> & -> & ->).
  pose proof Hc as (pre' & code' & msg' & result' & _ & _ & _ & _ & Hwk & Hrf &
                    _ & _ & Hfin).
  rewrite Hcode in Hfin. destruct (Hfin eq_refl) as (_ & _ & _ & Hheap & Hobj).
  exists w2, result. split; [done|]. split.
  { unfold Delivered. rewrite Hev.
    rewrite (deliveries_of_invocation setup evs [] _ _ Hsu Ha Hq
               (delivery_is_delivery _ _ _ _ _ _)
               (release_trace_releases _ _ _ _)).
    by rewrite Hmsg. }
  split; [by apply Hres|]. done.
Qed.

Ltac thrown_only_leaf :=
  unfold thrown_only; split; [reflexivity|];
  split; [apply events_ext; wsimpl; reflexivity|];
  by repeat split.

Lemma GetRevokedCertificate_native_failure this info w o s r sn :
  crl_of this w = Some o ->
  CertCheckArgsCount (length info) ARGS_SIZE_ONE true = true ->
  argv_at (snd (napi_get_cb_info ARGS_SIZE_ONE info)) PARAM0 = NvInt32 s ->
  crl_getRevokedCert o s = (r, sn) -> failed r = true ->
  wp (GetRevokedCertificate this info) w
     (thrown_only r "get revoked cert failed!" w).
Proof.
  intros (x & Hn1 & Hn2 & H1 & H2)%crl_of_Some Hargs Harg Hnat Hf.
  unfold GetRevokedCertificate. cbn [napi_get_cb_info snd] in *.
  unfold ARGS_SIZE_ONE, PARAM0 in *. unfold CertGetInt32FromJSParams.
  unfold failed in Hf. apply negb_true_iff in Hf.
  wp_go.
  all: try congruence.
  all: thrown_only_leaf.
Qed.

Lemma GetRevokedCertificateWithCert_native_failure this info w o cert r sn :
  crl_of this w = Some o ->
  CertCheckArgsCount (length info) ARGS_SIZE_ONE true = true ->
  cert_of (argv_at (snd (napi_get_cb_info ARGS_SIZE_ONE info)) PARAM0) w =
    Some cert ->
  crl_getRevokedCertWithCert o cert = (r, sn) -> failed r = true ->
  wp (GetRevokedCertificateWithCert this info) w
     (thrown_only r "get revoked cert with cert failed!" w).
Proof.
  intros (x & Hn1 & Hn2 & H1 & H2)%crl_of_Some Hargs [Hnn Hcert]%cert_of_Some
    Hnat Hf.
  unfold GetRevokedCertificateWithCert. cbn [napi_get_cb_info snd] in *.
  unfold ARGS_SIZE_ONE, PARAM0 in *.
  remember (unwrapped
              (argv_at (take 1 info ++ replicate (1 - length info) NvUndefined) 0)
              w) as napiCert eqn:Epk.
  unfold failed in Hf. apply negb_true_iff in Hf.
  wp_go.
  all: try congruence.
  all: thrown_only_leaf.
Qed.

Lemma GetRevokedCertificateWithCert_missing this info w :
  CertCheckArgsCount (length info) ARGS_SIZE_ONE true = true ->
  is_null (unwrapped
             (argv_at (snd (napi_get_cb_info ARGS_SIZE_ONE info)) PARAM0) w)
    = true ->
  wp (GetRevokedCertificateWithCert this info) w
     (thrown_only CF_INVALID_PARAMS "napiX509Cert is null" w).
Proof.
  intros Hargs Hn.
  unfold GetRevokedCertificateWithCert. cbn [napi_get_cb_info snd] in *.
  unfold ARGS_SIZE_ONE, PARAM0 in *.
  remember (unwrapped
              (argv_at (take 1 info ++ replicate (1 - length info) NvUndefined) 0)
              w) as napiCert eqn:Epk.
  wp_go.
  all: thrown_only_leaf.
Qed.

Lemma Verify_missing this info w :
  CertCheckArgsCount (length info) ARGS_SIZE_TWO false = true ->
  is_null (unwrapped
             (argv_at (snd (napi_get_cb_info ARGS_SIZE_TWO info)) PARAM0) w)
    = true ->
  wp (Verify this info) w
     (thrown_only CF_INVALID_PARAMS "public key is null" w).
Proof.
  intros Hargs Hn.
  unfold Verify. cbn [napi_get_cb_info snd] in *.
  unfold ARGS_SIZE_TWO, PARAM0 in *.
  remember (unwrapped
              (argv_at (take 2 info ++ replicate (2 - length info) NvUndefined) 0)
              w) as pk eqn:Epk.
  wp_go.
  all: thrown_only_leaf.
Qed.

(** X12.  [GetRevokedCertificate] on a live CRL whose native lookup
    fails: it throws the status of the native call with the message
    "get revoked cert failed!" and answers [nullptr]; nothing is
    allocated, wrapped or destroyed and every store is as before. *)
Theorem revoked_lookup_failure_thrown this info w o s r sn :
  crl_of this w = Some o ->
  CertCheckArgsCount (length info) ARGS_SIZE_ONE true = true ->
  argv_at (snd (napi_get_cb_info ARGS_SIZE_ONE info)) PARAM0 = NvInt32 s ->
  crl_getRevokedCert o s = (r, sn) -> failed r = true ->
  exists v w1,
    GetRevokedCertificate this info w = Ok v w1 /\
    thrown_only r "get revoked cert failed!" w v w1.
Proof.
  intros Ho Hargs Harg Hnat Hf.
  by apply wp_run,
    (GetRevokedCertificate_native_failure this info w o s r sn).
Qed.

(** X13.  [GetRevokedCertificateWithCert] on a live CRL whose native
    lookup for the certificate behind the argument fails: it throws
    the status of the native call with the message "get revoked cert
    with cert failed!" and answers [nullptr]; nothing is allocated,
    wrapped or destroyed and every store is as before. *)
Theorem revoked_lookup_with_cert_failure_thrown this info w o cert r sn :
  crl_of this w = Some o ->
  CertCheckArgsCount (length info) ARGS_SIZE_ONE true = true ->
  cert_of (argv_at (snd (napi_get_cb_info ARGS_SIZE_ONE info)) PARAM0) w =
    Some cert ->
  crl_getRevokedCertWithCert o cert = (r, sn) -> failed r = true ->
  exists v w1,
    GetRevokedCertificateWithCert this info w = Ok v w1 /\
    thrown_only r "get revoked cert with cert failed!" w v w1.
Proof.
  intros Ho Hargs Harg Hnat Hf.
  by apply wp_run,
    (GetRevokedCertificateWithCert_native_failure this info w o cert r sn).
Qed.

(** X14.  [Verify] with an accepted number of arguments whose first
    argument wraps nothing: it throws [CF_INVALID_PARAMS] with the
    message "public key is null" and answers [nullptr]; no context is
    allocated, no work is created or queued, and every store is as
    before. *)
Theorem verify_rejects_missing_key this info w :
  CertCheckArgsCount (length info) ARGS_SIZE_TWO false = true ->
  is_null (unwrapped
             (argv_at (snd (napi_get_cb_info ARGS_SIZE_TWO info)) PARAM0) w)
    = true ->
  exists v w1,
    Verify this info w = Ok v w1 /\
    thrown_only CF_INVALID_PARAMS "public key is null" w v w1.
Proof. intros Hargs Hn. by apply wp_run, Verify_missing. Qed.

(** X15.  [GetRevokedCertificateWithCert] with one argument that wraps
    nothing: it throws [CF_INVALID_PARAMS] with the message
    "napiX509Cert is null" and answers [nullptr] without asking the
    native CRL; every store is as before. *)
Theorem with_cert_rejects_missing_certificate this info w :
  CertCheckArgsCount (length info) ARGS_SIZE_ONE true = true ->
  is_null (unwrapped
             (argv_at (snd (napi_get_cb_info ARGS_SIZE_ONE info)) PARAM0) w)
    = true ->
  exists v w1,
    GetRevokedCertificateWithCert this info w = Ok v w1 /\
    thrown_only CF_INVALID_PARAMS "napiX509Cert is null" w v w1.
Proof.
  intros Hargs Hn. by apply wp_run, GetRevokedCertificateWithCert_missing.
Qed.

Lemma wp_GenerateCrlEntryArray_loop_failure k :
  forall n i arrayp a bs oa els rest w Q,
  is_null arrayp = false -> heap w !! arrayp = Some (BArray a) ->
  is_null (arr_data a) = false -> heap w !! arr_data a = Some (BBlobs bs) ->
  objects w !! oa = Some (JsArray els) -> length els = i ->
  entries_live (heap w) bs i -> NoDup (map blob_data bs) ->
  (i + n <= length bs)%nat -> (k < n)%nat ->
  plan w = replicate k true ++ false :: rest ->
  (forall v w', loop_failed (i + k) bs rest w v w' -> Q v w') ->
  wp (GenerateCrlEntryArray_loop n i arrayp (NvObject oa)) w Q.
Proof.
  induction k as [|k IH];
    intros n i arrayp a bs oa els rest w Q Hna Harr Hnd Hdat Hoa Hlen Hlive
      Hdup Hbound Hk Hplan HQ.
  all: destruct n as [|n]; [lia|].
  all: cbn [GenerateCrlEntryArray_loop].
  all: destruct (lookup_lt_is_Some_2 bs i) as [b Hb]; [lia|].
  all: destruct (Hlive i b (le_n _) Hb) as (Hbn & s & Hbs).
  all: assert (default true (head (plan w)) = _) as Hh
         by (rewrite Hplan; reflexivity); cbn in Hh.
  all: unfold load_array, load_blob_at, CreateX509CrlEntry.
  all: wp_go.
  - apply HQ. unfold loop_failed.
    cbn [heap plan refs works queue deferreds objects log].
    split; [done|]. split; [by rewrite Hplan|].
    exists b, []. rewrite Nat.add_0_r.
    split; [done|]. split; [by rewrite lookup_delete_eq|].
    split.
    { intros j b' Hj Hb'. destruct (Hlive j b') as (? & s' & ?); [lia|done|].
      split; [done|]. exists s'. rewrite lookup_delete_ne; [done|].
      intros Heq.
      assert (map blob_data bs !! i = Some (blob_data b)) as Hi
        by (by rewrite list_lookup_fmap, Hb).
      assert (map blob_data bs !! j = Some (blob_data b')) as Hj'
        by (by rewrite list_lookup_fmap, Hb').
      rewrite <- Heq in Hj'.
      pose proof (NoDup_lookup _ _ _ _ Hdup Hi Hj'). lia. }
    split; [by rewrite <- app_assoc|constructor].
  - assert (o <> oa) by congruence.
    assert (Hp : forall q x, heap w !! q = Some x ->
              <[p:=BNapiX509CrlEntry (blob_data b)]> (heap w) !! q = Some x).
    { intros q x Hq. rewrite lookup_insert_ne; [done|]. congruence. }
    subst i. rewrite js_set_element_end.
    eapply (IH n (S (length els)) arrayp a bs oa (els ++ [NvObject o]) rest);
      cbn [heap objects plan].
    + done.
    + by apply Hp.
    + done.
    + by apply Hp.
    + by rewrite lookup_insert_eq.
    + rewrite length_app. cbn. lia.
    + intros j b' Hj Hb'. destruct (Hlive j b') as (? & s' & ?); [lia|done|].
      split; [done|]. exists s'. by apply Hp.
    + done.
    + lia.
    + lia.
    + by rewrite Hplan.
    + intros v w' (-> & Hpl & b' & pre & Hb' & Hgone & Hlive' & Hlog & Hpre).
      cbn [heap plan refs works queue deferreds objects log] in *.
      apply HQ. split; [done|]. split; [done|].
      exists b', (EvAlloc p :: EvWrap o p :: pre).
      rewrite <- Nat.add_succ_comm.
      split; [done|]. split; [done|]. split; [done|].
      split. { rewrite Hlog, <- !app_assoc. done. }
      by repeat constructor.
Qed.

(** X16.  [GenerateCrlEntryArray] over [n] live, distinct native
    entries, the wrappers of the first [k] being allocated and the
    allocation of the next failing: it answers [nullptr], having
    thrown [CF_ERR_MALLOC] and destroyed the entry at index [k] and no
    other; every entry after index [k] is still live in the heap, and
    no further allocation is tried. *)
Theorem array_wrap_failure_leaks_the_rest array a bs k rest w :
  is_null array = false -> heap w !! array = Some (BArray a) ->
  is_null (arr_data a) = false -> heap w !! arr_data a = Some (BBlobs bs) ->
  arr_count a = length bs ->
  entries_live (heap w) bs 0 -> NoDup (map blob_data bs) ->
  (k < length bs)%nat ->
  plan w = replicate k true ++ false :: rest ->
  exists w1 b pre,
    GenerateCrlEntryArray array w = Ok NvNullptr w1 /\
    plan w1 = rest /\
    bs !! k = Some b /\ heap w1 !! blob_data b = None /\
    entries_live (heap w1) bs (S k) /\
    events w w1 = pre ++
      [ EvThrow (CertGenerateBusinessError CF_ERR_MALLOC
                   (Some "Failed to create a x509CrlEntry class"));
        EvObjDestroy (blob_data b) ] /\
    Forall (fun e => no_destroy e = true) pre.
Proof.
  intros Hna Harr Hnd Hdat Hcnt Hlive Hdup Hk Hplan.
  assert (wp (GenerateCrlEntryArray array) w (fun v w1 =>
            v = NvNullptr /\ plan w1 = rest /\
            exists b pre,
              bs !! k = Some b /\ heap w1 !! blob_data b = None /\
              entries_live (heap w1) bs (S k) /\
              log w1 = log w ++ pre ++
                [ EvThrow (CertGenerateBusinessError CF_ERR_MALLOC
                             (Some "Failed to create a x509CrlEntry class"));
                  EvObjDestroy (blob_data b) ] /\
              Forall (fun e => no_destroy e = true) pre)) as Hw.
  { unfold GenerateCrlEntryArray, load_array, napi_create_array. wp_go.
    { apply Nat.eqb_eq in Heqb. lia. }
    eapply (wp_GenerateCrlEntryArray_loop_failure k (arr_count a) 0%nat array a
              bs _ [] rest); cbn [heap objects plan].
    - done.
    - done.
    - done.
    - done.
    - by rewrite lookup_insert_eq.
    - done.
    - done.
    - done.
    - lia.
    - lia.
    - done.
    - intros v w' (-> & Hpl & b & pre & Hb & Hgone & Hlive' & Hlog & Hpre).
      cbn [log] in Hlog.
      split; [done|]. split; [done|]. exists b, pre.
      by repeat (split; [done|]). }
  apply wp_run in Hw as (v & w1 & He & -> & Hpl & b & pre & Hb & Hgone &
                         Hlive' & Hlog & Hpre).
  exists w1, b, pre. repeat (split; [done|]). split; [|done].
  by apply events_ext.
Qed.

End Payloads.

(** * Accepted invocations *)

Section Returning.
Context `{!Collaborators}.

Lemma returned_intro op w we h context ce w2 evs pre result :
  log w2 = log we ++ evs ->
  evs = pre ++
      delivery (asyncType ce) (default NvNullptr (refs we !! callback ce))
               (deferred ce) (fst (final_status op we ce))
               (snd (final_status op we ce)) result ::
      release_trace h (callback ce) (owned_buffers we ce) context ->
  Forall (fun e => quiet e = true) pre ->
  deferreds w2 =
      match asyncType ce with
      | ASYNC_TYPE_CALLBACK => deferreds w
      | ASYNC_TYPE_PROMISE =>
          <[deferred ce := settled (fst (final_status op we ce))
                             (snd (final_status op we ce)) result]>
            (deferreds w)
      end ->
  (failed (fst (final_status op we ce)) = true -> result = failure_value op) ->
  (op = OpVerify -> result = NvNull) ->
  Returned op w we h context ce w2.
Proof. intros ? -> ? ? ? ?. exists pre, result. by repeat (split; [assumption|]). Qed.

End Returning.

Ltac final_known :=
  unfold final_status, failure_value, alloc_ok_at; cbv [Nat.iter nat_rect];
  unfold failed; wsimpl; rew_known; cbn [negb orb fst snd]; rew_known.

Ltac returned_with E evs pre result :=
  lazymatch goal with
  | |- Returned ?op ?w ?we ?h ?p ?ce ?w2 =>
      apply (returned_intro op w we h p ce w2 evs pre result);
      [ exact E
      | final_known; comp_owned; try reflexivity
      | solve_forall
      | final_known; comp_owned; try reflexivity
      | final_known; try (intros; first [discriminate | reflexivity])
      | try (intros; first [discriminate | reflexivity]) ]
  end.

Ltac returned :=
  lazymatch goal with
  | |- Returned ?op ?w ?we ?h ?p ?ce ?w2 =>
      let E := fresh "E" in
      eassert (log w2 = log we ++ _) as E
        by (wsimpl; solve_log_ext);
      cbn [app] in E;
      lazymatch type of E with
      | _ = _ ++ ?evs =>
          let pre := before_delivery evs in
          lazymatch evs with
          | context[EvCall _ [_; ?r]] => returned_with E evs pre r
          | context[EvReject _ _] =>
              let r := eval cbn in (failure_value op) in
              returned_with E evs pre r
          | context[EvResolve _ ?r] => returned_with E evs pre r
          end
      end
  end.

Ltac accepted_known :=
  unfold accepted, answered;
  cbv [max_args callback_arg napi_get_cb_info snd ARGS_SIZE_ONE ARGS_SIZE_TWO
       PARAM0 PARAM1 retention_slot alloc_ok_at Nat.iter nat_rect];
  wsimpl; cbn [Nat.sub]; rew_known; cbn [andb negb]; rew_known;
  repeat first [ rewrite andb_false_r | rewrite andb_true_r
               | progress cbn [andb negb] ];
  try reflexivity.

Ltac served :=
  cbn [execute_of complete_of run_execute run_complete];
  wp_go; eexists; (split; [solve_lookup|]); wp_go; returned.

Ltac served_paths :=
  unfold ARGS_SIZE_ONE, ARGS_SIZE_TWO, PARAM0, PARAM1 in *;
  wp_go;
  (split; [accepted_known|]);
  lazymatch goal with
  | |- Refused _ NvNullptr _ \/ _ => refused
  | |- _ => scheduled; served
  end.

Section Serving.
Context `{!Collaborators}.

Lemma served_GetEncoded this info w :
  ready OpGetEncoded this info w = true ->
  wp (entry_point OpGetEncoded this info) w (Served OpGetEncoded this info w).
Proof.
  intros Hr. cbn in Hr. apply bool_decide_eq_true in Hr as [o Ho].
  pose proof Ho as (x & Hn1 & Hn2 & H1 & H2)%crl_of_Some.
  unfold entry_point, GetEncoded. cbn [napi_get_cb_info].
  unfold Served at 1.
  served_paths.
Qed.

Lemma served_Verify this info w :
  ready OpVerify this info w = true ->
  wp (entry_point OpVerify this info) w (Served OpVerify this info w).
Proof.
  intros Hr. cbn [ready] in Hr. apply andb_true_iff in Hr as [Hr Hk].
  apply bool_decide_eq_true in Hr as [o Ho].
  pose proof Ho as (x & Hn1 & Hn2 & H1 & H2)%crl_of_Some.
  unfold pubkey_arg_ok in Hk. cbn [napi_get_cb_info snd] in Hk.
  unfold entry_point, Verify. cbn [napi_get_cb_info].
  unfold Served at 1, accepted. cbn [napi_get_cb_info snd].
  unfold ARGS_SIZE_ONE, ARGS_SIZE_TWO, PARAM0, PARAM1 in *.
  remember (unwrapped
              (argv_at (take 2 info ++ replicate (2 - length info) NvUndefined) 0)
              w) as pk eqn:Epk.
  destruct (is_null pk) eqn:En.
  - served_paths.
  - cbn [orb] in Hk.
    destruct (heap w !! pk) as [[]|] eqn:Hpk; try discriminate.
    served_paths.
Qed.

Lemma served_CreateX509Crl this info w :
  wp (entry_point OpCreateX509Crl this info) w
     (Served OpCreateX509Crl this info w).
Proof.
  unfold entry_point, NapiCreateX509Crl. cbn [napi_get_cb_info].
  unfold Served at 1, accepted. cbn [napi_get_cb_info snd].
  unfold ARGS_SIZE_ONE, ARGS_SIZE_TWO, PARAM0, PARAM1 in *.
  unfold GetEncodingBlobFromValue.
  destruct (argv_at (take 2 info ++ replicate (2 - length info) NvUndefined) 0)
    eqn:Ea0.
  all: served_paths.
Qed.

Lemma served_GetRevokedCertificates this info w :
  ready OpGetRevokedCertificates this info w = true ->
  wp (entry_point OpGetRevokedCertificates this info) w
     (Served OpGetRevokedCertificates this info w).
Proof.
  intros Hr. cbn in Hr. apply bool_decide_eq_true in Hr as [o Ho].
  pose proof Ho as (x & Hn1 & Hn2 & H1 & H2)%crl_of_Some.
  unfold entry_point, GetRevokedCertificates. cbn [napi_get_cb_info].
  unfold Served at 1.
  unfold ARGS_SIZE_ONE, ARGS_SIZE_TWO, PARAM0, PARAM1 in *;
  wp_go.
  all: split; [accepted_known|].
  all: lazymatch goal with
  | |- Refused _ NvNullptr _ \/ _ => refused
  | |- _ => scheduled
  end.
  all: cbn [execute_of complete_of run_execute run_complete]; wp_go.
  all: try (eexists; (split; [solve_lookup|]); wp_go; returned; fail).
  all: apply wp_alloc_entries;
    intros w' bs evs Hpl Hrf Hwk Hqu Hdf Hob Hlog Hall (Hgrow & Hnew & Hent & Hnd);
    destruct w' as [hp' pl' rs' ws' qu' ds' os' lg'];
    cbn [heap plan refs works queue deferreds objects log] in *;
    subst pl' rs' ws' qu' ds' os' lg';
    transfer Hgrow tt.
  all: wp_go.
  all: eexists; (split; [solve_lookup|]).
  all: wp_go.
  all: eapply wp_GenerateCrlEntryArray_loop;
    [ solve_null | solve_lookup | solve_null | solve_lookup | solve_lookup
    | reflexivity
    | intros j b _ Hb;
      destruct (Forall2_lookup_l _ _ _ _ _ Hent Hb) as (s & _ & Hbn & _ & Hbs);
      split; [done|]; exists s; cbn [heap];
      rewrite !lookup_insert_ne by congruence; done
    | apply Forall2_length in Hent; cbn in *; lia
    | ].
  all: intros v w'' (Hrf & Hwk & Hqu & Hdf & Hfr & evs2 & Hlog2 & Hquiet & _);
    destruct w'' as [hp'' pl'' rs'' ws'' qu'' ds'' os'' lg''];
    cbn [heap plan refs works queue deferreds objects log] in *;
    subst rs'' ws'' qu'' ds'' lg'';
    transfer Hfr tt.
  all: wp_go.
  all: lazymatch goal with
  | |- Returned ?op ?w ?we ?h ?p ?ce ?w2 =>
      let E := fresh "E" in
      eassert (log w2 = log we ++ _) as E by (wsimpl; solve_log_ext);
      lazymatch type of E with
      | _ = _ ++ ?e =>
          let E2 := fresh "E" in
          eassert (e = evs2 ++ _) as E2
            by (cbn [app]; rewrite <- !app_assoc; cbn [app]; reflexivity);
          rewrite E2 in E; clear E2
      end;
      lazymatch type of E with
      | _ = _ ++ ?evs => returned_with E evs evs2 v
      end
  end.
Qed.

(** Every invocation whose receiver and arguments are live is served. *)
Lemma served op this info w :
  ready op this info w = true ->
  wp (entry_point op this info) w (Served op this info w).
Proof.
  destruct op.
  - apply served_GetEncoded.
  - apply served_Verify.
  - apply served_GetRevokedCertificates.
  - intros _. apply served_CreateX509Crl.
Qed.

(** The stages of a served invocation, as runs. *)
Lemma served_run op this info w :
  ready op this info w = true ->
  exists v w1, entry_point op this info w = Ok v w1 /\
    accepted op info w = answered v /\
    (Refused w v w1 \/
     exists h context c1 we ce w2,
       Scheduled op info w v w1 h context c1 /\
       run_execute (execute_of op) context w1 = Ok tt we /\
       heap we !! context = Some (BCtx ce) /\
       run_complete (complete_of op) context we = Ok tt w2 /\
       run_async_work h w1 = Ok tt w2 /\
       Returned op w we h context ce w2).
Proof.
  intros Hr. apply served, wp_run in Hr as (v & w1 & He & Hacc & Hcase).
  exists v, w1. split; [done|]. split; [done|].
  destruct Hcase as [Hrf|(h & context & c1 & Hs & Hd)]; [by left|right].
  destruct (wp_run_unit _ _ _ Hd) as (we & Hex & ce & Hctx & Hco).
  destruct (wp_run_unit _ _ _ Hco) as (w2 & Hco2 & Hret).
  exists h, context, c1, we, ce, w2. repeat (split; [done|]).
  split; [|done]. by eapply run_scheduled_work.
Qed.

Lemma scheduled_answered op info w v w1 h context c1 :
  Scheduled op info w v w1 h context c1 -> answered v = true.
Proof.
  intros (_ & _ & _ & _ & _ & _ & _ & _ & _ & _ & _ & _ & _ & Hcase).
  destruct (asyncType c1).
  - by destruct Hcase as (_ & _ & -> & _).
  - by destruct Hcase as (-> & _).
Qed.

(** C2.  The selector [CreateCallbackAndPromise] chooses Callback
    exactly when the argument count reaches the maximum and the last
    argument is callable, and then retains the callable in a fresh
    reference; for any other count it chooses Promise, creates a
    pending deferred with its promise, and succeeds.  And every entry
    point, on an invocation that is accepted (the argument count in the
    accepted range, the context and the input it reads allocated and,
    in Callback mode, the callable retained), has scheduled its work
    when it returns, with the mode chosen in this way: in Callback mode
    the last argument is retained as the callback and the answer is
    [null]; in Promise mode the deferred is created and pending and the
    answer is its promise.  An invocation that is not accepted is
    refused. *)
Theorem completion_mode_policy op this info w :
  (forall a m v, GetAsyncType a m v = spec_GetAsyncType a m v) ->
  ready op this info w = true ->
  (forall context c argc maxCount value w0,
     is_null context = false -> heap w0 !! context = Some (BCtx c) ->
     exists ok w1,
       CreateCallbackAndPromise context argc maxCount value w0 = Ok ok w1 /\
       if (argc =? maxCount)%nat && is_callable value then
         if alloc_ok_at 0 w0 then
           ok = true /\
           exists r, is_null r = false /\ refs w0 !! r = None /\
             refs w1 = <[r := value]> (refs w0) /\
             deferreds w1 = deferreds w0 /\
             heap w1 = <[context := BCtx (set_callback r
                           (set_asyncType ASYNC_TYPE_CALLBACK c))]> (heap w0)
         else ok = false /\ refs w1 = refs w0 /\ deferreds w1 = deferreds w0
       else
         ok = true /\
         exists d, deferreds w0 !! d = None /\
           deferreds w1 = <[d := Pending]> (deferreds w0) /\
           refs w1 = refs w0 /\
           heap w1 = <[context := BCtx (set_promise (NvPromise d)
                         (set_deferred d
                            (set_asyncType ASYNC_TYPE_PROMISE c)))]>
                       (heap w0)) /\
  exists v w1, entry_point op this info w = Ok v w1 /\
    if accepted op info w then
      exists h context c1,
        Scheduled op info w v w1 h context c1 /\
        if (length info =? max_args op)%nat && is_callable (callback_arg op info)
        then asyncType c1 = ASYNC_TYPE_CALLBACK /\
             v = NvNull /\ is_null (callback c1) = false /\
             refs w !! callback c1 = None /\
             refs w1 !! callback c1 = Some (callback_arg op info)
        else asyncType c1 = ASYNC_TYPE_PROMISE /\
             v = NvPromise (deferred c1) /\
             promise c1 = NvPromise (deferred c1) /\
             callback c1 = nullptr /\
             deferreds w !! deferred c1 = None /\
             deferreds w1 !! deferred c1 = Some Pending
    else Refused w v w1.
Proof.
  intros Hspec Hr. split.
  { intros. by apply CreateCallbackAndPromise_policy. }
  destruct (served_run _ _ _ _ Hr) as (v & w1 & He & Hacc & Hcase).
  exists v, w1. split; [done|]. rewrite Hacc.
  destruct Hcase as [Hrf|(h & context & c1 & _ & _ & _ & Hs & _)].
  { pose proof Hrf as (-> & _). done. }
  rewrite (scheduled_answered _ _ _ _ _ _ _ _ Hs).
  exists h, context, c1. split; [done|].
  destruct Hs as (_ & _ & _ & _ & _ & _ & _ & _ & _ & Hty & _ & _ & _ & Hcase).
  rewrite Hspec in Hty. unfold spec_GetAsyncType in Hty.
  destruct ((length info =? max_args op)%nat && is_callable (callback_arg op info));
    rewrite Hty in Hcase |- *.
  - destruct Hcase as (_ & _ & -> & Hnn & Hfr & Hrefs & _).
    repeat split; try done. by rewrite Hrefs, lookup_insert_eq.
  - destruct Hcase as (-> & Hp & Hcb & Hfr & Hdf & _).
    repeat split; try done. by rewrite Hdf, lookup_insert_eq.
Qed.


End Serving.

Ltac sample_scheduled :=
  unfold Scheduled; vm_compute; repeat split;
  eexists; split; [reflexivity|repeat constructor].

(** * Sample runs *)

Section Samples.
#[local] Existing Instance sample_collaborators.

(** C5.  getRevokedCerts on three revoked entries, the allocation of
    the wrapper of the second entry failing: the second entry is
    destroyed, but the third entry is neither wrapped nor destroyed and
    stays live, and the result is delivered as a success without a
    value: in Promise mode the promise is resolved with [nullptr]
    instead of being rejected, in Callback mode the callback is called
    with no error and no result. *)
Theorem wrap_failure_leaks_and_resolves :
  (exists w2,
     (v <- GetRevokedCertificates 2 [] ;; run_next ;; ret v)
       wrap_failure_world = Ok (NvPromise 1) w2 /\
     List.filter is_destroy (log w2) = [EvObjDestroy 8] /\
     heap w2 !! 7 = Some (BX509CrlEntry 10) /\
     heap w2 !! 8 = None /\
     heap w2 !! 9 = Some (BX509CrlEntry 12) /\
     List.filter is_wrap (log w2) = [EvWrap 10 11] /\
     heap w2 !! 11 = Some (BNapiX509CrlEntry 7) /\
     deliveries (log w2) = [EvResolve 1 NvNullptr] /\
     deferreds w2 !! 1 = Some (Resolved NvNullptr)) /\
  (exists w2,
     (v <- GetRevokedCertificates 2 [NvFunction 5] ;; run_next ;; ret v)
       wrap_failure_callback_world = Ok NvNull w2 /\
     List.filter is_destroy (log w2) = [EvObjDestroy 8] /\
     heap w2 !! 9 = Some (BX509CrlEntry 12) /\
     List.filter is_wrap (log w2) = [EvWrap 10 11] /\
     deliveries (log w2) = [EvCall (NvFunction 5) [NvNullptr; NvNullptr]]).
Proof.
  split.
  - eexists. split; [vm_compute; reflexivity|]. vm_compute. by repeat split.
  - eexists. split; [vm_compute; reflexivity|]. vm_compute. by repeat split.
Qed.

Lemma context_released_exactly_once_witness :
  exists v w1,
    entry_point OpGetEncoded 2 [NvFunction 5] (sample_world CF_SUCCESS []) =
      Ok v w1 /\
    (Refused (sample_world CF_SUCCESS []) v w1 \/
     exists h context c1 we ce w2,
       Scheduled OpGetEncoded [NvFunction 5] (sample_world CF_SUCCESS [])
         v w1 h context c1 /\
       run_execute (execute_of OpGetEncoded) context w1 = Ok tt we /\
       heap we !! context = Some (BCtx ce) /\
       run_async_work h w1 = Ok tt w2 /\
       releases (events (sample_world CF_SUCCESS []) w2) =
         release_trace h (callback c1) (owned_buffers we ce) context /\
       NoDup (context :: owned_buffers we ce) /\
       (forall p, p ∈ context :: owned_buffers we ce ->
          count (EvFree p) (events (sample_world CF_SUCCESS []) w2) = 1%nat /\
          heap w2 !! p = None) /\
       count (EvDeleteAsyncWork h) (events (sample_world CF_SUCCESS []) w2) =
         1%nat /\
       (asyncType c1 = ASYNC_TYPE_CALLBACK ->
          count (EvDeleteReference (callback c1))
            (events (sample_world CF_SUCCESS []) w2) = 1%nat) /\
       works w2 = works (sample_world CF_SUCCESS []) /\
       refs w2 = refs (sample_world CF_SUCCESS [])).
Proof.
  apply (context_released_exactly_once OpGetEncoded 2 [NvFunction 5]
           (sample_world CF_SUCCESS [])).
  vm_compute. reflexivity.
Defined.

Lemma native_failure_delivered_witness :
  exists we ce w2 result,
    run_execute (execute_of OpGetEncoded) 5 failing_scheduled = Ok tt we /\
    heap we !! 5 = Some (BCtx ce) /\
    errCode ce = native_status OpGetEncoded 2 [] failing_world
                   (ctx_at failing_scheduled 5) /\
    errMsg ce = Some (worker_msg OpGetEncoded true) /\
    run_async_work 1 failing_scheduled = Ok tt w2 /\
    deliveries (events failing_world w2) =
      [ match asyncType (ctx_at failing_scheduled 5) with
        | ASYNC_TYPE_CALLBACK =>
            EvCall (callback_arg OpGetEncoded [])
              [ CertGenerateBusinessError
                  (native_status OpGetEncoded 2 [] failing_world
                     (ctx_at failing_scheduled 5))
                  (Some (worker_msg OpGetEncoded true)); result ]
        | ASYNC_TYPE_PROMISE =>
            EvReject (deferred (ctx_at failing_scheduled 5))
              (CertGenerateBusinessError
                 (native_status OpGetEncoded 2 [] failing_world
                    (ctx_at failing_scheduled 5))
                 (Some (worker_msg OpGetEncoded true)))
        end ] /\
    (result = NvNullptr \/ result = NvNull) /\
    Forall (fun e => is_wrap e = false) (events failing_world w2) /\
    objects w2 = objects failing_world /\ heap w2 = heap failing_world /\
    works w2 = works failing_world /\ refs w2 = refs failing_world.
Proof.
  apply (native_failure_delivered OpGetEncoded 2 [] failing_world
           (NvPromise 1) failing_scheduled 1 5 (ctx_at failing_scheduled 5)).
  - vm_compute. reflexivity.
  - vm_compute. reflexivity.
  - sample_scheduled.
  - vm_compute. reflexivity.
  - vm_compute. reflexivity.
Defined.

Lemma completion_mode_policy_witness :
  accepted OpGetRevokedCertificates [NvFunction 5]
    (sample_world CF_SUCCESS []) = true /\
  (forall context c argc maxCount value w0,
     is_null context = false -> heap w0 !! context = Some (BCtx c) ->
     exists ok w1,
       CreateCallbackAndPromise context argc maxCount value w0 = Ok ok w1 /\
       if (argc =? maxCount)%nat && is_callable value then
         if alloc_ok_at 0 w0 then
           ok = true /\
           exists r, is_null r = false /\ refs w0 !! r = None /\
             refs w1 = <[r := value]> (refs w0) /\
             deferreds w1 = deferreds w0 /\
             heap w1 = <[context := BCtx (set_callback r
                           (set_asyncType ASYNC_TYPE_CALLBACK c))]> (heap w0)
         else ok = false /\ refs w1 = refs w0 /\ deferreds w1 = deferreds w0
       else
         ok = true /\
         exists d, deferreds w0 !! d = None /\
           deferreds w1 = <[d := Pending]> (deferreds w0) /\
           refs w1 = refs w0 /\
           heap w1 = <[context := BCtx (set_promise (NvPromise d)
                         (set_deferred d
                            (set_asyncType ASYNC_TYPE_PROMISE c)))]>
                       (heap w0)) /\
  exists v w1,
    entry_point OpGetRevokedCertificates 2 [NvFunction 5]
      (sample_world CF_SUCCESS []) = Ok v w1 /\
    if accepted OpGetRevokedCertificates [NvFunction 5]
         (sample_world CF_SUCCESS [])
    then
      exists h context c1,
        Scheduled OpGetRevokedCertificates [NvFunction 5]
          (sample_world CF_SUCCESS []) v w1 h context c1 /\
        if (length [NvFunction 5] =? max_args OpGetRevokedCertificates)%nat &&
           is_callable (callback_arg OpGetRevokedCertificates [NvFunction 5])
        then asyncType c1 = ASYNC_TYPE_CALLBACK /\
             v = NvNull /\ is_null (callback c1) = false /\
             refs (sample_world CF_SUCCESS []) !! callback c1 = None /\
             refs w1 !! callback c1 =
               Some (callback_arg OpGetRevokedCertificates [NvFunction 5])
        else asyncType c1 = ASYNC_TYPE_PROMISE /\
             v = NvPromise (deferred c1) /\
             promise c1 = NvPromise (deferred c1) /\
             callback c1 = nullptr /\
             deferreds (sample_world CF_SUCCESS []) !! deferred c1 = None /\
             deferreds w1 !! deferred c1 = Some Pending
    else Refused (sample_world CF_SUCCESS []) v w1.
Proof.
  split; [vm_compute; reflexivity|].
  apply (completion_mode_policy OpGetRevokedCertificates 2 [NvFunction 5]
           (sample_world CF_SUCCESS [])).
  - intros a m v. reflexivity.
  - vm_compute. reflexivity.
Defined.


Lemma retention_failure_refused_witness :
  exists w1,
    entry_point OpGetEncoded 2 [NvFunction 5]
      (sample_world CF_SUCCESS [true; false]) = Ok NvNullptr w1 /\
    Refused (sample_world CF_SUCCESS [true; false]) NvNullptr w1 /\
    works w1 = works (sample_world CF_SUCCESS [true; false]) /\
    queue w1 = queue (sample_world CF_SUCCESS [true; false]) /\
    heap w1 = heap (sample_world CF_SUCCESS [true; false]) /\
    forall w', same_stores (sample_world CF_SUCCESS [true; false]) w' ->
      alloc_ok_at 0 w' = false ->
      exists w1', entry_point OpGetEncoded 2 [NvFunction 5] w' =
                    Ok NvNullptr w1' /\
                  Refused w' NvNullptr w1' /\ same_stores w1 w1'.
Proof.
  apply (retention_failure_refused OpGetEncoded 2 [NvFunction 5]
           (sample_world CF_SUCCESS [true; false])).
  - vm_compute. reflexivity.
  - vm_compute. reflexivity.
  - right. vm_compute. reflexivity.
Defined.

Lemma workers_write_only_result_witness :
  exists w' c',
    run_execute FnGetEncodedExecute 5 worker_world = Ok tt w' /\
    heap w' !! 5 = Some (BCtx c') /\
    same_but_result FnGetEncodedExecute (set_crlClass 2 CfCtx_zero) c' /\
    refs w' = refs worker_world /\ deferreds w' = deferreds worker_world /\
    works w' = works worker_world /\ queue w' = queue worker_world /\
    objects w' = objects worker_world /\
    forall cb d p,
      exists w2 c2,
        run_execute FnGetEncodedExecute 5
          (with_heap
             (insert 5 (BCtx (with_handles cb d p (set_crlClass 2 CfCtx_zero))))
             worker_world) = Ok tt w2 /\
        heap w2 !! 5 = Some (BCtx c2) /\
        errCode c2 = errCode c' /\ errMsg c2 = errMsg c' /\
        callback c2 = cb /\ deferred c2 = d /\ promise c2 = p.
Proof.
  apply (workers_write_only_result FnGetEncodedExecute 5
           (set_crlClass 2 CfCtx_zero) worker_world).
  - reflexivity.
  - vm_compute. reflexivity.
  - vm_compute. eexists. reflexivity.
Defined.

Lemma tbs_info_is_signature_witness :
  exists v w1 w2,
    GetTBSCertList 2 (sample_world (CF_ERR_OTHER 19) []) = Ok v w1 /\
    GetSignature 2 (sample_world (CF_ERR_OTHER 19) []) = Ok v w2 /\
    v = (if alloc_ok_at 0 (sample_world (CF_ERR_OTHER 19) []) &&
            negb (failed (fst (crl_getSignature (sample_crl (CF_ERR_OTHER 19)))))
         then NvUint8Array (snd (crl_getSignature (sample_crl (CF_ERR_OTHER 19))))
         else NvNullptr) /\
    same_stores (sample_world (CF_ERR_OTHER 19) []) w1 /\
    same_stores (sample_world (CF_ERR_OTHER 19) []) w2 /\
    plan w1 = plan w2 /\
    List.filter is_throw (events (sample_world (CF_ERR_OTHER 19) []) w1) =
      (if alloc_ok_at 0 (sample_world (CF_ERR_OTHER 19) []) &&
          failed (fst (crl_getSignature (sample_crl (CF_ERR_OTHER 19))))
       then [EvThrow (CertGenerateBusinessError
                        (fst (crl_getSignature (sample_crl (CF_ERR_OTHER 19))))
                        (Some "get tbs info failed"))]
       else []) /\
    List.filter is_throw (events (sample_world (CF_ERR_OTHER 19) []) w2) =
      (if alloc_ok_at 0 (sample_world (CF_ERR_OTHER 19) []) &&
          failed (fst (crl_getSignature (sample_crl (CF_ERR_OTHER 19))))
       then [EvThrow (CertGenerateBusinessError
                        (fst (crl_getSignature (sample_crl (CF_ERR_OTHER 19))))
                        (Some "get signature failed"))]
       else []).
Proof.
  apply (tbs_info_is_signature 2 (sample_world (CF_ERR_OTHER 19) [])
           (sample_crl (CF_ERR_OTHER 19))).
  vm_compute. reflexivity.
Defined.

Lemma revoked_array_delivered_witness :
  GenerateCrlEntryArray nullptr (sample_world CF_SUCCESS []) =
    Ok NvNullptr (sample_world CF_SUCCESS []) /\
  GenerateCrlEntryArray 5 empty_array_world = Ok NvNullptr empty_array_world /\
  exists w2 result,
    run_async_work 1 revoked_scheduled = Ok tt w2 /\
    deliveries (events (sample_world CF_SUCCESS []) w2) =
      [ delivery (asyncType (ctx_at revoked_scheduled 5))
          (callback_arg OpGetRevokedCertificates [])
          (deferred (ctx_at revoked_scheduled 5)) CF_SUCCESS None result ] /\
    exists oa news bs,
      result = NvObject oa /\
      objects w2 !! oa = Some (JsArray news) /\
      objects (sample_world CF_SUCCESS []) !! oa = None /\
      length news = length [10; 11; 12]%Z /\
      Forall2 (wraps (heap w2) (objects w2)) news bs /\
      Forall2 (fun b s => heap w2 !! blob_data b = Some (BX509CrlEntry s))
              bs [10; 11; 12]%Z /\
      NoDup news /\ NoDup (map blob_data bs).
Proof.
  destruct revoked_array_delivered as (Hnull & Hempty & Harray).
  split; [apply Hnull|]. split.
  - apply (Hempty 5 {| arr_data := nullptr; arr_format := 0; arr_count := 0 |}
             empty_array_world).
    + reflexivity.
    + vm_compute. reflexivity.
    + reflexivity.
  - apply (Harray 2 [] (sample_world CF_SUCCESS []) (NvPromise 1)
             revoked_scheduled 1 5 (ctx_at revoked_scheduled 5)
             (sample_crl CF_SUCCESS) [10; 11; 12]%Z).
    + vm_compute. reflexivity.
    + reflexivity.
    + vm_compute. reflexivity.
    + sample_scheduled.
    + vm_compute. reflexivity.
Defined.

Lemma orphan_destroyed_on_wrap_failure_witness :
  (exists v w1,
     GetRevokedCertificate 2 [NvInt32 11] (sample_world CF_SUCCESS [false]) =
       Ok v w1 /\
     entry_wrap_outcome 11 (sample_world CF_SUCCESS [false]) v w1) /\
  (exists v w1,
     GetRevokedCertificateWithCert 2 [NvObject 8]
       (sample_world CF_SUCCESS [false]) = Ok v w1 /\
     entry_wrap_outcome 7 (sample_world CF_SUCCESS [false]) v w1) /\
  (exists we ce w2,
     run_execute FnCreateX509CrlExecute 5 create_scheduled = Ok tt we /\
     heap we !! 5 = Some (BCtx ce) /\
     run_async_work 1 create_scheduled = Ok tt w2 /\
     crl_wrap_outcome create_world we 1 5 ce w2) /\
  (exists w1,
     GenerateCrlEntryArray_loop 2 0 5 (NvObject 9) array_world =
       Ok NvNullptr w1 /\
     events array_world w1 =
       [ EvThrow (CertGenerateBusinessError CF_ERR_MALLOC
                    (Some "Failed to create a x509CrlEntry class"));
         EvObjDestroy 7 ] /\
     heap w1 = delete 7 (heap array_world) /\
     exists inst, objects array_world !! inst = None /\
                  objects w1 =
                    <[inst := JsInstance nullptr]> (objects array_world)).
Proof.
  destruct orphan_destroyed_on_wrap_failure
    as (Hone & Hcert & Hcreate & Hloop).
  split; [|split; [|split]].
  4: { apply (Hloop 1%nat 0%nat 5 9
                {| arr_data := 6; arr_format := 0; arr_count := 2 |}
                [ {| blob_size := 1; blob_data := 7 |};
                  {| blob_size := 1; blob_data := 8 |} ]
                {| blob_size := 1; blob_data := 7 |} 10%Z array_world).
       all: vm_compute; reflexivity. }
  - apply (Hone 2 [NvInt32 11] (sample_world CF_SUCCESS [false])
             (sample_crl CF_SUCCESS) 11%Z 11%Z).
    all: vm_compute; reflexivity.
  - apply (Hcert 2 [NvObject 8] (sample_world CF_SUCCESS [false])
             (sample_crl CF_SUCCESS) 4 3 7%Z).
    all: vm_compute; reflexivity.
  - apply (Hcreate 2 create_info create_world (NvPromise 1) create_scheduled
             1 5 (ctx_at create_scheduled 5)).
    + vm_compute. reflexivity.
    + sample_scheduled.
    + vm_compute. reflexivity.
Defined.

#[local] Existing Instance sample_natives.

Lemma crl_blob_getters_outcome_witness :
  exists v w1,
    crl_getter GetterIssuerDN 2 (sample_world CF_SUCCESS []) = Ok v w1 /\
    blob_getter_outcome
      (crl_getter_answer GetterIssuerDN (sample_crl CF_SUCCESS))
      (crl_getter_message GetterIssuerDN) (crl_getter_value GetterIssuerDN)
      (sample_world CF_SUCCESS []) v w1.
Proof.
  apply (crl_blob_getters_outcome GetterIssuerDN 2 (sample_world CF_SUCCESS [])
           (sample_crl CF_SUCCESS)).
  vm_compute. reflexivity.
Defined.

Lemma entry_getters_outcome_witness :
  (exists v w1,
     GetCertificateIssuer 6 entry_world = Ok v w1 /\
     blob_getter_outcome (entry_getCertIssuer 10%Z) "get subject name failed"
       NvUint8Array entry_world v w1) /\
  (exists v w1,
     GetRevocationDate 6 entry_world = Ok v w1 /\
     blob_getter_outcome (entry_getRevocationDate 10%Z)
       "get revocation date failed" napi_create_string_utf8 entry_world
       v w1) /\
  (exists v w1,
     GetSerialNumber 6 entry_world = Ok v w1 /\
     serial_number_outcome (entry_getSerialNumber 10%Z) entry_world v w1).
Proof.
  apply (entry_getters_outcome 6 entry_world 10%Z).
  vm_compute. reflexivity.
Defined.

Lemma read_only_getters_witness :
  (exists v w1,
     IsRevoked 2 [NvObject 8] (sample_world CF_SUCCESS []) = Ok v w1 /\
     is_revoked_outcome 2 [NvObject 8] (sample_world CF_SUCCESS []) v w1) /\
  GetType 2 (sample_world CF_SUCCESS []) =
    Ok (napi_create_string_utf8 (crl_getType (sample_crl CF_SUCCESS)))
       (sample_world CF_SUCCESS []) /\
  GetVersion 2 (sample_world CF_SUCCESS []) =
    Ok (NvInt32 (narrow_int (crl_getVersion (sample_crl CF_SUCCESS))))
       (sample_world CF_SUCCESS []) /\
  (- 2 ^ 31 <= narrow_int (crl_getVersion (sample_crl CF_SUCCESS))
   < 2 ^ 31)%Z /\
  ((- 2 ^ 31 <= crl_getVersion (sample_crl CF_SUCCESS) < 2 ^ 31)%Z ->
   GetVersion 2 (sample_world CF_SUCCESS []) =
     Ok (NvInt32 (crl_getVersion (sample_crl CF_SUCCESS)))
        (sample_world CF_SUCCESS [])).
Proof.
  apply (read_only_getters 2 [NvObject 8] (sample_world CF_SUCCESS [])
           (sample_crl CF_SUCCESS)).
  - vm_compute. reflexivity.
  - vm_compute. reflexivity.
Defined.

Lemma crl_methods_guard_receiver_witness :
  NapiIsRevoked NvUndefined [] (sample_world CF_SUCCESS []) =
    Ok NvNullptr (sample_world CF_SUCCESS []).
Proof.
  apply (crl_methods_guard_receiver "isRevoked" NapiIsRevoked NvUndefined []
           (sample_world CF_SUCCESS [])).
  - unfold x509CrlDesc. left.
  - vm_compute. reflexivity.
Defined.

Lemma entry_methods_guard_receiver_witness :
  NapiGetSerialNumber NvUndefined [] entry_world = Ok NvNullptr entry_world.
Proof.
  apply (entry_methods_guard_receiver "getSerialNumber" NapiGetSerialNumber
           NvUndefined [] entry_world).
  - unfold x509CrlEntryDesc_sync. left.
  - vm_compute. reflexivity.
Defined.

Lemma getEncoded_delivers_encoding_witness :
  exists w2,
    run_async_work 1 encoded_scheduled = Ok tt w2 /\
    Delivered OpGetEncoded [] (sample_world CF_SUCCESS [])
      (ctx_at encoded_scheduled 5) CF_SUCCESS None
      (NvEncodingBlob [48; 130; 1]%Z 1%Z) w2 /\
    heap w2 = heap (sample_world CF_SUCCESS []) /\
    objects w2 = objects (sample_world CF_SUCCESS []).
Proof.
  apply (getEncoded_delivers_encoding 2 [] (sample_world CF_SUCCESS [])
           (NvPromise 1) encoded_scheduled 1 5 (ctx_at encoded_scheduled 5)
           (sample_crl CF_SUCCESS)).
  - vm_compute. reflexivity.
  - vm_compute. reflexivity.
  - vm_compute. reflexivity.
  - sample_scheduled.
  - vm_compute. reflexivity.
Defined.

Lemma verify_delivers_native_status_witness :
  exists w2,
    run_async_work 1 verify_scheduled = Ok tt w2 /\
    Delivered OpVerify [NvObject 9] key_world (ctx_at verify_scheduled 7)
      (crl_verify (sample_crl CF_SUCCESS) 5)
      (if failed (crl_verify (sample_crl CF_SUCCESS) 5)
       then Some "verify crl failed" else None) NvNull w2 /\
    heap w2 = heap key_world /\ objects w2 = objects key_world.
Proof.
  apply (verify_delivers_native_status 2 [NvObject 9] key_world (NvPromise 1)
           verify_scheduled 1 7 (ctx_at verify_scheduled 7)
           (sample_crl CF_SUCCESS) 5).
  - vm_compute. reflexivity.
  - vm_compute. reflexivity.
  - vm_compute. reflexivity.
  - sample_scheduled.
Defined.

Lemma revoked_entry_round_trip_witness :
  exists v w1,
    GetRevokedCertificate 2 [NvInt32 42] (sample_world CF_SUCCESS []) =
      Ok v w1 /\
    entry_created 42%Z (sample_world CF_SUCCESS []) v w1.
Proof.
  apply (revoked_entry_round_trip 2 [NvInt32 42] (sample_world CF_SUCCESS [])
           (sample_crl CF_SUCCESS) 42%Z 42%Z).
  all: vm_compute; reflexivity.
Defined.

Lemma revoked_entry_with_cert_round_trip_witness :
  exists v w1,
    GetRevokedCertificateWithCert 2 [NvObject 8] (sample_world CF_SUCCESS []) =
      Ok v w1 /\
    entry_created 7%Z (sample_world CF_SUCCESS []) v w1.
Proof.
  apply (revoked_entry_with_cert_round_trip 2 [NvObject 8]
           (sample_world CF_SUCCESS []) (sample_crl CF_SUCCESS) 3 7%Z).
  all: vm_compute; reflexivity.
Defined.

Lemma createX509Crl_round_trip_witness :
  exists w2,
    run_async_work 1 created_scheduled = Ok tt w2 /\
    crl_created create_info (sample_crl CF_SUCCESS)
      (sample_world CF_SUCCESS []) (ctx_at created_scheduled 5) w2.
Proof.
  apply (createX509Crl_round_trip 2 create_info (sample_world CF_SUCCESS [])
           (NvPromise 1) created_scheduled 1 5 (ctx_at created_scheduled 5)
           [48; 130]%Z 0%Z (sample_crl CF_SUCCESS)).
  - vm_compute. reflexivity.
  - vm_compute. reflexivity.
  - vm_compute. reflexivity.
  - sample_scheduled.
  - vm_compute. reflexivity.
Defined.

Lemma worker_allocation_failure_delivered_witness :
  exists w2 result,
    run_async_work 1 starved_scheduled = Ok tt w2 /\
    Delivered OpGetEncoded [] starved_world (ctx_at starved_scheduled 5)
      CF_ERR_MALLOC (Some (worker_msg OpGetEncoded false)) result w2 /\
    (result = NvNullptr \/ result = NvNull) /\
    heap w2 = heap starved_world /\ objects w2 = objects starved_world /\
    works w2 = works starved_world /\ refs w2 = refs starved_world.
Proof.
  apply (worker_allocation_failure_delivered OpGetEncoded 2 [] starved_world
           (NvPromise 1) starved_scheduled 1 5 (ctx_at starved_scheduled 5)).
  - vm_compute. reflexivity.
  - vm_compute. reflexivity.
  - sample_scheduled.
  - vm_compute. reflexivity.
Defined.

Lemma revoked_lookup_failure_thrown_witness :
  exists v w1,
    GetRevokedCertificate 2 [NvInt32 42] (sample_world (CF_ERR_OTHER 19) []) =
      Ok v w1 /\
    thrown_only (CF_ERR_OTHER 19) "get revoked cert failed!"
      (sample_world (CF_ERR_OTHER 19) []) v w1.
Proof.
  apply (revoked_lookup_failure_thrown 2 [NvInt32 42]
           (sample_world (CF_ERR_OTHER 19) []) (sample_crl (CF_ERR_OTHER 19))
           42%Z (CF_ERR_OTHER 19) 42%Z).
  all: vm_compute; reflexivity.
Defined.

Lemma revoked_lookup_with_cert_failure_thrown_witness :
  exists v w1,
    GetRevokedCertificateWithCert 2 [NvObject 8]
      (sample_world (CF_ERR_OTHER 19) []) = Ok v w1 /\
    thrown_only (CF_ERR_OTHER 19) "get revoked cert with cert failed!"
      (sample_world (CF_ERR_OTHER 19) []) v w1.
Proof.
  apply (revoked_lookup_with_cert_failure_thrown 2 [NvObject 8]
           (sample_world (CF_ERR_OTHER 19) []) (sample_crl (CF_ERR_OTHER 19))
           3 (CF_ERR_OTHER 19) 7%Z).
  all: vm_compute; reflexivity.
Defined.

Lemma verify_rejects_missing_key_witness :
  exists v w1,
    Verify 2 [NvInt32 1] (sample_world CF_SUCCESS []) = Ok v w1 /\
    thrown_only CF_INVALID_PARAMS "public key is null"
      (sample_world CF_SUCCESS []) v w1.
Proof.
  apply (verify_rejects_missing_key 2 [NvInt32 1] (sample_world CF_SUCCESS [])).
  all: vm_compute; reflexivity.
Defined.

Lemma with_cert_rejects_missing_certificate_witness :
  exists v w1,
    GetRevokedCertificateWithCert 2 [NvInt32 1] (sample_world CF_SUCCESS []) =
      Ok v w1 /\
    thrown_only CF_INVALID_PARAMS "napiX509Cert is null"
      (sample_world CF_SUCCESS []) v w1.
Proof.
  apply (with_cert_rejects_missing_certificate 2 [NvInt32 1]
           (sample_world CF_SUCCESS [])).
  all: vm_compute; reflexivity.
Defined.

Lemma array_wrap_failure_leaks_the_rest_witness :
  exists w1 b pre,
    GenerateCrlEntryArray 5 array_world = Ok NvNullptr w1 /\
    plan w1 = [] /\
    [ {| blob_size := 1; blob_data := 7 |};
      {| blob_size := 1; blob_data := 8 |} ] !! 0%nat = Some b /\
    heap w1 !! blob_data b = None /\
    entries_live (heap w1)
      [ {| blob_size := 1; blob_data := 7 |};
        {| blob_size := 1; blob_data := 8 |} ] 1 /\
    events array_world w1 = pre ++
      [ EvThrow (CertGenerateBusinessError CF_ERR_MALLOC
                   (Some "Failed to create a x509CrlEntry class"));
        EvObjDestroy (blob_data b) ] /\
    Forall (fun e => no_destroy e = true) pre.
Proof.
  apply (array_wrap_failure_leaks_the_rest 5
           {| arr_data := 6; arr_format := 0; arr_count := 2 |}
           [ {| blob_size := 1; blob_data := 7 |};
             {| blob_size := 1; blob_data := 8 |} ] 0 [] array_world).
  - vm_compute. reflexivity.
  - vm_compute. reflexivity.
  - vm_compute. reflexivity.
  - vm_compute. reflexivity.
  - vm_compute. reflexivity.
  - intros [|[|j]] b Hj Hb; try discriminate; injection Hb as <-;
      (split; [reflexivity|]); eexists; vm_compute; reflexivity.
  - apply (bool_decide_unpack (NoDup [7; 8])). vm_compute. exact I.
  - vm_compute. lia.
  - vm_compute. reflexivity.
Defined.

End Samples.
